(** * The VR4300 pipeline of CEN64 (vr4300/pipeline.c)

    A shallow embedding of the five stage functions, the six replay
    variants and the cycle driver, followed by the properties of the
    pipeline engine that are established about them. *)

From Stdlib Require Import ZArith Lia Bool.
From Stdlib Require Import Floats.SpecFloat.
From stdpp Require Import base option list.

Local Open Scope Z_scope.

(** ** Machine integers

    C integers are carried as [Z]; every conversion the source performs is
    written out. *)

(** Conversion to [uint32_t]. *)
Definition wrap32 (x : Z) : Z := x mod 2 ^ 32.

(** Conversion to [uint64_t]. *)
Definition wrap64 (x : Z) : Z := x mod 2 ^ 64.

(** Conversion to [int32_t] (two's complement). *)
Definition to_s32 (x : Z) : Z := (x + 2 ^ 31) mod 2 ^ 32 - 2 ^ 31.

(** Conversion to [int64_t] (two's complement). *)
Definition to_s64 (x : Z) : Z := (x + 2 ^ 63) mod 2 ^ 64 - 2 ^ 63.

(** ** Data model *)

(** Modelled from the spec: the fault enumeration of vr4300/fault.h, which
    is not part of this file; it has [VR4300_FAULT_NONE] and the six fault
    kinds the specification names. *)
Inductive vr4300_fault_id : Type :=
  | VR4300_FAULT_NONE
  | VR4300_FAULT_IADE
  | VR4300_FAULT_DADE
  | VR4300_FAULT_UNC
  | VR4300_FAULT_LDI
  | VR4300_FAULT_DCB
  | VR4300_FAULT_RST.

#[global] Instance vr4300_fault_id_eq_dec : EqDecision vr4300_fault_id.
Proof. solve_decision. Defined.

(** [enum vr4300_bus_request_type]. *)
Inductive vr4300_bus_request_type : Type :=
  | VR4300_BUS_REQUEST_NONE
  | VR4300_BUS_REQUEST_READ
  | VR4300_BUS_REQUEST_WRITE.

#[global] Instance vr4300_bus_request_type_eq_dec :
  EqDecision vr4300_bus_request_type.
Proof. solve_decision. Defined.

(** [struct segment]: a translation window.  The engine holds pointers into
    a constant table; a pointer is modelled by the descriptor it points to. *)
Record segment : Type := {
  seg_start : Z;
  seg_length : Z;
  seg_offset : Z;
  seg_cached : bool
}.

(** [struct vr4300_opcode]. *)
Record vr4300_opcode : Type := {
  op_id : nat;
  op_flags : Z
}.

(** [struct vr4300_latch], the part common to all four latches. *)
Record vr4300_latch : Type := {
  pc : Z;
  fault : vr4300_fault_id
}.

(** [struct vr4300_bus_request]. *)
Record vr4300_bus_request : Type := {
  req_address : Z;
  req_word : Z;
  req_dqm : Z;
  req_type : vr4300_bus_request_type;
  req_size : Z
}.

Record vr4300_icrf_latch : Type := {
  icrf_common : vr4300_latch;
  icrf_segment : segment;
  icrf_pc : Z
}.

Record vr4300_rfex_latch : Type := {
  rfex_common : vr4300_latch;
  rfex_opcode : vr4300_opcode;
  rfex_iw : Z;
  rfex_iw_mask : Z
}.

Record vr4300_exdc_latch : Type := {
  exdc_common : vr4300_latch;
  exdc_segment : segment;
  exdc_result : Z;
  exdc_request : vr4300_bus_request;
  exdc_dest : nat
}.

Record vr4300_dcwb_latch : Type := {
  dcwb_common : vr4300_latch;
  dcwb_result : Z;
  dcwb_dest : nat
}.

(** [struct vr4300_pipeline]: the four latches and the control state.  The
    counters are unsigned in C. *)
Record vr4300_pipeline : Type := {
  dcwb_latch : vr4300_dcwb_latch;
  exdc_latch : vr4300_exdc_latch;
  rfex_latch : vr4300_rfex_latch;
  icrf_latch : vr4300_icrf_latch;
  exception_history : Z;
  cycles_to_stall : Z;
  skip_stages : nat;
  fault_present : bool
}.

(** One call of [bus_write_word], with the arguments as the DC stage passes
    them. *)
Record bus_write : Type := {
  bw_address : Z;
  bw_word : Z;
  bw_dqm : Z
}.

(** [struct vr4300].  [regs] is the array of 64-bit registers (the general
    purpose registers first, the CP0 registers behind them).  The bus
    controller behind [vr4300->bus] is represented by the writes issued to
    it, most recent first. *)
Record vr4300 : Type := {
  pipeline : vr4300_pipeline;
  regs : list Z;
  signals : Z;
  bus : list bus_write
}.

(** Modelled from the spec: [VR4300_REGISTER_R0] of vr4300/cpu.h, which is
    not part of this file; register 0 is the hard-wired zero register. *)
Definition VR4300_REGISTER_R0 : nat := 0%nat.

(** *** Field updates *)

Definition set_pipeline (s : vr4300) (p : vr4300_pipeline) : vr4300 :=
  {| pipeline := p; regs := regs s; signals := signals s; bus := bus s |}.

Definition set_regs (s : vr4300) (r : list Z) : vr4300 :=
  {| pipeline := pipeline s; regs := r; signals := signals s; bus := bus s |}.

Definition set_bus (s : vr4300) (b : list bus_write) : vr4300 :=
  {| pipeline := pipeline s; regs := regs s; signals := signals s; bus := b |}.

Definition set_dcwb_latch (s : vr4300) (l : vr4300_dcwb_latch) : vr4300 :=
  let p := pipeline s in
  set_pipeline s
    {| dcwb_latch := l; exdc_latch := exdc_latch p;
       rfex_latch := rfex_latch p; icrf_latch := icrf_latch p;
       exception_history := exception_history p;
       cycles_to_stall := cycles_to_stall p;
       skip_stages := skip_stages p; fault_present := fault_present p |}.

Definition set_exdc_latch (s : vr4300) (l : vr4300_exdc_latch) : vr4300 :=
  let p := pipeline s in
  set_pipeline s
    {| dcwb_latch := dcwb_latch p; exdc_latch := l;
       rfex_latch := rfex_latch p; icrf_latch := icrf_latch p;
       exception_history := exception_history p;
       cycles_to_stall := cycles_to_stall p;
       skip_stages := skip_stages p; fault_present := fault_present p |}.

Definition set_rfex_latch (s : vr4300) (l : vr4300_rfex_latch) : vr4300 :=
  let p := pipeline s in
  set_pipeline s
    {| dcwb_latch := dcwb_latch p; exdc_latch := exdc_latch p;
       rfex_latch := l; icrf_latch := icrf_latch p;
       exception_history := exception_history p;
       cycles_to_stall := cycles_to_stall p;
       skip_stages := skip_stages p; fault_present := fault_present p |}.

Definition set_icrf_latch (s : vr4300) (l : vr4300_icrf_latch) : vr4300 :=
  let p := pipeline s in
  set_pipeline s
    {| dcwb_latch := dcwb_latch p; exdc_latch := exdc_latch p;
       rfex_latch := rfex_latch p; icrf_latch := l;
       exception_history := exception_history p;
       cycles_to_stall := cycles_to_stall p;
       skip_stages := skip_stages p; fault_present := fault_present p |}.

Definition set_exception_history (s : vr4300) (h : Z) : vr4300 :=
  let p := pipeline s in
  set_pipeline s
    {| dcwb_latch := dcwb_latch p; exdc_latch := exdc_latch p;
       rfex_latch := rfex_latch p; icrf_latch := icrf_latch p;
       exception_history := h;
       cycles_to_stall := cycles_to_stall p;
       skip_stages := skip_stages p; fault_present := fault_present p |}.

Definition set_cycles_to_stall (s : vr4300) (c : Z) : vr4300 :=
  let p := pipeline s in
  set_pipeline s
    {| dcwb_latch := dcwb_latch p; exdc_latch := exdc_latch p;
       rfex_latch := rfex_latch p; icrf_latch := icrf_latch p;
       exception_history := exception_history p;
       cycles_to_stall := c;
       skip_stages := skip_stages p; fault_present := fault_present p |}.

Definition set_skip_stages (s : vr4300) (k : nat) : vr4300 :=
  let p := pipeline s in
  set_pipeline s
    {| dcwb_latch := dcwb_latch p; exdc_latch := exdc_latch p;
       rfex_latch := rfex_latch p; icrf_latch := icrf_latch p;
       exception_history := exception_history p;
       cycles_to_stall := cycles_to_stall p;
       skip_stages := k; fault_present := fault_present p |}.

Definition set_fault_present (s : vr4300) (b : bool) : vr4300 :=
  let p := pipeline s in
  set_pipeline s
    {| dcwb_latch := dcwb_latch p; exdc_latch := exdc_latch p;
       rfex_latch := rfex_latch p; icrf_latch := icrf_latch p;
       exception_history := exception_history p;
       cycles_to_stall := cycles_to_stall p;
       skip_stages := skip_stages p; fault_present := b |}.

(** Latch-level updates. *)
Definition dcwb_with_common (l : vr4300_dcwb_latch) (c : vr4300_latch) :=
  {| dcwb_common := c; dcwb_result := dcwb_result l;
     dcwb_dest := dcwb_dest l |}.

Definition dcwb_with_result (l : vr4300_dcwb_latch) (r : Z) :=
  {| dcwb_common := dcwb_common l; dcwb_result := r;
     dcwb_dest := dcwb_dest l |}.

Definition exdc_with_common (l : vr4300_exdc_latch) (c : vr4300_latch) :=
  {| exdc_common := c; exdc_segment := exdc_segment l;
     exdc_result := exdc_result l; exdc_request := exdc_request l;
     exdc_dest := exdc_dest l |}.

Definition rfex_with_common (l : vr4300_rfex_latch) (c : vr4300_latch) :=
  {| rfex_common := c; rfex_opcode := rfex_opcode l;
     rfex_iw := rfex_iw l; rfex_iw_mask := rfex_iw_mask l |}.

Definition request_with_type (r : vr4300_bus_request)
    (t : vr4300_bus_request_type) :=
  {| req_address := req_address r; req_word := req_word r;
     req_dqm := req_dqm r; req_type := t; req_size := req_size r |}.

Definition request_with_address (r : vr4300_bus_request) (a : Z) :=
  {| req_address := a; req_word := req_word r;
     req_dqm := req_dqm r; req_type := req_type r; req_size := req_size r |}.

(** Register file access.  The C array has a fixed number of entries and an
    index past its end is undefined there; in the model such a read yields
    0 and such a write is dropped. *)
Definition reg_read (r : list Z) (i : nat) : Z := default 0 (r !! i).

Definition reg_write (r : list Z) (i : nat) (v : Z) : list Z := <[i := v]> r.

(** ** The external collaborators

    Everything the pipeline calls that lives in another translation unit:
    the decoder, the segment map, the opcode handlers, the fault helpers and
    the constants and macros of the headers. *)
Class vr4300_env : Type := {
  (** [vr4300_decode_instruction], dereferenced *)
  vr4300_decode_instruction : Z -> vr4300_opcode;
  (** [get_segment(address, cp0_status)]; [None] is the NULL result *)
  get_segment : Z -> Z -> option segment;
  (** [vr4300_function_table[id](vr4300, rs, rt)] *)
  vr4300_function_table : nat -> vr4300 -> Z -> Z -> vr4300;
  VR4300_IADE : vr4300 -> vr4300;
  VR4300_DADE : vr4300 -> vr4300;
  VR4300_UNC : vr4300 -> vr4300;
  VR4300_LDI : vr4300 -> vr4300;
  VR4300_DCB : vr4300 -> vr4300;
  VR4300_RST : vr4300 -> vr4300;
  GET_RS : Z -> nat;
  GET_RT : Z -> nat;
  OPCODE_INFO_NEEDRS : Z;
  OPCODE_INFO_NEEDRT : Z;
  VR4300_CP0_REGISTER_STATUS : nat;
  VR4300_SIGNAL_COLDRESET : Z
}.

(** A stage returns the new state and its C return value: [true] for 1
    (abort), [false] for 0 (continue). *)
Definition stage_result : Type := vr4300 * bool.

(** [if (stage(vr4300)) return;] followed by the rest of the function. *)
Definition or_return (r : stage_result) (k : vr4300 -> vr4300) : vr4300 :=
  if r.2 then r.1 else k r.1.

Notation "'unless' r 'aborts' 'then' s '=>' k" :=
  (or_return r (fun s => k))
  (at level 10, s name, r at level 100, k at level 200).

Section Pipeline.

Context {env : vr4300_env}.

(** ** Stage functions *)

(** Instruction cache stage. *)
Definition vr4300_ic_stage (s : vr4300) : stage_result :=
  let rfex := rfex_latch (pipeline s) in
  let icrf := icrf_latch (pipeline s) in
  let seg := icrf_segment icrf in
  let pc_ := icrf_pc icrf in
  (* icrf_latch->common.pc = pc; *)
  let s := set_icrf_latch s
    {| icrf_common := {| pc := pc_; fault := fault (icrf_common icrf) |};
       icrf_segment := icrf_segment icrf; icrf_pc := icrf_pc icrf |} in
  (* Finish decoding instruction in RF. *)
  let decode_iw := Z.land (rfex_iw rfex) (rfex_iw_mask rfex) in
  let s := set_rfex_latch s
    {| rfex_common := rfex_common rfex;
       rfex_opcode := vr4300_decode_instruction decode_iw;
       rfex_iw := decode_iw;
       rfex_iw_mask := wrap32 (Z.lnot 0) |} in
  (* We didn't have an IADE, so reset the status vector. *)
  let finish (s : vr4300) : stage_result :=
    let icrf := icrf_latch (pipeline s) in
    (set_icrf_latch s
       {| icrf_common :=
            {| pc := pc (icrf_common icrf); fault := VR4300_FAULT_NONE |};
          icrf_segment := icrf_segment icrf;
          icrf_pc := wrap64 (icrf_pc icrf + 4) |}, false) in
  (* Look up the segment that we're in. *)
  if wrap64 (pc_ - seg_start seg) >? seg_length seg then
    let cp0_status := wrap32 (reg_read (regs s) VR4300_CP0_REGISTER_STATUS) in
    match get_segment pc_ cp0_status with
    | None => (VR4300_IADE s, true)
    | Some seg' =>
        let icrf := icrf_latch (pipeline s) in
        finish (set_icrf_latch s
          {| icrf_common := icrf_common icrf; icrf_segment := seg';
             icrf_pc := icrf_pc icrf |})
    end
  else finish s.

(** Register fetch and decode stage. *)
Definition vr4300_rf_stage (s : vr4300) : stage_result :=
  let icrf := icrf_latch (pipeline s) in
  let seg := icrf_segment icrf in
  let s := set_rfex_latch s
    (rfex_with_common (rfex_latch (pipeline s)) (icrf_common icrf)) in
  if negb (seg_cached seg) then (VR4300_UNC s, true) else (s, false).

(** Lines 102 to 109 of the execution stage: the result in the DC/WB latch
    is written over its destination register, the two operands are read,
    and the register is restored.  Returns the register file and the two
    operands. *)
Definition ex_forward (r : list Z) (dest : nat) (result : Z) (rs rt : nat)
    : list Z * Z * Z :=
  let temp := reg_read r dest in
  let r := reg_write r dest result in
  let r := reg_write r VR4300_REGISTER_R0 0 in
  let rs_reg := reg_read r rs in
  let rt_reg := reg_read r rt in
  let r := reg_write r dest temp in
  (r, rs_reg, rt_reg).

(** Lines 100 to 121 of the execution stage, reached when there is no LDI:
    forwarding, then the opcode handler. *)
Definition ex_issue (s : vr4300) : stage_result :=
  let rfex := rfex_latch (pipeline s) in
  let dcwb := dcwb_latch (pipeline s) in
  let iw := rfex_iw rfex in
  (* No LDI, so we just need to forward results from DC/WB. *)
  let '(r, rs_reg, rt_reg) :=
    ex_forward (regs s) (dcwb_dest dcwb) (dcwb_result dcwb)
      (GET_RS iw) (GET_RT iw) in
  let s := set_regs s r in
  (* Finally, execute the instruction. *)
  let exdc := exdc_latch (pipeline s) in
  let s := set_exdc_latch s
    {| exdc_common := exdc_common exdc; exdc_segment := exdc_segment exdc;
       exdc_result := exdc_result exdc;
       exdc_request :=
         request_with_type (exdc_request exdc) VR4300_BUS_REQUEST_NONE;
       exdc_dest := VR4300_REGISTER_R0 |} in
  (vr4300_function_table (op_id (rfex_opcode rfex)) s rs_reg rt_reg, false).

(** Execution stage. *)
Definition vr4300_ex_stage (s : vr4300) : stage_result :=
  let rfex := rfex_latch (pipeline s) in
  let dcwb := dcwb_latch (pipeline s) in
  (* exdc_latch->common = rfex_latch->common; *)
  let s := set_exdc_latch s
    (exdc_with_common (exdc_latch (pipeline s)) (rfex_common rfex)) in
  let flags := op_flags (rfex_opcode rfex) in
  let flags :=
    if decide (req_type (exdc_request (exdc_latch (pipeline s)))
               = VR4300_BUS_REQUEST_NONE)
    then Z.land flags
           (wrap32 (Z.lnot (Z.lor OPCODE_INFO_NEEDRS OPCODE_INFO_NEEDRT)))
    else flags in
  let iw := rfex_iw rfex in
  let rt := GET_RT iw in
  let rs := GET_RS iw in
  (* Check to see if we should hold off execution due to a LDI. *)
  if (bool_decide (dcwb_dest dcwb = rs)
        && negb (Z.land flags OPCODE_INFO_NEEDRS =? 0))
     || (bool_decide (dcwb_dest dcwb = rt)
        && negb (Z.land flags OPCODE_INFO_NEEDRT =? 0))
  then (VR4300_LDI s, true)
  else ex_issue s.

(** Data cache fetch stage. *)
Definition vr4300_dc_stage (s : vr4300) : stage_result :=
  let exdc := exdc_latch (pipeline s) in
  let seg := exdc_segment exdc in
  let address := req_address (exdc_request exdc) in
  let s := set_dcwb_latch s
    {| dcwb_common := exdc_common exdc; dcwb_result := exdc_result exdc;
       dcwb_dest := exdc_dest exdc |} in
  (* Installs the segment, rebases the address, then reads or writes. *)
  let access (seg : segment) : stage_result :=
    let exdc := exdc_latch (pipeline s) in
    let request :=
      request_with_address (exdc_request exdc)
        (wrap64 (req_address (exdc_request exdc) - seg_offset seg)) in
    let s := set_exdc_latch s
      {| exdc_common := exdc_common exdc; exdc_segment := seg;
         exdc_result := exdc_result exdc; exdc_request := request;
         exdc_dest := exdc_dest exdc |} in
    if decide (req_type request = VR4300_BUS_REQUEST_READ)
    then (VR4300_DCB s, true)
    else
      (set_bus s
         ({| bw_address := req_address request; bw_word := req_word request;
             bw_dqm := req_dqm request |} :: bus s), false) in
  (* Look up the segment that we're in. *)
  if decide (req_type (exdc_request exdc) ≠ VR4300_BUS_REQUEST_NONE) then
    if wrap64 (address - seg_start seg) >? seg_length seg then
      let cp0_status :=
        wrap32 (reg_read (regs s) VR4300_CP0_REGISTER_STATUS) in
      match get_segment address cp0_status with
      | None => (VR4300_DADE s, true)
      | Some seg' => access seg'
      end
    else access seg
  else (s, false).

(** Writeback stage. *)
Definition vr4300_wb_stage (s : vr4300) : stage_result :=
  let dcwb := dcwb_latch (pipeline s) in
  if decide (fault (dcwb_common dcwb) ≠ VR4300_FAULT_NONE) then (s, false)
  else
    let r := reg_write (regs s) (dcwb_dest dcwb) (dcwb_result dcwb) in
    let r := reg_write r VR4300_REGISTER_R0 0 in
    (set_regs s r, false).

(** ** Replay variants *)

(** The count a shift of a 64-bit operand uses.  C defines these shifts
    for counts from 0 to 63 only; the x86-64 shift instructions they are
    compiled to take the count modulo 64, so a count of 64 shifts by 0. *)
Definition shift_count (c : Z) : Z := c mod 64.

(** Lines 301 to 311 of [vr4300_cycle_slow_ex_fixdc]: the value stored to
    [dcwb_latch->result], from [request->size], [request->word] and
    [exdc_latch->result].  [size] is unsigned and the two shift counts are
    [int]; the left shifts wrap, the right shift of a signed value is
    arithmetic and every shift takes its count through [shift_count]. *)
Definition fixdc_result (size word result : Z) : Z :=
  let maskshift := to_s32 (wrap32 (Z.shiftl size 3)) in
  let datashift := to_s32 (wrap32 (Z.shiftl (wrap32 (8 - size)) 3)) in
  let data := wrap32 word in
  let sdata := to_s32 word in
  let mask := to_s64 result in
  (* Shall we sign extend? *)
  let mask :=
    to_s64 (Z.shiftl (Z.shiftr mask (shift_count maskshift))
                     (shift_count maskshift)) in
  let sdata :=
    Z.shiftr (to_s64 (Z.shiftl sdata (shift_count datashift)))
             (shift_count datashift) in
  let data :=
    Z.shiftr (wrap64 (Z.shiftl data (shift_count datashift)))
             (shift_count datashift) in
  wrap64 (Z.lor (Z.land sdata mask) data).

(** Lines 188 to 191 of [vr4300_cycle_slow_wb]: the post-increment of
    [exception_history] and the switch back to fast mode. *)
Definition exception_history_tick (s : vr4300) : vr4300 :=
  let h := exception_history (pipeline s) in
  let s := set_exception_history s (wrap32 (h + 1)) in
  if h >? 4 then set_fault_present s false else s.

(** Starts from the WB stage. *)
Definition vr4300_cycle_slow_wb (s : vr4300) : vr4300 :=
  (* If we haven't had exceptions for at least a
     full pipeline's length, switch back to fast mode. *)
  let s := exception_history_tick s in
  unless
    (if decide (fault (dcwb_common (dcwb_latch (pipeline s)))
                = VR4300_FAULT_NONE)
     then vr4300_wb_stage s
     else (set_dcwb_latch s
             (dcwb_with_common (dcwb_latch (pipeline s))
                (exdc_common (exdc_latch (pipeline s)))), false))
  aborts then s =>
  unless
    (if decide (fault (exdc_common (exdc_latch (pipeline s)))
                = VR4300_FAULT_NONE)
     then vr4300_dc_stage s
     else (set_exdc_latch s
             (exdc_with_common (exdc_latch (pipeline s))
                (rfex_common (rfex_latch (pipeline s)))), false))
  aborts then s =>
  unless
    (if decide (fault (rfex_common (rfex_latch (pipeline s)))
                = VR4300_FAULT_NONE)
     then vr4300_ex_stage s
     else (set_rfex_latch s
             (rfex_with_common (rfex_latch (pipeline s))
                (icrf_common (icrf_latch (pipeline s)))), false))
  aborts then s =>
  unless
    (if decide (fault (icrf_common (icrf_latch (pipeline s)))
                = VR4300_FAULT_NONE)
     then vr4300_rf_stage s
     else (s, false))
  aborts then s =>
  unless vr4300_ic_stage s aborts then s =>
  s.

(** Starts from DC stage (WB resolved an interlock). *)
Definition vr4300_cycle_slow_dc (s : vr4300) : vr4300 :=
  unless
    (if decide (fault (exdc_common (exdc_latch (pipeline s)))
                = VR4300_FAULT_NONE)
     then vr4300_dc_stage s
     else (set_exdc_latch s
             (exdc_with_common (exdc_latch (pipeline s))
                (rfex_common (rfex_latch (pipeline s)))), false))
  aborts then s =>
  unless
    (if decide (fault (rfex_common (rfex_latch (pipeline s)))
                = VR4300_FAULT_NONE)
     then vr4300_ex_stage s
     else (set_rfex_latch s
             (rfex_with_common (rfex_latch (pipeline s))
                (icrf_common (icrf_latch (pipeline s)))), false))
  aborts then s =>
  unless
    (if decide (fault (icrf_common (icrf_latch (pipeline s)))
                = VR4300_FAULT_NONE)
     then vr4300_rf_stage s
     else (s, false))
  aborts then s =>
  unless vr4300_ic_stage s aborts then s =>
  set_skip_stages s 0.

(** Starts from EX stage (DC resolved an interlock). *)
Definition vr4300_cycle_slow_ex (s : vr4300) : vr4300 :=
  unless
    (if decide (fault (rfex_common (rfex_latch (pipeline s)))
                = VR4300_FAULT_NONE)
     then vr4300_ex_stage s
     else (set_rfex_latch s
             (rfex_with_common (rfex_latch (pipeline s))
                (icrf_common (icrf_latch (pipeline s)))), false))
  aborts then s =>
  unless
    (if decide (fault (icrf_common (icrf_latch (pipeline s)))
                = VR4300_FAULT_NONE)
     then vr4300_rf_stage s
     else (s, false))
  aborts then s =>
  unless vr4300_ic_stage s aborts then s =>
  set_skip_stages s 0.

(** Starts from EX stage (DC resolved an interlock).
    Fixes up the DC/WB latches after memory reads. *)
Definition vr4300_cycle_slow_ex_fixdc (s : vr4300) : vr4300 :=
  let exdc := exdc_latch (pipeline s) in
  let request := exdc_request exdc in
  let data :=
    fixdc_result (req_size request) (req_word request) (exdc_result exdc) in
  let s := set_dcwb_latch s
    (dcwb_with_result (dcwb_latch (pipeline s)) data) in
  (* Continue with the rest of the pipeline. *)
  unless
    (if decide (fault (rfex_common (rfex_latch (pipeline s)))
                = VR4300_FAULT_NONE)
     then vr4300_ex_stage s
     else (set_rfex_latch s
             (rfex_with_common (rfex_latch (pipeline s))
                (icrf_common (icrf_latch (pipeline s)))), false))
  aborts then s =>
  unless
    (if decide (fault (icrf_common (icrf_latch (pipeline s)))
                = VR4300_FAULT_NONE)
     then vr4300_rf_stage s
     else (s, false))
  aborts then s =>
  unless vr4300_ic_stage s aborts then s =>
  set_skip_stages s 0.

(** Starts from RF stage (EX resolved an interlock). *)
Definition vr4300_cycle_slow_rf (s : vr4300) : vr4300 :=
  unless
    (if decide (fault (icrf_common (icrf_latch (pipeline s)))
                = VR4300_FAULT_NONE)
     then vr4300_rf_stage s
     else (s, false))
  aborts then s =>
  unless vr4300_ic_stage s aborts then s =>
  set_skip_stages s 0.

(** Starts from IC stage (RF resolved an interlock). *)
Definition vr4300_cycle_slow_ic (s : vr4300) : vr4300 :=
  unless vr4300_ic_stage s aborts then s =>
  set_skip_stages s 0.

(** LUT of stages for fault handling. *)
Definition pipeline_function_lut : list (vr4300 -> vr4300) :=
  [ vr4300_cycle_slow_wb;
    vr4300_cycle_slow_dc;
    vr4300_cycle_slow_ex;
    vr4300_cycle_slow_rf;
    vr4300_cycle_slow_ic;
    vr4300_cycle_slow_ex_fixdc ].

(** ** The cycle driver *)

(** Lines 389 and 390: the check for the reset exception. *)
Definition cycle_reset (s : vr4300) : vr4300 :=
  if negb (Z.land (signals s) VR4300_SIGNAL_COLDRESET =? 0)
  then VR4300_RST s
  else s.

(** Advances the processor pipeline by one pclock.  The table has six
    entries; an index past its end is undefined in C and gives [None]. *)
Definition vr4300_cycle (s : vr4300) : option vr4300 :=
  (* We're stalling for an interlock, or we just took an exception... *)
  if cycles_to_stall (pipeline s) >? 0 then
    Some (set_cycles_to_stall s (cycles_to_stall (pipeline s) - 1))
  else
    let s := cycle_reset s in
    if fault_present (pipeline s)
       || negb (Nat.eqb (skip_stages (pipeline s)) 0)
    then
      f ← pipeline_function_lut !! skip_stages (pipeline s);
      Some (f s)
    else
      Some (
        unless vr4300_wb_stage s aborts then s =>
        unless vr4300_dc_stage s aborts then s =>
        unless vr4300_ex_stage s aborts then s =>
        unless vr4300_rf_stage s aborts then s =>
        unless vr4300_ic_stage s aborts then s =>
        s).

(** [n] calls of [vr4300_cycle] in a row. *)
Fixpoint vr4300_cycles (n : nat) (s : vr4300) : option vr4300 :=
  match n with
  | O => Some s
  | S n => s' ← vr4300_cycle s; vr4300_cycles n s'
  end.

(** ** Vocabulary of the properties *)

(** The five stages, in the order the driver calls them. *)
Inductive stage_id : Type := WB | DC | EX | RF | IC.

Definition stage_body (st : stage_id) : vr4300 -> stage_result :=
  match st with
  | WB => vr4300_wb_stage
  | DC => vr4300_dc_stage
  | EX => vr4300_ex_stage
  | RF => vr4300_rf_stage
  | IC => vr4300_ic_stage
  end.

(** Runs the stages of a list from left to right and stops behind the first
    one that returns abort. *)
Fixpoint run_stages (l : list (vr4300 -> stage_result)) (s : vr4300)
    : stage_result :=
  match l with
  | [] => (s, false)
  | f :: l => let r := f s in if r.2 then r else run_stages l r.1
  end.

(** The fault in the latch a stage reads; the IC stage reads none. *)
Definition input_fault (st : stage_id) (s : vr4300) : vr4300_fault_id :=
  match st with
  | WB => fault (dcwb_common (dcwb_latch (pipeline s)))
  | DC => fault (exdc_common (exdc_latch (pipeline s)))
  | EX => fault (rfex_common (rfex_latch (pipeline s)))
  | RF => fault (icrf_common (icrf_latch (pipeline s)))
  | IC => VR4300_FAULT_NONE
  end.

(** What a replay variant does in place of a squashed stage. *)
Definition squash (st : stage_id) (s : vr4300) : vr4300 :=
  match st with
  | WB => set_dcwb_latch s
            (dcwb_with_common (dcwb_latch (pipeline s))
               (exdc_common (exdc_latch (pipeline s))))
  | DC => set_exdc_latch s
            (exdc_with_common (exdc_latch (pipeline s))
               (rfex_common (rfex_latch (pipeline s))))
  | EX => set_rfex_latch s
            (rfex_with_common (rfex_latch (pipeline s))
               (icrf_common (icrf_latch (pipeline s))))
  | RF | IC => s
  end.

(** One slot of a replay variant: the stage, or its squash. *)
Definition replay_step (st : stage_id) (s : vr4300) : stage_result :=
  if decide (input_fault st s = VR4300_FAULT_NONE)
  then stage_body st s
  else (squash st s, false).

(** The end of the variants that reset [skip_stages] when no stage
    aborted. *)
Definition completed (r : stage_result) : vr4300 :=
  if r.2 then r.1 else set_skip_stages r.1 0.

(** The store of line 312. *)
Definition fixdc (s : vr4300) : vr4300 :=
  let exdc := exdc_latch (pipeline s) in
  set_dcwb_latch s
    (dcwb_with_result (dcwb_latch (pipeline s))
       (fixdc_result (req_size (exdc_request exdc))
          (req_word (exdc_request exdc)) (exdc_result exdc))).

(** The state of the IC stage behind line 38, before the segment check. *)
Definition ic_decode (s : vr4300) : vr4300 :=
  let rfex := rfex_latch (pipeline s) in
  let icrf := icrf_latch (pipeline s) in
  let decode_iw := Z.land (rfex_iw rfex) (rfex_iw_mask rfex) in
  set_rfex_latch
    (set_icrf_latch s
       {| icrf_common :=
            {| pc := icrf_pc icrf; fault := fault (icrf_common icrf) |};
          icrf_segment := icrf_segment icrf; icrf_pc := icrf_pc icrf |})
    {| rfex_common := rfex_common rfex;
       rfex_opcode := vr4300_decode_instruction decode_iw;
       rfex_iw := decode_iw;
       rfex_iw_mask := wrap32 (Z.lnot 0) |}.

(** The segment test of the IC and DC stages: the unsigned difference
    exceeds the length. *)
Definition outside_segment (address : Z) (seg : segment) : bool :=
  wrap64 (address - seg_start seg) >? seg_length seg.

(** The CP0 status word handed to the segment map. *)
Definition cp0_status (s : vr4300) : Z :=
  wrap32 (reg_read (regs s) VR4300_CP0_REGISTER_STATUS).

(** The state of the DC stage behind line 133: the DC/WB latch filled from
    the EX/DC latch. *)
Definition dc_latched (s : vr4300) : vr4300 :=
  let exdc := exdc_latch (pipeline s) in
  set_dcwb_latch s
    {| dcwb_common := exdc_common exdc; dcwb_result := exdc_result exdc;
       dcwb_dest := exdc_dest exdc |}.

(** The state of the DC stage behind line 147: segment installed and
    address rebased. *)
Definition dc_rebased (s : vr4300) (seg : segment) : vr4300 :=
  let exdc := exdc_latch (pipeline s) in
  set_exdc_latch s
    {| exdc_common := exdc_common exdc; exdc_segment := seg;
       exdc_result := exdc_result exdc;
       exdc_request :=
         request_with_address (exdc_request exdc)
           (wrap64 (req_address (exdc_request exdc) - seg_offset seg));
       exdc_dest := exdc_dest exdc |}.

(** The instruction in the RF/EX latch needs [rs] (resp. [rt]). *)
Definition needs_rs (s : vr4300) : Prop :=
  Z.land (op_flags (rfex_opcode (rfex_latch (pipeline s))))
    OPCODE_INFO_NEEDRS ≠ 0.

Definition needs_rt (s : vr4300) : Prop :=
  Z.land (op_flags (rfex_opcode (rfex_latch (pipeline s))))
    OPCODE_INFO_NEEDRT ≠ 0.

(** The state the execution stage hands to [VR4300_LDI]. *)
Definition ex_latched (s : vr4300) : vr4300 :=
  set_exdc_latch s
    (exdc_with_common (exdc_latch (pipeline s))
       (rfex_common (rfex_latch (pipeline s)))).

(** The fetch address misses: it is outside the current segment and the
    segment map has no segment for it. *)
Definition ic_miss (s : vr4300) : bool :=
  let icrf := icrf_latch (pipeline s) in
  outside_segment (icrf_pc icrf) (icrf_segment icrf)
  && match get_segment (icrf_pc icrf) (cp0_status s) with
     | None => true
     | Some _ => false
     end.

(** The segment the IC stage leaves in the IC/RF latch when it continues. *)
Definition ic_segment (s : vr4300) : segment :=
  let icrf := icrf_latch (pipeline s) in
  if outside_segment (icrf_pc icrf) (icrf_segment icrf) then
    default (icrf_segment icrf) (get_segment (icrf_pc icrf) (cp0_status s))
  else icrf_segment icrf.

(** The segment the DC stage resolves the request address to: the current
    one when it contains the address, else the answer of the segment map. *)
Definition dc_resolved (s : vr4300) : option segment :=
  let exdc := exdc_latch (pipeline s) in
  if outside_segment (req_address (exdc_request exdc)) (exdc_segment exdc)
  then get_segment (req_address (exdc_request exdc)) (cp0_status s)
  else Some (exdc_segment exdc).

(** Register 0 holds zero. *)
Definition R0_zero (s : vr4300) : Prop :=
  regs s !! VR4300_REGISTER_R0 = Some 0.

Definition preserves_R0 (f : vr4300 -> vr4300) : Prop :=
  forall s, R0_zero s -> R0_zero (f s).

(** The opcode handlers and the fault helpers keep register 0 at zero. *)
Definition env_preserves_R0 : Prop :=
  (forall id a b, preserves_R0 (fun s => vr4300_function_table id s a b))
  /\ preserves_R0 VR4300_IADE /\ preserves_R0 VR4300_DADE
  /\ preserves_R0 VR4300_UNC /\ preserves_R0 VR4300_LDI
  /\ preserves_R0 VR4300_DCB /\ preserves_R0 VR4300_RST.

(** The control state of the driver, with the signals. *)
Definition control (s : vr4300) : Z * Z * nat * bool * Z :=
  (exception_history (pipeline s), cycles_to_stall (pipeline s),
   skip_stages (pipeline s), fault_present (pipeline s), signals s).

End Pipeline.

(** *** Extension of a [k]-bit field, for the load fix-up *)

(** [x] with its low [k] bits cleared. *)
Definition clear_low_bits (k x : Z) : Z := Z.ldiff x (Z.ones k).

(** The low [k] bits of [x], zero extended. *)
Definition zero_extend (k x : Z) : Z := x mod 2 ^ k.

(** The low [k] bits of [x], sign extended. *)
Definition sign_extend (k x : Z) : Z :=
  (x + 2 ^ (k - 1)) mod 2 ^ k - 2 ^ (k - 1).

(** ** A concrete machine

    An instance of the collaborators with the MIPS field encoding, an empty
    segment map, and handlers and fault helpers that do nothing; and a
    state at rest in a cached segment. *)

#[local] Instance idle_env : vr4300_env := {|
  vr4300_decode_instruction := fun _ => {| op_id := 0; op_flags := 0 |};
  get_segment := fun _ _ => None;
  vr4300_function_table := fun _ s _ _ => s;
  VR4300_IADE := fun s => s;
  VR4300_DADE := fun s => s;
  VR4300_UNC := fun s => s;
  VR4300_LDI := fun s => s;
  VR4300_DCB := fun s => s;
  VR4300_RST := fun s => s;
  GET_RS := fun iw => Z.to_nat (Z.land (Z.shiftr iw 21) 31);
  GET_RT := fun iw => Z.to_nat (Z.land (Z.shiftr iw 16) 31);
  OPCODE_INFO_NEEDRS := 1;
  OPCODE_INFO_NEEDRT := 2;
  VR4300_CP0_REGISTER_STATUS := 44;
  VR4300_SIGNAL_COLDRESET := 1
|}.

Definition kseg0 : segment :=
  {| seg_start := 0xFFFFFFFF80000000; seg_length := 0x1FFFFFFF;
     seg_offset := 0xFFFFFFFF80000000; seg_cached := true |}.

Definition no_fault (p : Z) : vr4300_latch :=
  {| pc := p; fault := VR4300_FAULT_NONE |}.

Definition no_request : vr4300_bus_request :=
  {| req_address := 0; req_word := 0; req_dqm := 0;
     req_type := VR4300_BUS_REQUEST_NONE; req_size := 0 |}.

(** A machine with 64 registers, all zero, fetching from [kseg0], with no
    fault in flight. *)
Definition rest_state : vr4300 :=
  {| pipeline :=
       {| dcwb_latch :=
            {| dcwb_common := no_fault 0xFFFFFFFF80000000;
               dcwb_result := 0; dcwb_dest := 0 |};
          exdc_latch :=
            {| exdc_common := no_fault 0xFFFFFFFF80000004;
               exdc_segment := kseg0; exdc_result := 0;
               exdc_request := no_request; exdc_dest := 0 |};
          rfex_latch :=
            {| rfex_common := no_fault 0xFFFFFFFF80000008;
               rfex_opcode := {| op_id := 0; op_flags := 0 |};
               rfex_iw := 0; rfex_iw_mask := 0xFFFFFFFF |};
          icrf_latch :=
            {| icrf_common := no_fault 0xFFFFFFFF8000000C;
               icrf_segment := kseg0; icrf_pc := 0xFFFFFFFF80000010 |};
          exception_history := 0; cycles_to_stall := 0;
          skip_stages := 0; fault_present := false |};
     regs := replicate 64 0;
     signals := 0;
     bus := [] |}.

(** A state that stalls for three more cycles while the cold reset signal
    is asserted. *)
Definition stalled_state : vr4300 :=
  set_cycles_to_stall
    {| pipeline := pipeline rest_state; regs := regs rest_state;
       signals := 1; bus := bus rest_state |} 3.

(** A state whose fetch address lies in no segment. *)
Definition unmapped_state : vr4300 :=
  set_icrf_latch rest_state
    {| icrf_common := no_fault 0xFFFFFFFF8000000C;
       icrf_segment := kseg0; icrf_pc := 0xFFFFFFFF00000000 |}.

(** A load is in the DC stage and the instruction in the EX stage reads
    register 5, which the load is about to write. *)
Definition interlock_state : vr4300 :=
  set_dcwb_latch
    (set_rfex_latch
       (set_exdc_latch rest_state
          {| exdc_common := no_fault 0xFFFFFFFF80000004;
             exdc_segment := kseg0; exdc_result := 0;
             exdc_request :=
               {| req_address := 0xFFFFFFFF80001000; req_word := 0;
                  req_dqm := 0; req_type := VR4300_BUS_REQUEST_READ;
                  req_size := 4 |};
             exdc_dest := 5 |})
       {| rfex_common := no_fault 0xFFFFFFFF80000008;
          rfex_opcode := {| op_id := 0; op_flags := 1 |};
          rfex_iw := 0x00A00000; rfex_iw_mask := 0xFFFFFFFF |})
    {| dcwb_common := no_fault 0xFFFFFFFF80000000;
       dcwb_result := 0xDEAD; dcwb_dest := 5 |}.

(** The same with register 0 in both places. *)
Definition r0_interlock_state : vr4300 :=
  set_dcwb_latch
    (set_rfex_latch interlock_state
       {| rfex_common := no_fault 0xFFFFFFFF80000008;
          rfex_opcode := {| op_id := 0; op_flags := 1 |};
          rfex_iw := 0; rfex_iw_mask := 0xFFFFFFFF |})
    {| dcwb_common := no_fault 0xFFFFFFFF80000000;
       dcwb_result := 0xDEAD; dcwb_dest := 0 |}.

(** A fault was raised a moment ago: the driver is in slow mode, the
    latches are clean. *)
Definition recovering_state : vr4300 := set_fault_present rest_state true.

(** In slow mode, with a fault in the EX/DC latch and none in the DC/WB
    latch. *)
Definition exdc_faulted_state : vr4300 :=
  set_exdc_latch recovering_state
    {| exdc_common :=
         {| pc := 0xFFFFFFFF80000004; fault := VR4300_FAULT_LDI |};
       exdc_segment := kseg0; exdc_result := 0;
       exdc_request := no_request; exdc_dest := 0 |}.

(** Replaying from the EX stage, with a fault in the RF/EX latch and none
    elsewhere. *)
Definition rfex_faulted_state : vr4300 :=
  set_skip_stages
    (set_rfex_latch rest_state
       {| rfex_common :=
            {| pc := 0xFFFFFFFF80000008; fault := VR4300_FAULT_UNC |};
          rfex_opcode := {| op_id := 0; op_flags := 0 |};
          rfex_iw := 0; rfex_iw_mask := 0xFFFFFFFF |}) 2.

(** ** Further vocabulary *)

Section PipelineMore.

Context {env : vr4300_env}.

(** Initializes the pipeline with default values: [memset] to zero, then
    the default segment in the two latches that hold one.  The enumerators
    whose value is 0 and the result of [get_default_segment] come from other
    translation units and are taken as arguments. *)
Definition vr4300_pipeline_init (zero_fault : vr4300_fault_id)
    (zero_type : vr4300_bus_request_type) (default_segment : segment)
    : vr4300_pipeline :=
  let zero_common := {| pc := 0; fault := zero_fault |} in
  {| dcwb_latch :=
       {| dcwb_common := zero_common; dcwb_result := 0; dcwb_dest := 0 |};
     exdc_latch :=
       {| exdc_common := zero_common; exdc_segment := default_segment;
          exdc_result := 0;
          exdc_request :=
            {| req_address := 0; req_word := 0; req_dqm := 0;
               req_type := zero_type; req_size := 0 |};
          exdc_dest := 0 |};
     rfex_latch :=
       {| rfex_common := zero_common;
          rfex_opcode := {| op_id := 0; op_flags := 0 |};
          rfex_iw := 0; rfex_iw_mask := 0 |};
     icrf_latch :=
       {| icrf_common := zero_common; icrf_segment := default_segment;
          icrf_pc := 0 |};
     exception_history := 0; cycles_to_stall := 0;
     skip_stages := 0; fault_present := false |}.

(** What a read of register [i] yields once [result] has been written to
    register [dest] and register 0 forced to zero. *)
Definition forward_value (r : list Z) (dest : nat) (result : Z) (i : nat)
    : Z :=
  if decide (i = VR4300_REGISTER_R0) then 0
  else if decide (i = dest) then result
  else reg_read r i.

(** The stages a replay entry point goes through, by its index in the
    table. *)
Definition replay_stages (k : nat) : list stage_id :=
  match k with
  | 0 => [WB; DC; EX; RF; IC]
  | 1 => [DC; EX; RF; IC]
  | 2 | 5 => [EX; RF; IC]
  | 3 => [RF; IC]
  | _ => [IC]
  end%nat.

(** The opcode handlers leave the fault of the IC/RF latch alone. *)
Definition handlers_keep_fetch_fault : Prop :=
  forall id s a b,
    fault (icrf_common (icrf_latch
      (pipeline (vr4300_function_table id s a b))))
    = fault (icrf_common (icrf_latch (pipeline s))).

(** The opcode handlers leave the control state alone. *)
Definition handlers_preserve_control : Prop :=
  forall id s a b, control (vr4300_function_table id s a b) = control s.

Definition preserves_bus (f : vr4300 -> vr4300) : Prop :=
  forall s, bus (f s) = bus s.

(** The bus is as before, or has one more write. *)
Definition at_most_one_write (b : list bus_write) (s : vr4300) : Prop :=
  bus s = b \/ exists w, bus s = w :: b.

(** The opcode handlers and the fault helpers issue no bus write. *)
Definition env_preserves_bus : Prop :=
  (forall id a b, preserves_bus (fun s => vr4300_function_table id s a b))
  /\ preserves_bus VR4300_IADE /\ preserves_bus VR4300_DADE
  /\ preserves_bus VR4300_UNC /\ preserves_bus VR4300_LDI
  /\ preserves_bus VR4300_DCB /\ preserves_bus VR4300_RST.

(** Lines 395 to 413 of [vr4300_cycle]: what a cycle runs behind the stall
    check and the reset check, on the state they hand over. *)
Definition cycle_dispatch (s : vr4300) : option vr4300 :=
  if fault_present (pipeline s)
     || negb (Nat.eqb (skip_stages (pipeline s)) 0)
  then
    f ← pipeline_function_lut !! skip_stages (pipeline s);
    Some (f s)
  else
    Some (
      unless vr4300_wb_stage s aborts then s =>
      unless vr4300_dc_stage s aborts then s =>
      unless vr4300_ex_stage s aborts then s =>
      unless vr4300_rf_stage s aborts then s =>
      unless vr4300_ic_stage s aborts then s =>
      s).

(** The stages a cycle that does not stall goes through, as a run: the
    five stages of the fast path, or the slots of the entry point that
    [skip_stages] selects, behind the tick of [exception_history] for entry
    point 0 and behind the load fix-up for entry point 5.  The second
    component is the return value of the last stage that ran. *)
Definition cycle_run (s : vr4300) : stage_result :=
  let s := cycle_reset s in
  let k := skip_stages (pipeline s) in
  if fault_present (pipeline s) || negb (Nat.eqb k 0) then
    run_stages (replay_step <$> replay_stages k)
      (match k with
       | 0 => exception_history_tick s
       | 5 => fixdc s
       | _ => s
       end%nat)
  else run_stages (stage_body <$> [WB; DC; EX; RF; IC]) s.

(** Some stage of the cycle returned abort.  A stalling cycle runs no
    stage. *)
Definition cycle_aborts (s : vr4300) : bool :=
  if cycles_to_stall (pipeline s) >? 0 then false else (cycle_run s).2.

(** The next [n] cycles are defined and no stage aborts in any of them. *)
Fixpoint quiet_cycles (n : nat) (s : vr4300) : bool :=
  match n with
  | O => true
  | S n =>
      negb (cycle_aborts s)
      && match vr4300_cycle s with
         | Some s' => quiet_cycles n s'
         | None => false
         end
  end.

(** The [common] records of the four latches, from DC/WB up to IC/RF. *)
Definition commons (s : vr4300)
    : vr4300_latch * vr4300_latch * vr4300_latch * vr4300_latch :=
  (dcwb_common (dcwb_latch (pipeline s)),
   exdc_common (exdc_latch (pipeline s)),
   rfex_common (rfex_latch (pipeline s)),
   icrf_common (icrf_latch (pipeline s))).

(** The opcode handlers leave the [common] records of the latches alone. *)
Definition handlers_keep_commons : Prop :=
  forall id s a b, commons (vr4300_function_table id s a b) = commons s.

End PipelineMore.

(** ** The ordered less-or-equal comparison of the FPU
    (os/unix/fpu/x86_64/fpu_cmp_ole_64.h) *)

(** The [double] that [memcpy] makes of a [uint64_t]: the IEEE 754 binary64
    value of a bit pattern, with the sign in bit 63, the biased exponent in
    bits 52 to 62 and the fraction in bits 0 to 51. *)
Definition double_of_bits (x : Z) : spec_float :=
  let sign := Z.testbit x 63 in
  let e := Z.land (Z.shiftr x 52) 0x7FF in
  let m := Z.land x 0xFFFFFFFFFFFFF in
  if e =? 0 then
    match m with
    | Zpos p => S754_finite sign p (-1074)
    | _ => S754_zero sign
    end
  else if e =? 0x7FF then
    if m =? 0 then S754_infinity sign else S754_nan
  else
    match m + 2 ^ 52 with
    | Zpos p => S754_finite sign p (e - 1075)
    | _ => S754_nan
    end.

(** The three flags COMISD writes. *)
Record comisd_flags : Type := {
  ZF : bool;
  PF : bool;
  CF : bool
}.

(** [comisd src, dst] (AT&T operand order): compares the destination with
    the source.  Unordered sets all three flags, destination below source
    sets CF, equal sets ZF.  The exception flags of MXCSR are not part of the
    model, and denormals are taken as they are (DAZ clear). *)
Definition comisd (src dst : spec_float) : comisd_flags :=
  match SFcompare dst src with
  | None => {| ZF := true; PF := true; CF := true |}
  | Some Gt => {| ZF := false; PF := false; CF := false |}
  | Some Lt => {| ZF := false; PF := false; CF := true |}
  | Some Eq => {| ZF := true; PF := false; CF := false |}
  end.

(** [setae]: 1 when CF is clear. *)
Definition setae (f : comisd_flags) : Z := if CF f then 0 else 1.

(** [setnp]: 1 when PF is clear. *)
Definition setnp (f : comisd_flags) : Z := if PF f then 0 else 1.

(** [fpu_cmp_ole_64(fs, ft, condition)]: the value stored to
    [*condition]. *)
Definition fpu_cmp_ole_64 (fs ft : Z) : Z :=
  let fs_reg := double_of_bits fs in
  let ft_reg := double_of_bits ft in
  (* comisd %1, %2 *)
  let flags := comisd fs_reg ft_reg in
  (* setae %dl *)
  let dl := setae flags in
  (* setnp %al *)
  let al := setnp flags in
  (* and %dl, %al *)
  Z.land dl al.

(** The bit pattern is a NaN: exponent all ones, fraction not zero. *)
Definition is_nan_bits (x : Z) : Prop :=
  Z.land (Z.shiftr x 52) 0x7FF = 0x7FF /\ Z.land x 0xFFFFFFFFFFFFF ≠ 0.

(** *** Further concrete states *)

(** A store of 0xCAFE to 0xFFFFFFFF80001000 is in the DC stage. *)
Definition write_state : vr4300 :=
  set_exdc_latch rest_state
    {| exdc_common := no_fault 0xFFFFFFFF80000004;
       exdc_segment := kseg0; exdc_result := 0;
       exdc_request :=
         {| req_address := 0xFFFFFFFF80001000; req_word := 0xCAFE;
            req_dqm := 0xFFFFFFFF; req_type := VR4300_BUS_REQUEST_WRITE;
            req_size := 4 |};
       exdc_dest := 0 |}.

(** Replaying from the RF stage, with no fault in any latch. *)
Definition rf_replay_state : vr4300 := set_skip_stages rest_state 3.

(** A branch has zeroed [iw_mask] over a fetched word. *)
Definition delay_slot_state : vr4300 :=
  set_rfex_latch rest_state
    {| rfex_common := no_fault 0xFFFFFFFF80000008;
       rfex_opcode := {| op_id := 0; op_flags := 0 |};
       rfex_iw := 0x12345678; rfex_iw_mask := 0 |}.

(** A machine straight out of [vr4300_pipeline_init]. *)
Definition fresh_state : vr4300 :=
  {| pipeline :=
       vr4300_pipeline_init VR4300_FAULT_NONE VR4300_BUS_REQUEST_NONE kseg0;
     regs := replicate 64 0;
     signals := 0;
     bus := [] |}.

(** *** A machine whose fault helpers raise *)

(** Modelled from the spec: the fault helpers live in another translation
    unit.  A helper puts the driver in slow mode and starts the count of
    cycles since the last fault over. *)
Definition raise_fault (s : vr4300) : vr4300 :=
  set_exception_history (set_fault_present s true) 0.

(** The concrete machine with these helpers in place of the idle ones. *)
Definition raising_env : vr4300_env := {|
  vr4300_decode_instruction := fun _ => {| op_id := 0; op_flags := 0 |};
  get_segment := fun _ _ => None;
  vr4300_function_table := fun _ s _ _ => s;
  VR4300_IADE := raise_fault;
  VR4300_DADE := raise_fault;
  VR4300_UNC := raise_fault;
  VR4300_LDI := raise_fault;
  VR4300_DCB := raise_fault;
  VR4300_RST := raise_fault;
  GET_RS := fun iw => Z.to_nat (Z.land (Z.shiftr iw 21) 31);
  GET_RT := fun iw => Z.to_nat (Z.land (Z.shiftr iw 16) 31);
  OPCODE_INFO_NEEDRS := 1;
  OPCODE_INFO_NEEDRT := 2;
  VR4300_CP0_REGISTER_STATUS := 44;
  VR4300_SIGNAL_COLDRESET := 1
|}.


(** Replaying from the EX stage behind the fix-up of a load of 8 bytes:
    the word read has bit 31 set and the result is all ones. *)
Definition doubleword_load_state : vr4300 :=
  set_skip_stages
    (set_exdc_latch rest_state
       {| exdc_common := no_fault 0xFFFFFFFF80000004;
          exdc_segment := kseg0; exdc_result := 0xFFFFFFFFFFFFFFFF;
          exdc_request :=
            {| req_address := 0x1000; req_word := 0x80000000;
               req_dqm := 0; req_type := VR4300_BUS_REQUEST_READ;
               req_size := 8 |};
          exdc_dest := 5 |}) 5.


(** ** Properties *)

Section Properties.

Context {env : vr4300_env}.

(** Destructs a machine state down to its latches. *)
Ltac open_state s :=
  let p := fresh "p" in
  destruct s as [p ? ? ?]; destruct p as [? ? ? ? ? ? ? ?].

(** *** The stage sequence *)

Lemma run_stages_app (l1 l2 : list (vr4300 -> stage_result)) (s : vr4300) :
  run_stages (l1 ++ l2) s =
  if (run_stages l1 s).2 then run_stages l1 s
  else run_stages l2 (run_stages l1 s).1.
Proof.
  revert s. induction l1 as [|f l1 IH]; intros s; cbn [app run_stages].
  - reflexivity.
  - destruct (f s) as [s1 [|]]; cbn [fst snd]; [reflexivity | apply IH].
Qed.

Lemma run_stages_abort (l1 l2 : list (vr4300 -> stage_result))
    (f : vr4300 -> stage_result) (s : vr4300) :
  (run_stages l1 s).2 = false ->
  (f (run_stages l1 s).1).2 = true ->
  run_stages (l1 ++ f :: l2) s = f (run_stages l1 s).1.
Proof.
  intros Hl Hf. rewrite run_stages_app, Hl. cbn [run_stages].
  rewrite Hf. reflexivity.
Qed.

Lemma fast_path_run (s : vr4300) :
  (unless vr4300_wb_stage s aborts then s =>
   unless vr4300_dc_stage s aborts then s =>
   unless vr4300_ex_stage s aborts then s =>
   unless vr4300_rf_stage s aborts then s =>
   unless vr4300_ic_stage s aborts then s => s)
  = (run_stages (stage_body <$> [WB; DC; EX; RF; IC]) s).1.
Proof.
  cbn [run_stages fmap list_fmap stage_body]. unfold or_return.
  destruct (vr4300_wb_stage s) as [s1 [|]]; cbn [fst snd]; [reflexivity|].
  destruct (vr4300_dc_stage s1) as [s2 [|]]; cbn [fst snd]; [reflexivity|].
  destruct (vr4300_ex_stage s2) as [s3 [|]]; cbn [fst snd]; [reflexivity|].
  destruct (vr4300_rf_stage s3) as [s4 [|]]; cbn [fst snd]; [reflexivity|].
  destruct (vr4300_ic_stage s4) as [s5 [|]]; reflexivity.
Qed.

(** C5. A stalling machine only counts down: with [cycles_to_stall > 0] the
    cycle returns the state with the counter decremented by one, whatever
    the signals are (so no reset is raised while stalling); registers,
    latches, [skip_stages], [fault_present], [exception_history], signals
    and bus are those of the state before. *)
Theorem stall_precedes_reset (s : vr4300) :
  cycles_to_stall (pipeline s) > 0 ->
  exists s',
    vr4300_cycle s = Some s'
    /\ s' = set_cycles_to_stall s (cycles_to_stall (pipeline s) - 1)
    /\ cycles_to_stall (pipeline s') = cycles_to_stall (pipeline s) - 1
    /\ regs s' = regs s
    /\ dcwb_latch (pipeline s') = dcwb_latch (pipeline s)
    /\ exdc_latch (pipeline s') = exdc_latch (pipeline s)
    /\ rfex_latch (pipeline s') = rfex_latch (pipeline s)
    /\ icrf_latch (pipeline s') = icrf_latch (pipeline s)
    /\ skip_stages (pipeline s') = skip_stages (pipeline s)
    /\ fault_present (pipeline s') = fault_present (pipeline s)
    /\ exception_history (pipeline s') = exception_history (pipeline s)
    /\ signals s' = signals s
    /\ bus s' = bus s.
Proof.
  intros Hstall. eexists. split.
  - unfold vr4300_cycle.
    destruct (Z.gtb_spec (cycles_to_stall (pipeline s)) 0) as [_|Hle];
      [reflexivity | lia].
  - repeat split; reflexivity.
Qed.

(** C2. On the fast path the cycle is the run of WB, DC, EX, RF, IC in this
    order, cut behind the first stage that returns abort: the state the
    cycle leaves is the one that stage returned. *)
Theorem fast_path_order (s : vr4300) :
  cycles_to_stall (pipeline s) = 0 ->
  Z.land (signals s) VR4300_SIGNAL_COLDRESET = 0 ->
  fault_present (pipeline s) = false ->
  skip_stages (pipeline s) = 0%nat ->
  vr4300_cycle s = Some (run_stages (stage_body <$> [WB; DC; EX; RF; IC]) s).1
  /\ forall l1 f l2,
       stage_body <$> [WB; DC; EX; RF; IC] = l1 ++ f :: l2 ->
       (run_stages l1 s).2 = false ->
       (f (run_stages l1 s).1).2 = true ->
       vr4300_cycle s = Some (f (run_stages l1 s).1).1.
Proof.
  intros Hstall Hreset Hfault Hskip.
  assert (Hrun : vr4300_cycle s
            = Some (run_stages (stage_body <$> [WB; DC; EX; RF; IC]) s).1).
  { unfold vr4300_cycle, cycle_reset.
    rewrite Hstall. change (0 >? 0) with false. cbv iota.
    rewrite Hreset. change (negb (0 =? 0)) with false. cbv iota.
    rewrite Hfault, Hskip. cbn [orb negb Nat.eqb].
    f_equal. apply fast_path_run. }
  split; [exact Hrun|].
  intros l1 f l2 Hsplit Hl1 Hf.
  rewrite Hrun, Hsplit, run_stages_abort by assumption. reflexivity.
Qed.

(** *** The IC stage *)

(** The two exits of the IC stage. *)
Lemma ic_stage_cases (s : vr4300) :
  vr4300_ic_stage s
  = if ic_miss s then (VR4300_IADE (ic_decode s), true)
    else (set_icrf_latch (ic_decode s)
            {| icrf_common :=
                 {| pc := icrf_pc (icrf_latch (pipeline s));
                    fault := VR4300_FAULT_NONE |};
               icrf_segment := ic_segment s;
               icrf_pc := wrap64 (icrf_pc (icrf_latch (pipeline s)) + 4) |},
          false).
Proof.
  open_state s.
  unfold vr4300_ic_stage, ic_miss, ic_segment, ic_decode, outside_segment,
    cp0_status.
  cbn [pipeline icrf_latch rfex_latch regs icrf_pc icrf_segment
       set_icrf_latch set_rfex_latch set_pipeline icrf_common pc].
  destruct (wrap64 _ >? _); cbn [andb]; [|reflexivity].
  destruct (get_segment _ _) as [seg|]; reflexivity.
Qed.

(** C6. The IC stage aborts exactly when the fetch address is outside the
    current segment (the unsigned difference [pc - start] exceeds the
    length) and the segment map misses; it then hands the decoded state to
    [VR4300_IADE] with [icrf_latch.pc] not advanced.  Otherwise it returns
    continue with the fault of the IC/RF latch cleared, the segment that was
    found installed, and [icrf_latch.pc] advanced by 4 (as a 64-bit
    unsigned number). *)
Theorem ic_segment_check (s : vr4300) :
  let icrf := icrf_latch (pipeline s) in
  let r := vr4300_ic_stage s in
  r.2 = ic_miss s
  /\ (ic_miss s = true ->
      r.1 = VR4300_IADE (ic_decode s)
      /\ icrf_pc (icrf_latch (pipeline (ic_decode s))) = icrf_pc icrf)
  /\ (ic_miss s = false ->
      r.1 = set_icrf_latch (ic_decode s)
              {| icrf_common :=
                   {| pc := icrf_pc icrf; fault := VR4300_FAULT_NONE |};
                 icrf_segment := ic_segment s;
                 icrf_pc := wrap64 (icrf_pc icrf + 4) |}
      /\ (0 <= icrf_pc icrf < 2 ^ 64 - 4 ->
          wrap64 (icrf_pc icrf + 4) = icrf_pc icrf + 4)).
Proof.
  intros icrf r. subst r. rewrite ic_stage_cases.
  destruct (ic_miss s); cbn [fst snd].
  - split; [reflexivity|]. split; [|discriminate].
    intros _. split; reflexivity.
  - split; [reflexivity|]. split; [discriminate|].
    intros _. split; [reflexivity|].
    intros Hpc. unfold wrap64. apply Z.mod_small. lia.
Qed.

(** *** The EX stage *)

Lemma needed_bit_cleared (f a b : Z) :
  Z.land (Z.land f (wrap32 (Z.lnot (Z.lor a b)))) a = 0
  /\ Z.land (Z.land f (wrap32 (Z.lnot (Z.lor a b)))) b = 0.
Proof.
  unfold wrap32.
  split; apply Z.bits_inj'; intros n Hn;
    rewrite !Z.land_spec, Z.bits_0, Z.testbit_mod_pow2 by lia;
    rewrite Z.lnot_spec, Z.lor_spec by lia;
    destruct (Z.testbit f n), (Z.testbit a n), (Z.testbit b n), (n <? 32);
    reflexivity.
Qed.

Lemma ex_stage_no_request (s : vr4300) :
  req_type (exdc_request (exdc_latch (pipeline s)))
    = VR4300_BUS_REQUEST_NONE ->
  vr4300_ex_stage s = ex_issue (ex_latched s).
Proof.
  intros Hnone. unfold vr4300_ex_stage. fold (ex_latched s).
  replace (req_type (exdc_request (exdc_latch (pipeline (ex_latched s)))))
    with VR4300_BUS_REQUEST_NONE by (rewrite <- Hnone; reflexivity).
  destruct (decide (VR4300_BUS_REQUEST_NONE = VR4300_BUS_REQUEST_NONE));
    [|congruence].
  destruct (needed_bit_cleared
              (op_flags (rfex_opcode (rfex_latch (pipeline s))))
              OPCODE_INFO_NEEDRS OPCODE_INFO_NEEDRT) as [-> ->].
  change (negb (0 =? 0)) with false. rewrite !andb_false_r. reflexivity.
Qed.

Lemma ex_stage_interlock (s : vr4300) :
  req_type (exdc_request (exdc_latch (pipeline s)))
    ≠ VR4300_BUS_REQUEST_NONE ->
  (needs_rs s
   /\ dcwb_dest (dcwb_latch (pipeline s))
      = GET_RS (rfex_iw (rfex_latch (pipeline s))))
  \/ (needs_rt s
      /\ dcwb_dest (dcwb_latch (pipeline s))
         = GET_RT (rfex_iw (rfex_latch (pipeline s)))) ->
  vr4300_ex_stage s = (VR4300_LDI (ex_latched s), true).
Proof.
  intros Hreq Hneed. unfold vr4300_ex_stage. fold (ex_latched s).
  replace (req_type (exdc_request (exdc_latch (pipeline (ex_latched s)))))
    with (req_type (exdc_request (exdc_latch (pipeline s)))) by reflexivity.
  destruct (decide (_ = VR4300_BUS_REQUEST_NONE)) as [|_]; [contradiction|].
  unfold needs_rs, needs_rt in Hneed.
  destruct Hneed as [[Hflag Hreg]|[Hflag Hreg]].
  - rewrite (bool_decide_eq_true_2 _ Hreg).
    apply Z.eqb_neq in Hflag. rewrite Hflag. reflexivity.
  - rewrite (bool_decide_eq_true_2 _ Hreg).
    apply Z.eqb_neq in Hflag. rewrite Hflag.
    rewrite orb_true_r. reflexivity.
Qed.

Lemma ex_issue_continues (s : vr4300) : (ex_issue s).2 = false.
Proof. reflexivity. Qed.

(** C7. With no bus request pending in the EX/DC latch the NEEDRS and NEEDRT
    bits are cleared before the check, so the execution stage never takes
    the LDI exit: it forwards and calls the handler.  With a request
    pending, an instruction that needs [rs] (or [rt]) whose register index
    equals [dcwb_latch.dest] makes the stage hand the state to
    [VR4300_LDI] and return abort; that state differs from the entry state
    in [exdc_latch.common] only (no forwarding, no handler). *)
Theorem load_use_interlock (s : vr4300) :
  (req_type (exdc_request (exdc_latch (pipeline s)))
     = VR4300_BUS_REQUEST_NONE ->
   vr4300_ex_stage s = ex_issue (ex_latched s)
   /\ (vr4300_ex_stage s).2 = false)
  /\ (req_type (exdc_request (exdc_latch (pipeline s)))
        ≠ VR4300_BUS_REQUEST_NONE ->
      (needs_rs s
       /\ dcwb_dest (dcwb_latch (pipeline s))
          = GET_RS (rfex_iw (rfex_latch (pipeline s))))
      \/ (needs_rt s
          /\ dcwb_dest (dcwb_latch (pipeline s))
             = GET_RT (rfex_iw (rfex_latch (pipeline s)))) ->
      vr4300_ex_stage s = (VR4300_LDI (ex_latched s), true)).
Proof.
  split.
  - intros Hnone. rewrite (ex_stage_no_request s Hnone).
    split; [reflexivity | apply ex_issue_continues].
  - apply ex_stage_interlock.
Qed.

(** C9. The interlock check makes no exception for register 0: with a
    request pending, [dcwb_latch.dest] equal to 0 and an instruction that
    needs [rs] with an rs field of 0 (or [rt] with an rt field of 0), the
    execution stage raises LDI and aborts, the register file untouched. *)
Theorem interlock_on_register_zero (s : vr4300) :
  req_type (exdc_request (exdc_latch (pipeline s)))
    ≠ VR4300_BUS_REQUEST_NONE ->
  dcwb_dest (dcwb_latch (pipeline s)) = VR4300_REGISTER_R0 ->
  (needs_rs s /\ GET_RS (rfex_iw (rfex_latch (pipeline s))) = 0%nat)
  \/ (needs_rt s /\ GET_RT (rfex_iw (rfex_latch (pipeline s))) = 0%nat) ->
  vr4300_ex_stage s = (VR4300_LDI (ex_latched s), true)
  /\ regs (ex_latched s) = regs s.
Proof.
  intros Hreq Hdest Hneed. split; [|reflexivity].
  apply ex_stage_interlock; [assumption|].
  rewrite Hdest. unfold VR4300_REGISTER_R0.
  destruct Hneed as [[? ->]|[? ->]]; [left | right]; split; auto.
Qed.

(** *** The DC stage *)
(** C10. When the DC stage returns abort, the state it has handed to the
    fault helper already carries the copy of [common], [result] and [dest]
    from the EX/DC latch in the DC/WB latch; the abort is either DADE on a
    segment map miss, or DCB on a read, and in the latter case the resolved
    segment is already installed and the request address already rebased by
    the segment offset. *)
Theorem dc_abort_not_atomic (s : vr4300) :
  (vr4300_dc_stage s).2 = true ->
  let exdc := exdc_latch (pipeline s) in
  dcwb_latch (pipeline (dc_latched s))
  = {| dcwb_common := exdc_common exdc; dcwb_result := exdc_result exdc;
       dcwb_dest := exdc_dest exdc |}
  /\ ((dc_resolved s = None
       /\ (vr4300_dc_stage s).1 = VR4300_DADE (dc_latched s))
      \/ (exists seg,
            dc_resolved s = Some seg
            /\ req_type (exdc_request exdc) = VR4300_BUS_REQUEST_READ
            /\ (vr4300_dc_stage s).1
               = VR4300_DCB (dc_rebased (dc_latched s) seg)
            /\ dcwb_latch (pipeline (dc_rebased (dc_latched s) seg))
               = dcwb_latch (pipeline (dc_latched s))
            /\ exdc_segment
                 (exdc_latch (pipeline (dc_rebased (dc_latched s) seg)))
               = seg
            /\ req_address (exdc_request (exdc_latch
                 (pipeline (dc_rebased (dc_latched s) seg))))
               = wrap64 (req_address (exdc_request exdc) - seg_offset seg))).
Proof.
  intros Habort exdc. split; [reflexivity|]. revert Habort.
  unfold vr4300_dc_stage, dc_resolved, outside_segment, cp0_status.
  fold (dc_latched s). fold exdc.
  destruct (decide (req_type (exdc_request exdc) ≠ VR4300_BUS_REQUEST_NONE))
    as [Hreq|Hreq]; [|discriminate].
  replace (regs (dc_latched s)) with (regs s) by reflexivity.
  destruct (wrap64 _ >? _).
  - destruct (get_segment _ _) as [seg|].
    + fold (dc_rebased (dc_latched s) seg).
      replace (req_type (request_with_address _ _))
        with (req_type (exdc_request exdc)) by reflexivity.
      destruct (decide (_ = VR4300_BUS_REQUEST_READ)) as [Hread|Hread];
        [|discriminate].
      intros _. right. exists seg. repeat split; assumption || reflexivity.
    + intros _. left. split; reflexivity.
  - fold (dc_rebased (dc_latched s) (exdc_segment exdc)).
    replace (req_type (request_with_address _ _))
      with (req_type (exdc_request exdc)) by reflexivity.
    destruct (decide (_ = VR4300_BUS_REQUEST_READ)) as [Hread|Hread];
      [|discriminate].
    intros _. right. exists (exdc_segment exdc).
    repeat split; assumption || reflexivity.
Qed.
(** *** The load fix-up *)

Lemma to_s64_range (x : Z) : - 2 ^ 63 <= to_s64 x < 2 ^ 63.
Proof.
  unfold to_s64.
  pose proof (Z.mod_pos_bound (x + 2 ^ 63) (2 ^ 64) ltac:(lia)). lia.
Qed.

Lemma to_s64_small (x : Z) : - 2 ^ 63 <= x < 2 ^ 63 -> to_s64 x = x.
Proof.
  intros Hx. unfold to_s64. rewrite Z.mod_small by lia. lia.
Qed.

Lemma fixdc_shift_counts (size : Z) :
  1 <= size <= 7 ->
  to_s32 (wrap32 (Z.shiftl size 3)) = size * 8
  /\ to_s32 (wrap32 (Z.shiftl (wrap32 (8 - size)) 3)) = (8 - size) * 8.
Proof.
  intros Hsize. unfold to_s32, wrap32.
  rewrite (Z.mod_small (8 - size)) by lia.
  rewrite !Z.shiftl_mul_pow2 by lia. change (2 ^ 3) with 8.
  rewrite (Z.mod_small (size * 8)), (Z.mod_small ((8 - size) * 8)) by lia.
  rewrite !Z.mod_small by lia. lia.
Qed.

Lemma shift_count_in_range (c : Z) : 0 <= c < 64 -> shift_count c = c.
Proof. intros Hc. unfold shift_count. apply Z.mod_small, Hc. Qed.

(** The logical-shift round trip keeps the low [64 - ds] bits. *)
Lemma shl_shr_zero_extend (d ds : Z) :
  0 <= ds <= 64 ->
  Z.shiftr (wrap64 (Z.shiftl d ds)) ds = zero_extend (64 - ds) d.
Proof.
  intros Hds. unfold wrap64, zero_extend.
  rewrite Z.shiftl_mul_pow2, Z.shiftr_div_pow2 by lia.
  replace (2 ^ 64) with (2 ^ (64 - ds) * 2 ^ ds)
    by (rewrite <- Z.pow_add_r by lia; f_equal; lia).
  rewrite Z.mul_mod_distr_r by lia.
  apply Z.div_mul. lia.
Qed.

(** The arithmetic-shift round trip sign extends the low [64 - ds] bits. *)
Lemma shl_sar_sign_extend (x ds : Z) :
  0 <= ds < 64 ->
  Z.shiftr (to_s64 (Z.shiftl x ds)) ds = sign_extend (64 - ds) x.
Proof.
  intros Hds. unfold to_s64, sign_extend.
  rewrite Z.shiftl_mul_pow2, Z.shiftr_div_pow2 by lia.
  replace (64 - ds - 1) with (63 - ds) by lia.
  replace (2 ^ 63) with (2 ^ (63 - ds) * 2 ^ ds)
    by (rewrite <- Z.pow_add_r by lia; f_equal; lia).
  replace (2 ^ 64) with (2 ^ (64 - ds) * 2 ^ ds)
    by (rewrite <- Z.pow_add_r by lia; f_equal; lia).
  rewrite <- Z.mul_add_distr_r, Z.mul_mod_distr_r by lia.
  rewrite <- Z.mul_sub_distr_r.
  apply Z.div_mul. lia.
Qed.

(** Shifting right and back left clears the low [k] bits. *)
Lemma sar_shl_clear_low (m k : Z) :
  0 <= k <= 63 ->
  - 2 ^ 63 <= m < 2 ^ 63 ->
  to_s64 (Z.shiftl (Z.shiftr m k) k) = clear_low_bits k m.
Proof.
  intros Hk Hm. unfold clear_low_bits.
  rewrite Z.ldiff_ones_r by lia.
  apply to_s64_small.
  rewrite Z.shiftl_mul_pow2, Z.shiftr_div_pow2 by lia.
  assert (Hp : 0 < 2 ^ k) by lia.
  assert (H63 : 2 ^ 63 = 2 ^ (63 - k) * 2 ^ k)
    by (rewrite <- Z.pow_add_r by lia; f_equal; lia).
  pose proof (Z.mul_div_le m (2 ^ k) Hp) as Hle.
  assert (- 2 ^ (63 - k) <= m / 2 ^ k).
  { apply Z.div_le_lower_bound; lia. }
  nia.
Qed.

Lemma fixdc_result_extend (size word result : Z) :
  1 <= size <= 7 ->
  fixdc_result size word result
  = wrap64 (Z.lor (Z.land (sign_extend (size * 8) (to_s32 word))
                          (clear_low_bits (size * 8) (to_s64 result)))
                  (zero_extend (size * 8) (wrap32 word))).
Proof.
  intros Hsize. unfold fixdc_result.
  destruct (fixdc_shift_counts size Hsize) as [-> ->].
  rewrite !shift_count_in_range by lia.
  rewrite sar_shl_clear_low by (lia || apply to_s64_range).
  rewrite shl_sar_sign_extend, shl_shr_zero_extend by lia.
  replace (64 - (8 - size) * 8) with (size * 8) by lia.
  reflexivity.
Qed.

(** *** The replay variants as runs of stages *)

Lemma or_return_run (f : vr4300 -> stage_result)
    (l : list (vr4300 -> stage_result)) (k : vr4300 -> vr4300) (s : vr4300) :
  (forall s', k s' = (run_stages l s').1) ->
  or_return (f s) k = (run_stages (f :: l) s).1.
Proof.
  intros Hk. unfold or_return. cbn [run_stages].
  destruct (f s) as [s1 [|]]; cbn [fst snd]; [reflexivity | apply Hk].
Qed.

Lemma or_return_completed (f : vr4300 -> stage_result)
    (l : list (vr4300 -> stage_result)) (k : vr4300 -> vr4300) (s : vr4300) :
  (forall s', k s' = completed (run_stages l s')) ->
  or_return (f s) k = completed (run_stages (f :: l) s).
Proof.
  intros Hk. unfold or_return. cbn [run_stages].
  destruct (f s) as [s1 [|]]; cbn [fst snd]; [reflexivity | apply Hk].
Qed.

Lemma slow_wb_run (s : vr4300) :
  vr4300_cycle_slow_wb s
  = (run_stages (replay_step <$> [WB; DC; EX; RF; IC])
       (exception_history_tick s)).1.
Proof.
  unfold vr4300_cycle_slow_wb. cbn [fmap list_fmap].
  apply (or_return_run (replay_step WB)); intros s1.
  apply (or_return_run (replay_step DC)); intros s2.
  apply (or_return_run (replay_step EX)); intros s3.
  apply (or_return_run (replay_step RF)); intros s4.
  apply (or_return_run (replay_step IC)); intros s5.
  reflexivity.
Qed.

Lemma slow_dc_run (s : vr4300) :
  vr4300_cycle_slow_dc s
  = completed (run_stages (replay_step <$> [DC; EX; RF; IC]) s).
Proof.
  unfold vr4300_cycle_slow_dc. cbn [fmap list_fmap].
  apply (or_return_completed (replay_step DC)); intros s2.
  apply (or_return_completed (replay_step EX)); intros s3.
  apply (or_return_completed (replay_step RF)); intros s4.
  apply (or_return_completed (replay_step IC)); intros s5.
  reflexivity.
Qed.

Lemma slow_ex_run (s : vr4300) :
  vr4300_cycle_slow_ex s
  = completed (run_stages (replay_step <$> [EX; RF; IC]) s).
Proof.
  unfold vr4300_cycle_slow_ex. cbn [fmap list_fmap].
  apply (or_return_completed (replay_step EX)); intros s3.
  apply (or_return_completed (replay_step RF)); intros s4.
  apply (or_return_completed (replay_step IC)); intros s5.
  reflexivity.
Qed.

Lemma slow_ex_fixdc_run (s : vr4300) :
  vr4300_cycle_slow_ex_fixdc s
  = completed (run_stages (replay_step <$> [EX; RF; IC]) (fixdc s)).
Proof.
  unfold vr4300_cycle_slow_ex_fixdc. fold (fixdc s). cbn [fmap list_fmap].
  apply (or_return_completed (replay_step EX)); intros s3.
  apply (or_return_completed (replay_step RF)); intros s4.
  apply (or_return_completed (replay_step IC)); intros s5.
  reflexivity.
Qed.

Lemma slow_rf_run (s : vr4300) :
  vr4300_cycle_slow_rf s
  = completed (run_stages (replay_step <$> [RF; IC]) s).
Proof.
  unfold vr4300_cycle_slow_rf. cbn [fmap list_fmap].
  apply (or_return_completed (replay_step RF)); intros s4.
  apply (or_return_completed (replay_step IC)); intros s5.
  reflexivity.
Qed.

Lemma slow_ic_run (s : vr4300) :
  vr4300_cycle_slow_ic s = completed (run_stages (replay_step <$> [IC]) s).
Proof.
  unfold vr4300_cycle_slow_ic. cbn [fmap list_fmap].
  apply (or_return_completed (replay_step IC)); intros s5.
  reflexivity.
Qed.

(** A property that every stage of a run keeps is kept by the run. *)
Lemma run_stages_keeps (P : vr4300 -> Prop)
    (l : list (vr4300 -> stage_result)) (s : vr4300) :
  Forall (fun f => forall s, P s -> P (f s).1) l ->
  P s -> P (run_stages l s).1.
Proof.
  intros Hl. revert s. induction Hl as [|f l Hf _ IH]; intros s Hs.
  - exact Hs.
  - cbn [run_stages]. specialize (Hf s Hs).
    destruct (f s) as [s1 [|]]; cbn [fst snd] in *; [exact Hf | auto].
Qed.

Lemma replay_step_keeps (P : vr4300 -> Prop) (st : stage_id) :
  (forall s, P s -> P (stage_body st s).1) ->
  (forall s, P s -> P (squash st s)) ->
  forall s, P s -> P (replay_step st s).1.
Proof.
  intros Hbody Hsquash s Hs. unfold replay_step.
  destruct (decide _); cbn [fst]; auto.
Qed.

(** *** Register 0 *)

Lemma R0_zero_same_regs (s s' : vr4300) :
  regs s' = regs s -> R0_zero s -> R0_zero s'.
Proof. unfold R0_zero. intros ->. auto. Qed.

(** The forwarding swap gives the register file back as it was. *)
Lemma ex_forward_restores (r : list Z) (dest : nat) (result : Z)
    (rs rt : nat) :
  r !! VR4300_REGISTER_R0 = Some 0 ->
  (ex_forward r dest result rs rt).1.1 = r.
Proof.
  intros Hzero. unfold ex_forward, reg_write, reg_read, VR4300_REGISTER_R0 in *.
  cbn [fst].
  destruct (decide (dest = 0%nat)) as [->|Hne].
  - rewrite Hzero. cbn [default].
    rewrite !list_insert_insert_eq. apply list_insert_id, Hzero.
  - rewrite (list_insert_insert_ne _ dest 0%nat) by assumption.
    rewrite list_insert_insert_eq.
    rewrite (list_insert_id' r dest).
    + apply list_insert_id, Hzero.
    + intros Hlt. destruct (lookup_lt_is_Some_2 r dest Hlt) as [x Hx].
      rewrite Hx. reflexivity.
Qed.

(** The writeback leaves zero in register 0 whatever it wrote. *)
Lemma wb_stage_forces_R0 (s : vr4300) :
  (0 < length (regs s))%nat ->
  fault (dcwb_common (dcwb_latch (pipeline s))) = VR4300_FAULT_NONE ->
  regs (vr4300_wb_stage s).1 !! VR4300_REGISTER_R0 = Some 0.
Proof.
  intros Hlen Hfault. unfold vr4300_wb_stage. rewrite Hfault.
  destruct (decide (VR4300_FAULT_NONE ≠ VR4300_FAULT_NONE)); [congruence|].
  cbn [fst regs set_regs]. unfold reg_write.
  apply list_lookup_insert_eq. rewrite length_insert. exact Hlen.
Qed.

Section R0.

Hypothesis HR0 : env_preserves_R0.

Lemma wb_stage_keeps_R0 (s : vr4300) :
  R0_zero s -> R0_zero (vr4300_wb_stage s).1.
Proof.
  intros Hs. unfold vr4300_wb_stage.
  destruct (decide _) as [_|Hnone]; [exact Hs|].
  cbn [fst]. unfold R0_zero. cbn [regs set_regs]. unfold reg_write.
  apply list_lookup_insert_eq. rewrite length_insert.
  apply (lookup_lt_Some _ _ _ Hs).
Qed.

Lemma dc_stage_keeps_R0 (s : vr4300) :
  R0_zero s -> R0_zero (vr4300_dc_stage s).1.
Proof.
  intros Hs. destruct HR0 as (_ & _ & HDADE & _ & _ & HDCB & _).
  unfold vr4300_dc_stage.
  repeat (destruct (decide _) || destruct (_ >? _)
          || destruct (get_segment _ _)); cbn [fst];
    first [ apply HDADE | apply HDCB | idtac ];
    apply (R0_zero_same_regs s); auto.
Qed.

Lemma ex_stage_keeps_R0 (s : vr4300) :
  R0_zero s -> R0_zero (vr4300_ex_stage s).1.
Proof.
  intros Hs. destruct HR0 as (Hfun & _ & _ & _ & HLDI & _).
  unfold vr4300_ex_stage. destruct (_ || _); cbn [fst].
  - apply HLDI. apply (R0_zero_same_regs s); auto.
  - unfold ex_issue.
    destruct (ex_forward _ _ _ _ _) as [[r rs_reg] rt_reg] eqn:Hfwd.
    cbn [fst]. apply Hfun. unfold R0_zero.
    cbn [regs set_exdc_latch set_pipeline set_regs].
    change r with ((r, rs_reg, rt_reg).1.1). rewrite <- Hfwd.
    cbn [regs set_exdc_latch set_pipeline].
    rewrite ex_forward_restores; exact Hs.
Qed.

Lemma rf_stage_keeps_R0 (s : vr4300) :
  R0_zero s -> R0_zero (vr4300_rf_stage s).1.
Proof.
  intros Hs. destruct HR0 as (_ & _ & _ & HUNC & _).
  unfold vr4300_rf_stage. destruct (negb _); cbn [fst];
    [apply HUNC|]; apply (R0_zero_same_regs s); auto.
Qed.

Lemma ic_stage_keeps_R0 (s : vr4300) :
  R0_zero s -> R0_zero (vr4300_ic_stage s).1.
Proof.
  intros Hs. destruct HR0 as (_ & HIADE & _).
  unfold vr4300_ic_stage.
  repeat (destruct (_ >? _) || destruct (get_segment _ _)); cbn [fst];
    [|apply HIADE|]; apply (R0_zero_same_regs s); auto.
Qed.

Lemma stage_body_keeps_R0 (st : stage_id) (s : vr4300) :
  R0_zero s -> R0_zero (stage_body st s).1.
Proof.
  destruct st; cbn [stage_body];
    auto using wb_stage_keeps_R0, dc_stage_keeps_R0, ex_stage_keeps_R0,
      rf_stage_keeps_R0, ic_stage_keeps_R0.
Qed.

Lemma replay_keeps_R0 (l : list stage_id) (s : vr4300) :
  R0_zero s -> R0_zero (run_stages (replay_step <$> l) s).1.
Proof.
  apply run_stages_keeps. apply Forall_fmap, Forall_forall.
  intros st _. unfold compose. apply replay_step_keeps.
  - apply stage_body_keeps_R0.
  - intros s' Hs'. apply (R0_zero_same_regs s'); [|exact Hs'].
    destruct st; reflexivity.
Qed.

Lemma completed_keeps_R0 (r : stage_result) :
  R0_zero r.1 -> R0_zero (completed r).
Proof.
  unfold completed. destruct r as [s [|]]; cbn [fst snd]; [auto|].
  apply R0_zero_same_regs. reflexivity.
Qed.

Lemma lut_keeps_R0 (k : nat) (f : vr4300 -> vr4300) (s : vr4300) :
  pipeline_function_lut !! k = Some f -> R0_zero s -> R0_zero (f s).
Proof.
  intros Hk Hs.
  unfold pipeline_function_lut in Hk.
  destruct k as [|[|[|[|[|[|k]]]]]]; cbn [lookup list_lookup] in Hk;
    [injection Hk as <- ..|discriminate].
  - rewrite slow_wb_run. apply replay_keeps_R0.
    unfold exception_history_tick. destruct (_ >? _);
      apply (R0_zero_same_regs s); auto.
  - rewrite slow_dc_run. apply completed_keeps_R0, replay_keeps_R0, Hs.
  - rewrite slow_ex_run. apply completed_keeps_R0, replay_keeps_R0, Hs.
  - rewrite slow_rf_run. apply completed_keeps_R0, replay_keeps_R0, Hs.
  - rewrite slow_ic_run. apply completed_keeps_R0, replay_keeps_R0, Hs.
  - rewrite slow_ex_fixdc_run. apply completed_keeps_R0, replay_keeps_R0.
    apply (R0_zero_same_regs s); auto.
Qed.

Lemma cycle_reset_keeps_R0 (s : vr4300) :
  R0_zero s -> R0_zero (cycle_reset s).
Proof.
  intros Hs. destruct HR0 as (_ & _ & _ & _ & _ & _ & HRST).
  unfold cycle_reset. destruct (negb _); auto.
Qed.

Lemma cycle_keeps_R0 (s s' : vr4300) :
  R0_zero s -> vr4300_cycle s = Some s' -> R0_zero s'.
Proof.
  intros Hs. unfold vr4300_cycle.
  destruct (_ >? _).
  { intros [= <-]. apply (R0_zero_same_regs s); auto. }
  pose proof (cycle_reset_keeps_R0 s Hs) as Hreset.
  destruct (_ || _).
  - destruct (pipeline_function_lut !! _) as [f|] eqn:Hlut;
      cbn [mbind option_bind]; [|discriminate].
    intros [= <-]. eapply lut_keeps_R0; eauto.
  - intros [= <-]. rewrite fast_path_run.
    apply run_stages_keeps; [|exact Hreset].
    apply Forall_fmap, Forall_forall. intros st _. unfold compose.
    apply stage_body_keeps_R0.
Qed.

Lemma cycle_defined (s : vr4300) :
  (skip_stages (pipeline (cycle_reset s)) < 6)%nat ->
  is_Some (vr4300_cycle s).
Proof.
  intros Hskip. unfold vr4300_cycle.
  destruct (_ >? _); [eauto|]. destruct (_ || _); [|eauto].
  destruct (lookup_lt_is_Some_2 pipeline_function_lut _ Hskip) as [f ->].
  cbn [mbind option_bind]. eauto.
Qed.

End R0.

(** *** The control state *)

Lemma cycles_add (n m : nat) (s : vr4300) :
  vr4300_cycles (n + m) s = vr4300_cycles n s ≫= vr4300_cycles m.
Proof.
  revert s. induction n as [|n IH]; intros s; cbn [Nat.add vr4300_cycles].
  - reflexivity.
  - destruct (vr4300_cycle s) as [s1|]; cbn [mbind option_bind];
      [apply IH | reflexivity].
Qed.

(** The tick of [vr4300_cycle_slow_wb] on the control state: the counter
    goes up by one, and [fault_present] is cleared when the counter was
    above 4. *)
Lemma exception_history_tick_control (s : vr4300) :
  control (exception_history_tick s)
  = (wrap32 (exception_history (pipeline s) + 1),
     cycles_to_stall (pipeline s), skip_stages (pipeline s),
     (if exception_history (pipeline s) >? 4 then false
      else fault_present (pipeline s)),
     signals s).
Proof.
  unfold exception_history_tick. destruct (_ >? _); reflexivity.
Qed.


(** *** The squash rule *)

Lemma replay_step_squashed (st : stage_id) (s : vr4300) :
  input_fault st s ≠ VR4300_FAULT_NONE ->
  replay_step st s = (squash st s, false).
Proof.
  intros Hfault. unfold replay_step.
  destruct (decide _); [contradiction | reflexivity].
Qed.

Lemma replay_step_clean (st : stage_id) (s : vr4300) :
  input_fault st s = VR4300_FAULT_NONE ->
  replay_step st s = stage_body st s.
Proof.
  intros Hfault. unfold replay_step.
  destruct (decide _); [reflexivity | contradiction].
Qed.

Lemma dc_stage_continue_latches (s : vr4300) :
  (vr4300_dc_stage s).2 = false ->
  exdc_common (exdc_latch (pipeline (vr4300_dc_stage s).1))
  = exdc_common (exdc_latch (pipeline s))
  /\ rfex_latch (pipeline (vr4300_dc_stage s).1) = rfex_latch (pipeline s)
  /\ icrf_latch (pipeline (vr4300_dc_stage s).1) = icrf_latch (pipeline s).
Proof.
  unfold vr4300_dc_stage.
  repeat (destruct (decide _) || destruct (_ >? _)
          || destruct (get_segment _ _)); cbn [fst snd];
    first [discriminate | intros _; repeat split].
Qed.

Lemma wb_stage_latches (s : vr4300) :
  (vr4300_wb_stage s).2 = false
  /\ pipeline (vr4300_wb_stage s).1 = pipeline s.
Proof.
  unfold vr4300_wb_stage. destruct (decide _); split; reflexivity.
Qed.

(** C3, as the code has it.  Every replay variant is a run of slots, one
    per stage from its entry stage on.  A slot whose input latch carries a
    fault does not run the stage; for WB, DC and EX it copies the [common]
    record of the latch upstream over that input latch, for RF it does
    nothing, and IC always runs.  The copy touches no register, no bus
    state and no control state.  A fault in the EX/DC latch is thereby
    replaced by the [common] of the RF/EX latch; it arrives in the DC/WB
    latch only if that latch is squashed in the same tick, and is dropped
    if the DC/WB latch is clean. *)
Theorem replay_squash_rule :
  (forall s,
     vr4300_cycle_slow_wb s
     = (run_stages (replay_step <$> [WB; DC; EX; RF; IC])
          (exception_history_tick s)).1
     /\ vr4300_cycle_slow_dc s
        = completed (run_stages (replay_step <$> [DC; EX; RF; IC]) s)
     /\ vr4300_cycle_slow_ex s
        = completed (run_stages (replay_step <$> [EX; RF; IC]) s)
     /\ vr4300_cycle_slow_ex_fixdc s
        = completed (run_stages (replay_step <$> [EX; RF; IC]) (fixdc s))
     /\ vr4300_cycle_slow_rf s
        = completed (run_stages (replay_step <$> [RF; IC]) s)
     /\ vr4300_cycle_slow_ic s
        = completed (run_stages (replay_step <$> [IC]) s))
  /\ (forall st s,
        input_fault st s ≠ VR4300_FAULT_NONE ->
        replay_step st s = (squash st s, false))
  /\ (forall s,
        dcwb_latch (pipeline (squash WB s))
        = dcwb_with_common (dcwb_latch (pipeline s))
            (exdc_common (exdc_latch (pipeline s)))
        /\ exdc_latch (pipeline (squash DC s))
           = exdc_with_common (exdc_latch (pipeline s))
               (rfex_common (rfex_latch (pipeline s)))
        /\ rfex_latch (pipeline (squash EX s))
           = rfex_with_common (rfex_latch (pipeline s))
               (icrf_common (icrf_latch (pipeline s)))
        /\ squash RF s = s)
  /\ (forall st s,
        regs (squash st s) = regs s /\ bus (squash st s) = bus s
        /\ control (squash st s) = control s)
  /\ (forall s,
        input_fault WB s = VR4300_FAULT_NONE ->
        input_fault DC s ≠ VR4300_FAULT_NONE ->
        let s' := (run_stages (replay_step <$> [WB; DC]) s).1 in
        dcwb_common (dcwb_latch (pipeline s'))
        = dcwb_common (dcwb_latch (pipeline s))
        /\ exdc_common (exdc_latch (pipeline s'))
           = rfex_common (rfex_latch (pipeline s)))
  /\ (forall s,
        input_fault WB s ≠ VR4300_FAULT_NONE ->
        input_fault DC s ≠ VR4300_FAULT_NONE ->
        let s' := (run_stages (replay_step <$> [WB; DC]) s).1 in
        dcwb_common (dcwb_latch (pipeline s'))
        = exdc_common (exdc_latch (pipeline s))
        /\ exdc_common (exdc_latch (pipeline s'))
           = rfex_common (rfex_latch (pipeline s)))
  /\ (forall s,
        input_fault DC s = VR4300_FAULT_NONE ->
        input_fault EX s ≠ VR4300_FAULT_NONE ->
        (vr4300_dc_stage s).2 = false ->
        let s' := (run_stages (replay_step <$> [DC; EX]) s).1 in
        exdc_common (exdc_latch (pipeline s'))
        = exdc_common (exdc_latch (pipeline s))
        /\ rfex_common (rfex_latch (pipeline s'))
           = icrf_common (icrf_latch (pipeline s)))
  /\ (forall s,
        input_fault RF s ≠ VR4300_FAULT_NONE ->
        ic_miss s = false ->
        let s' := (run_stages (replay_step <$> [RF; IC]) s).1 in
        input_fault RF s' = VR4300_FAULT_NONE
        /\ rfex_common (rfex_latch (pipeline s'))
           = rfex_common (rfex_latch (pipeline s))).
Proof.
  split; [|split; [|split; [|split; [|split; [|split; [|split]]]]]].
  - intros s.
    split; [apply slow_wb_run|]. split; [apply slow_dc_run|].
    split; [apply slow_ex_run|]. split; [apply slow_ex_fixdc_run|].
    split; [apply slow_rf_run | apply slow_ic_run].
  - apply replay_step_squashed.
  - intros s. repeat split; reflexivity.
  - intros st s. destruct st; repeat split; reflexivity.
  - intros s Hwb Hdc. cbn [fmap list_fmap run_stages].
    rewrite (replay_step_clean WB s Hwb). cbn [stage_body].
    destruct (wb_stage_latches s) as [Hcont Hpipe].
    rewrite Hcont.
    assert (Hdc' : input_fault DC (vr4300_wb_stage s).1 ≠ VR4300_FAULT_NONE)
      by (unfold input_fault; rewrite Hpipe; exact Hdc).
    rewrite (replay_step_squashed DC _ Hdc'). cbn [fst snd].
    unfold squash. cbn [pipeline set_exdc_latch set_pipeline exdc_latch
                        dcwb_latch exdc_with_common exdc_common].
    rewrite Hpipe. split; reflexivity.
  - intros s Hwb Hdc. cbn [fmap list_fmap run_stages].
    rewrite (replay_step_squashed WB s Hwb). cbn [fst snd].
    assert (Hdc' : input_fault DC (squash WB s) ≠ VR4300_FAULT_NONE)
      by exact Hdc.
    rewrite (replay_step_squashed DC _ Hdc'). cbn [fst snd].
    split; reflexivity.
  - intros s Hdc Hex Hcont. cbn [fmap list_fmap run_stages].
    rewrite (replay_step_clean DC s Hdc). cbn [stage_body].
    rewrite Hcont.
    destruct (dc_stage_continue_latches s Hcont) as (Hexdc & Hrfex & Hicrf).
    assert (Hex' : input_fault EX (vr4300_dc_stage s).1 ≠ VR4300_FAULT_NONE)
      by (unfold input_fault; rewrite Hrfex; exact Hex).
    rewrite (replay_step_squashed EX _ Hex'). cbn [fst snd].
    unfold squash. cbn [pipeline set_rfex_latch set_pipeline exdc_latch
                        rfex_latch rfex_with_common rfex_common].
    rewrite Hexdc, Hicrf. split; reflexivity.
  - intros s Hrf Hhit. cbn [fmap list_fmap run_stages].
    rewrite (replay_step_squashed RF s Hrf). cbn [fst snd squash].
    rewrite (replay_step_clean IC s eq_refl). cbn [stage_body].
    rewrite ic_stage_cases, Hhit. split; reflexivity.
Qed.

(** *** The claims on register 0 and the load fix-up *)

(** C1. Provided the opcode handlers and the fault helpers keep register 0
    at zero, a cycle that starts with zero in register 0 ends with zero in
    register 0, and the cycle is defined whenever [skip_stages] indexes the
    table.  The writeback stage leaves zero in register 0 whatever it
    wrote and wherever, and the forwarding swap of the execution stage
    gives back the register file it found, for every destination and
    result in the DC/WB latch. *)
Theorem register_zero_invariant :
  env_preserves_R0 ->
  (forall s,
     R0_zero s ->
     (forall s', vr4300_cycle s = Some s' -> R0_zero s')
     /\ ((skip_stages (pipeline (cycle_reset s)) < 6)%nat ->
         exists s', vr4300_cycle s = Some s' /\ R0_zero s'))
  /\ (forall s,
        (0 < length (regs s))%nat ->
        fault (dcwb_common (dcwb_latch (pipeline s))) = VR4300_FAULT_NONE ->
        regs (vr4300_wb_stage s).1 !! VR4300_REGISTER_R0 = Some 0)
  /\ (forall (r : list Z) dest result rs rt,
        r !! VR4300_REGISTER_R0 = Some 0 ->
        (ex_forward r dest result rs rt).1.1 !! VR4300_REGISTER_R0 = Some 0
        /\ (ex_forward r dest result rs rt).1.1 = r)
  /\ (forall s,
        R0_zero s ->
        R0_zero (vr4300_wb_stage s).1 /\ R0_zero (vr4300_ex_stage s).1).
Proof.
  intros HR0. split; [|split; [|split]].
  - intros s Hs. split.
    + intros s'. apply cycle_keeps_R0; assumption.
    + intros Hskip. destruct (cycle_defined s Hskip) as [s' Hs'].
      exists s'. split; [exact Hs'|]. eapply cycle_keeps_R0; eassumption.
  - apply wb_stage_forces_R0.
  - intros r dest result rs rt Hr.
    rewrite (ex_forward_restores r dest result rs rt Hr). auto.
  - intros s Hs. split.
    + apply wb_stage_keeps_R0, Hs.
    + apply ex_stage_keeps_R0; assumption.
Qed.

(** C8, as the code has it.  The replay variant with fix-up is the EX
    replay variant run behind the store of the fix-up value into
    [dcwb_latch.result].  For sizes 1 to 7, where both shift counts lie
    between 0 and 63, with [maskshift = size * 8] and
    [datashift = (8 - size) * 8], that value is [(sdata & mask) | data] as
    a 64-bit number, where [mask] is [exdc_latch.result] with its low
    [maskshift] bits cleared, [sdata] the arithmetic-shift round trip and
    [data] the logical-shift round trip of the 32-bit word by [datashift]
    bits; the round trips are the sign and the zero extension of the low
    [maskshift] bits.  For a size of 2, a word of 0x00008000 and an
    all-ones result the value is 0xFFFFFFFFFFFF8000. *)
Theorem load_fixup_arithmetic :
  (forall s,
     vr4300_cycle_slow_ex_fixdc s = vr4300_cycle_slow_ex (fixdc s)
     /\ dcwb_result (dcwb_latch (pipeline (fixdc s)))
        = fixdc_result
            (req_size (exdc_request (exdc_latch (pipeline s))))
            (req_word (exdc_request (exdc_latch (pipeline s))))
            (exdc_result (exdc_latch (pipeline s))))
  /\ (forall size word result,
        1 <= size <= 7 ->
        let maskshift := size * 8 in
        let datashift := (8 - size) * 8 in
        let mask := clear_low_bits maskshift (to_s64 result) in
        let sdata :=
          Z.shiftr (to_s64 (Z.shiftl (to_s32 word) datashift)) datashift in
        let data :=
          Z.shiftr (wrap64 (Z.shiftl (wrap32 word) datashift)) datashift in
        fixdc_result size word result
        = wrap64 (Z.lor (Z.land sdata mask) data)
        /\ sdata = sign_extend maskshift (to_s32 word)
        /\ data = zero_extend maskshift (wrap32 word))
  /\ fixdc_result 2 0x00008000 0xFFFFFFFFFFFFFFFF = 0xFFFFFFFFFFFF8000.
Proof.
  split; [|split].
  - intros s. split; [|reflexivity].
    rewrite slow_ex_fixdc_run, slow_ex_run. reflexivity.
  - intros size word result Hsize maskshift datashift mask sdata data.
    assert (Hs : sdata = sign_extend maskshift (to_s32 word)).
    { subst sdata datashift maskshift.
      rewrite shl_sar_sign_extend by lia. f_equal. lia. }
    assert (Hd : data = zero_extend maskshift (wrap32 word)).
    { subst data datashift maskshift.
      rewrite shl_shr_zero_extend by lia. f_equal. lia. }
    split; [|split; assumption].
    rewrite Hs, Hd. apply fixdc_result_extend, Hsize.
  - vm_compute. reflexivity.
Qed.

End Properties.

(** ** The properties on the concrete machine *)

Lemma idle_env_preserves_R0 : env_preserves_R0.
Proof. repeat split; intros; intros s Hs; exact Hs. Qed.

Lemma stall_precedes_reset_witness :
  cycles_to_stall (pipeline stalled_state) > 0
  /\ Z.land (signals stalled_state) VR4300_SIGNAL_COLDRESET = 1
  /\ exists s',
       vr4300_cycle stalled_state = Some s'
       /\ cycles_to_stall (pipeline s') = 2
       /\ regs s' = regs stalled_state
       /\ icrf_latch (pipeline s') = icrf_latch (pipeline stalled_state).
Proof.
  split; [reflexivity|]. split; [reflexivity|].
  destruct (stall_precedes_reset stalled_state) as (s' & Hc & Hs' & _);
    [reflexivity|].
  exists s'. split; [exact Hc|]. rewrite Hs'. repeat split.
Defined.

Lemma fast_path_order_witness :
  cycles_to_stall (pipeline rest_state) = 0
  /\ fault_present (pipeline rest_state) = false
  /\ skip_stages (pipeline rest_state) = 0%nat
  /\ vr4300_cycle rest_state
     = Some (run_stages (stage_body <$> [WB; DC; EX; RF; IC]) rest_state).1
  /\ (vr4300_wb_stage interlock_state).2 = false
  /\ (vr4300_dc_stage (vr4300_wb_stage interlock_state).1).2 = true
  /\ vr4300_cycle interlock_state
     = Some (vr4300_dc_stage (vr4300_wb_stage interlock_state).1).1.
Proof.
  split; [reflexivity|]. split; [reflexivity|]. split; [reflexivity|].
  split; [apply (fast_path_order rest_state); reflexivity|].
  split; [reflexivity|]. split; [reflexivity|].
  destruct (fast_path_order interlock_state eq_refl eq_refl eq_refl eq_refl)
    as [_ Hcut].
  apply (Hcut [vr4300_wb_stage] vr4300_dc_stage
           [vr4300_ex_stage; vr4300_rf_stage; vr4300_ic_stage]);
    reflexivity.
Defined.

Lemma ic_segment_check_witness :
  (ic_miss unmapped_state = true
   /\ vr4300_ic_stage unmapped_state
      = (VR4300_IADE (ic_decode unmapped_state), true)
   /\ icrf_pc (icrf_latch (pipeline (ic_decode unmapped_state)))
      = 0xFFFFFFFF00000000)
  /\ (ic_miss rest_state = false
      /\ (vr4300_ic_stage rest_state).2 = false
      /\ icrf_pc (icrf_latch (pipeline (vr4300_ic_stage rest_state).1))
         = 0xFFFFFFFF80000014).
Proof.
  split.
  - destruct (ic_segment_check unmapped_state) as (Hflag & Hmiss & _).
    destruct (Hmiss eq_refl) as [Hstate Hpc].
    split; [reflexivity|]. split; [|exact Hpc].
    rewrite (surjective_pairing (vr4300_ic_stage unmapped_state)).
    rewrite Hstate, Hflag. reflexivity.
  - destruct (ic_segment_check rest_state) as (Hflag & _ & Hhit).
    destruct (Hhit eq_refl) as [Hstate _].
    split; [reflexivity|]. split; [exact Hflag|].
    rewrite Hstate. reflexivity.
Defined.

Lemma load_use_interlock_witness :
  (req_type (exdc_request (exdc_latch (pipeline rest_state)))
   = VR4300_BUS_REQUEST_NONE
   /\ (vr4300_ex_stage rest_state).2 = false)
  /\ (req_type (exdc_request (exdc_latch (pipeline interlock_state)))
      = VR4300_BUS_REQUEST_READ
      /\ needs_rs interlock_state
      /\ GET_RS (rfex_iw (rfex_latch (pipeline interlock_state))) = 5%nat
      /\ dcwb_dest (dcwb_latch (pipeline interlock_state)) = 5%nat
      /\ vr4300_ex_stage interlock_state
         = (VR4300_LDI (ex_latched interlock_state), true)).
Proof.
  assert (Hneed : needs_rs interlock_state) by (intros H; discriminate H).
  split.
  - split; [reflexivity|].
    apply (load_use_interlock rest_state). reflexivity.
  - split; [reflexivity|]. split; [exact Hneed|].
    split; [reflexivity|]. split; [reflexivity|].
    apply (load_use_interlock interlock_state).
    + intros H; discriminate H.
    + left. split; [exact Hneed | reflexivity].
Defined.

Lemma interlock_on_register_zero_witness :
  dcwb_dest (dcwb_latch (pipeline r0_interlock_state)) = 0%nat
  /\ GET_RS (rfex_iw (rfex_latch (pipeline r0_interlock_state))) = 0%nat
  /\ vr4300_ex_stage r0_interlock_state
     = (VR4300_LDI (ex_latched r0_interlock_state), true)
  /\ regs (ex_latched r0_interlock_state) = regs r0_interlock_state.
Proof.
  split; [reflexivity|]. split; [reflexivity|].
  apply (interlock_on_register_zero r0_interlock_state).
  - intros H; discriminate H.
  - reflexivity.
  - left. split; [intros H; discriminate H | reflexivity].
Defined.

Lemma dc_abort_not_atomic_witness :
  (vr4300_dc_stage interlock_state).2 = true
  /\ (vr4300_dc_stage interlock_state).1
     = VR4300_DCB (dc_rebased (dc_latched interlock_state) kseg0)
  /\ dcwb_dest (dcwb_latch (pipeline (dc_latched interlock_state))) = 5%nat
  /\ req_address (exdc_request (exdc_latch
       (pipeline (dc_rebased (dc_latched interlock_state) kseg0))))
     = 0x1000.
Proof.
  split; [reflexivity|].
  destruct (dc_abort_not_atomic interlock_state eq_refl)
    as (Hlatch & [[Hnone _] | (seg & Hseg & _ & Hstate & _ & _ & Haddr)]).
  - discriminate Hnone.
  - injection Hseg as <-. split; [exact Hstate|].
    split; [rewrite Hlatch; reflexivity|].
    rewrite Haddr. reflexivity.
Defined.

Lemma register_zero_invariant_witness :
  R0_zero rest_state
  /\ exists s', vr4300_cycle rest_state = Some s' /\ R0_zero s'.
Proof.
  split; [reflexivity|].
  destruct (register_zero_invariant idle_env_preserves_R0) as (Hcycle & _).
  destruct (Hcycle rest_state eq_refl) as (_ & Hdefined).
  apply Hdefined. vm_compute. lia.
Defined.

Lemma load_fixup_arithmetic_witness :
  1 <= 2 <= 7
  /\ fixdc_result 2 0x00008000 0xFFFFFFFFFFFFFFFF
     = wrap64 (Z.lor (Z.land (sign_extend 16 0x8000)
                        (clear_low_bits 16 (-1)))
                 (zero_extend 16 0x8000)).
Proof.
  split; [lia|].
  destruct load_fixup_arithmetic as (_ & Hgeneral & _).
  destruct (Hgeneral 2 0x00008000 0xFFFFFFFFFFFFFFFF ltac:(lia))
    as (Hvalue & Hsdata & Hdata).
  rewrite Hvalue, Hsdata, Hdata. reflexivity.
Defined.

Lemma replay_squash_rule_witness :
  input_fault DC exdc_faulted_state = VR4300_FAULT_LDI
  /\ replay_step DC exdc_faulted_state = (squash DC exdc_faulted_state, false)
  /\ exdc_common (exdc_latch (pipeline (squash DC exdc_faulted_state)))
     = no_fault 0xFFFFFFFF80000008.
Proof.
  split; [reflexivity|].
  destruct replay_squash_rule as (_ & Hsquash & _).
  split; [|reflexivity].
  apply (Hsquash DC exdc_faulted_state). intros H; discriminate H.
Defined.

(** *** Where the code departs from the specification *)

(** C3 as the specification has it fails: a fault in the EX/DC latch is not
    carried into the DC/WB latch by the squash.  One cycle of the WB replay
    variant later every latch is free of fault, and the DC/WB latch is
    still free of fault after the cycles that follow.  Likewise a fault in
    the RF/EX latch is gone from every latch after one cycle of the EX
    replay variant. *)
Lemma squash_drops_fault :
  input_fault DC exdc_faulted_state = VR4300_FAULT_LDI
  /\ input_fault WB exdc_faulted_state = VR4300_FAULT_NONE
  /\ fault_present (pipeline exdc_faulted_state) = true
  /\ skip_stages (pipeline exdc_faulted_state) = 0%nat
  /\ (exists s1,
        vr4300_cycle exdc_faulted_state = Some s1
        /\ input_fault WB s1 = VR4300_FAULT_NONE
        /\ input_fault DC s1 = VR4300_FAULT_NONE
        /\ input_fault EX s1 = VR4300_FAULT_NONE
        /\ input_fault RF s1 = VR4300_FAULT_NONE)
  /\ (exists s2,
        vr4300_cycles 2 exdc_faulted_state = Some s2
        /\ input_fault WB s2 = VR4300_FAULT_NONE)
  /\ (exists s3,
        vr4300_cycles 3 exdc_faulted_state = Some s3
        /\ input_fault WB s3 = VR4300_FAULT_NONE)
  /\ (exists s4,
        vr4300_cycles 4 exdc_faulted_state = Some s4
        /\ input_fault WB s4 = VR4300_FAULT_NONE)
  /\ input_fault EX rfex_faulted_state = VR4300_FAULT_UNC
  /\ skip_stages (pipeline rfex_faulted_state) = 2%nat
  /\ (exists s1,
        vr4300_cycle rfex_faulted_state = Some s1
        /\ input_fault WB s1 = VR4300_FAULT_NONE
        /\ input_fault DC s1 = VR4300_FAULT_NONE
        /\ input_fault EX s1 = VR4300_FAULT_NONE
        /\ input_fault RF s1 = VR4300_FAULT_NONE).
Proof.
  repeat (split; [reflexivity|]).
  split; [|split; [|split; [|split; [|split; [|split]]]]];
    try reflexivity;
    eexists; (split; [vm_compute; reflexivity|]); repeat split.
Qed.

(** C4 as the specification has it fails: after four cycles of the WB
    replay variant, each with a DC/WB latch free of fault, [fault_present]
    is still set. *)
Lemma recovery_not_after_four :
  fault_present (pipeline recovering_state) = true
  /\ exception_history (pipeline recovering_state) = 0
  /\ input_fault WB recovering_state = VR4300_FAULT_NONE
  /\ (exists s1, vr4300_cycles 1 recovering_state = Some s1
                 /\ input_fault WB s1 = VR4300_FAULT_NONE)
  /\ (exists s2, vr4300_cycles 2 recovering_state = Some s2
                 /\ input_fault WB s2 = VR4300_FAULT_NONE)
  /\ (exists s3, vr4300_cycles 3 recovering_state = Some s3
                 /\ input_fault WB s3 = VR4300_FAULT_NONE)
  /\ (exists s4, vr4300_cycles 4 recovering_state = Some s4
                 /\ exception_history (pipeline s4) = 4
                 /\ fault_present (pipeline s4) = true)
  /\ (exists s5, vr4300_cycles 5 recovering_state = Some s5
                 /\ exception_history (pipeline s5) = 5
                 /\ fault_present (pipeline s5) = true).
Proof.
  repeat (split; [reflexivity|]).
  split; [|split; [|split; [|split]]]; eexists;
    (split; [vm_compute; reflexivity|]); repeat split.
Qed.

(** C8 as the specification has it fails for a size of 8, where
    [maskshift] is 64: the shift by 64 moves nothing, so no bit of
    [exdc_latch.result] is cleared.  With a word of 0x80000000 and an
    all-ones result the value stored is 0xFFFFFFFF80000000, while
    [(sdata & mask) | data] with the low 64 bits of the result cleared is
    0x80000000. *)
Lemma load_fixup_size_eight :
  skip_stages (pipeline doubleword_load_state) = 5%nat
  /\ req_size (exdc_request (exdc_latch (pipeline doubleword_load_state)))
     = 8
  /\ req_word (exdc_request (exdc_latch (pipeline doubleword_load_state)))
     = 0x80000000
  /\ exdc_result (exdc_latch (pipeline doubleword_load_state))
     = 0xFFFFFFFFFFFFFFFF
  /\ (exists s',
        vr4300_cycle doubleword_load_state = Some s'
        /\ dcwb_result (dcwb_latch (pipeline s')) = 0xFFFFFFFF80000000)
  /\ fixdc_result 8 0x80000000 0xFFFFFFFFFFFFFFFF = 0xFFFFFFFF80000000
  /\ wrap64
       (Z.lor
          (Z.land
             (Z.shiftr (to_s64 (Z.shiftl (to_s32 0x80000000) ((8 - 8) * 8)))
                ((8 - 8) * 8))
             (clear_low_bits (8 * 8) (to_s64 0xFFFFFFFFFFFFFFFF)))
          (Z.shiftr (wrap64 (Z.shiftl (wrap32 0x80000000) ((8 - 8) * 8)))
             ((8 - 8) * 8)))
     = 0x80000000.
Proof.
  repeat (split; [reflexivity|]).
  split; [|split; vm_compute; reflexivity].
  eexists. split; [vm_compute; reflexivity | reflexivity].
Qed.


(** ** Further properties of the pipeline *)

Section MoreProperties.

Context {env : vr4300_env}.

(** *** Forwarding and writeback *)

Lemma read_after_commit (r : list Z) (dest : nat) (result : Z) (i : nat) :
  (i < length r)%nat ->
  reg_read (reg_write (reg_write r dest result) VR4300_REGISTER_R0 0) i
  = forward_value r dest result i.
Proof.
  intros Hi. unfold reg_read, reg_write, forward_value, VR4300_REGISTER_R0.
  destruct (decide (i = 0%nat)) as [->|Hzero].
  - rewrite list_lookup_insert_eq by (rewrite length_insert; exact Hi).
    reflexivity.
  - rewrite list_lookup_insert_ne by auto.
    destruct (decide (i = dest)) as [->|Hdest].
    + rewrite list_lookup_insert_eq by exact Hi. reflexivity.
    + rewrite list_lookup_insert_ne by auto. reflexivity.
Qed.

(** X1. The swap of the execution stage is a forwarding multiplexer: an
    operand whose register index is 0 reads 0, one whose index is the
    destination in the DC/WB latch reads the result in that latch, any other
    reads the register file. *)
Theorem ex_forward_operands (r : list Z) (dest : nat) (result : Z)
    (rs rt : nat) :
  (rs < length r)%nat -> (rt < length r)%nat ->
  (ex_forward r dest result rs rt).1.2 = forward_value r dest result rs
  /\ (ex_forward r dest result rs rt).2 = forward_value r dest result rt.
Proof.
  intros Hrs Hrt. unfold ex_forward. cbn [fst snd].
  split; apply read_after_commit; assumption.
Qed.

(** X2. The writeback stage always continues.  With a fault in the DC/WB
    latch it changes nothing; without one it changes the register file only,
    after which every register reads as through the forwarding multiplexer:
    the operands the execution stage forwards are the values the writeback
    commits. *)
Theorem wb_stage_commit (s : vr4300) :
  (vr4300_wb_stage s).2 = false
  /\ pipeline (vr4300_wb_stage s).1 = pipeline s
  /\ signals (vr4300_wb_stage s).1 = signals s
  /\ bus (vr4300_wb_stage s).1 = bus s
  /\ length (regs (vr4300_wb_stage s).1) = length (regs s)
  /\ (input_fault WB s ≠ VR4300_FAULT_NONE -> (vr4300_wb_stage s).1 = s)
  /\ (input_fault WB s = VR4300_FAULT_NONE ->
      forall i,
        (i < length (regs s))%nat ->
        reg_read (regs (vr4300_wb_stage s).1) i
        = forward_value (regs s) (dcwb_dest (dcwb_latch (pipeline s)))
            (dcwb_result (dcwb_latch (pipeline s))) i).
Proof.
  unfold vr4300_wb_stage, input_fault.
  destruct (decide _) as [Hfault|Hclean]; cbn [fst snd].
  - repeat split; try reflexivity. intros Hnone. contradiction.
  - repeat split; try reflexivity.
    + cbn [regs set_regs]. unfold reg_write. rewrite !length_insert.
      reflexivity.
    + intros Hnone. contradiction.
    + intros _ i Hi. cbn [regs set_regs pipeline set_pipeline].
      apply read_after_commit, Hi.
Qed.

(** *** Slow mode against the fast path *)

Lemma ex_stage_continue_fetch_fault (s : vr4300) :
  handlers_keep_fetch_fault ->
  (vr4300_ex_stage s).2 = false ->
  input_fault RF (vr4300_ex_stage s).1 = input_fault RF s.
Proof.
  intros Hfun. unfold vr4300_ex_stage.
  destruct (_ || _); cbn [fst snd]; [discriminate|].
  intros _. unfold ex_issue, input_fault.
  destruct (ex_forward _ _ _ _ _) as [[r rs_reg] rt_reg].
  cbn [fst]. rewrite Hfun. reflexivity.
Qed.

Lemma run_stages_cons_congr (f g : vr4300 -> stage_result)
    (l1 l2 : list (vr4300 -> stage_result)) (s : vr4300) :
  f s = g s ->
  ((g s).2 = false -> run_stages l1 (g s).1 = run_stages l2 (g s).1) ->
  run_stages (f :: l1) s = run_stages (g :: l2) s.
Proof.
  intros Hhead Htail. cbn [run_stages]. rewrite Hhead.
  destruct (g s).2; [reflexivity | auto].
Qed.

Lemma clean_replay_is_fast_path (s : vr4300) :
  handlers_keep_fetch_fault ->
  input_fault WB s = VR4300_FAULT_NONE ->
  input_fault DC s = VR4300_FAULT_NONE ->
  input_fault EX s = VR4300_FAULT_NONE ->
  input_fault RF s = VR4300_FAULT_NONE ->
  run_stages (replay_step <$> [WB; DC; EX; RF; IC]) s
  = run_stages (stage_body <$> [WB; DC; EX; RF; IC]) s.
Proof.
  intros Hfun Hwb Hdc Hex Hrf. cbn [fmap list_fmap].
  apply run_stages_cons_congr; [apply (replay_step_clean WB), Hwb|].
  cbn [stage_body]. intros _.
  destruct (wb_stage_latches s) as [_ Hpipe].
  apply run_stages_cons_congr;
    [apply (replay_step_clean DC); unfold input_fault; rewrite Hpipe;
     exact Hdc|].
  cbn [stage_body]. intros Hcont.
  destruct (dc_stage_continue_latches _ Hcont) as (_ & Hrfex & Hicrf).
  apply run_stages_cons_congr;
    [apply (replay_step_clean EX); unfold input_fault;
     rewrite Hrfex, Hpipe; exact Hex|].
  cbn [stage_body]. intros Hcont'.
  apply run_stages_cons_congr; [|reflexivity].
  apply (replay_step_clean RF).
  rewrite (ex_stage_continue_fetch_fault _ Hfun Hcont').
  unfold input_fault. rewrite Hicrf, Hpipe. exact Hrf.
Qed.

(** X4. Slow mode agrees with the fast path when there is nothing to
    squash: provided the opcode handlers leave the fault of the IC/RF latch
    alone, the WB replay variant on a state whose four latches carry no
    fault does what the five stages of the fast path do behind the
    [exception_history] tick. *)
Theorem slow_mode_is_fast_path_when_clean (s : vr4300) :
  handlers_keep_fetch_fault ->
  input_fault WB s = VR4300_FAULT_NONE ->
  input_fault DC s = VR4300_FAULT_NONE ->
  input_fault EX s = VR4300_FAULT_NONE ->
  input_fault RF s = VR4300_FAULT_NONE ->
  vr4300_cycle_slow_wb s
  = (unless vr4300_wb_stage (exception_history_tick s) aborts then s =>
     unless vr4300_dc_stage s aborts then s =>
     unless vr4300_ex_stage s aborts then s =>
     unless vr4300_rf_stage s aborts then s =>
     unless vr4300_ic_stage s aborts then s => s).
Proof.
  intros Hfun Hwb Hdc Hex Hrf.
  rewrite slow_wb_run, fast_path_run.
  rewrite clean_replay_is_fast_path; [reflexivity | exact Hfun | ..];
    unfold exception_history_tick, input_fault in *;
    destruct (_ >? _); assumption.
Qed.

(** *** The replay variants, one inside the other *)

(** X5. Each replay variant is its first slot followed by the variant that
    starts one stage later: DC then the EX variant, EX then the RF variant,
    RF then the IC variant; when the first slot aborts, nothing follows and
    [skip_stages] is left as it is. *)
Theorem replay_variants_nest (s : vr4300) :
  vr4300_cycle_slow_dc s
  = (unless replay_step DC s aborts then s' => vr4300_cycle_slow_ex s')
  /\ vr4300_cycle_slow_ex s
     = (unless replay_step EX s aborts then s' => vr4300_cycle_slow_rf s')
  /\ vr4300_cycle_slow_rf s
     = (unless replay_step RF s aborts then s' => vr4300_cycle_slow_ic s')
  /\ vr4300_cycle_slow_ic s
     = (unless vr4300_ic_stage s aborts then s' => set_skip_stages s' 0)
  /\ (forall st,
        (replay_step st s).2 = true ->
        or_return (replay_step st s) vr4300_cycle_slow_ic
        = (replay_step st s).1).
Proof.
  split; [|split; [|split; [|split]]]; try reflexivity.
  intros st Habort. unfold or_return. rewrite Habort. reflexivity.
Qed.

(** *** Stalls *)

Lemma stall_step (s : vr4300) :
  cycles_to_stall (pipeline s) > 0 ->
  vr4300_cycle s
  = Some (set_cycles_to_stall s (cycles_to_stall (pipeline s) - 1)).
Proof.
  intros Hstall. unfold vr4300_cycle.
  destruct (Z.gtb_spec (cycles_to_stall (pipeline s)) 0); [reflexivity|lia].
Qed.

Lemma stall_run (k : nat) (s : vr4300) (c : Z) :
  0 <= c ->
  cycles_to_stall (pipeline s) = Z.of_nat (S k) + c ->
  vr4300_cycles (S k) s = Some (set_cycles_to_stall s c).
Proof.
  revert s. induction k as [|k IH]; intros s Hc Hstall;
    cbn [vr4300_cycles]; rewrite stall_step by lia;
    cbn [mbind option_bind].
  - do 2 f_equal. lia.
  - change (vr4300_cycles (S k) ?x) with
      (vr4300_cycle x ≫= vr4300_cycles k) in IH.
    cbn [vr4300_cycles] in IH. rewrite IH.
    + reflexivity.
    + exact Hc.
    + cbn [cycles_to_stall pipeline set_cycles_to_stall set_pipeline]. lia.
Qed.

(** X6. A stall of [n] cycles takes [n] calls of the driver, none of which
    runs a stage or looks at the signals: after [k <= n] calls the state is
    the entry state with [cycles_to_stall] lowered by [k]. *)
Theorem stall_countdown (k : nat) (s : vr4300) :
  Z.of_nat k <= cycles_to_stall (pipeline s) ->
  (0 < k)%nat ->
  vr4300_cycles k s
  = Some (set_cycles_to_stall s (cycles_to_stall (pipeline s) - Z.of_nat k)).
Proof.
  intros Hstall Hk. destruct k as [|k]; [lia|].
  apply stall_run; lia.
Qed.

Lemma cycle_behind_stall (s : vr4300) :
  cycles_to_stall (pipeline s) <= 0 ->
  vr4300_cycle s = cycle_dispatch (cycle_reset s).
Proof.
  intros Hstall. unfold vr4300_cycle.
  destruct (Z.gtb_spec (cycles_to_stall (pipeline s)) 0); [lia|reflexivity].
Qed.

(** X21. A cold reset asserted while the machine stalls is not lost and not
    taken early.  The cycles of the stall leave the signals alone and call
    no helper; the first cycle behind the stall calls [VR4300_RST] on the
    state the stall left, and what it then runs, a replay entry point or
    the fast path, it chooses and runs on the state [VR4300_RST] returned. *)
Theorem reset_waits_for_stall (k : nat) (s : vr4300) :
  cycles_to_stall (pipeline s) = Z.of_nat k ->
  (0 < k)%nat ->
  Z.land (signals s) VR4300_SIGNAL_COLDRESET ≠ 0 ->
  let s0 := set_cycles_to_stall s 0 in
  vr4300_cycles k s = Some s0
  /\ signals s0 = signals s
  /\ vr4300_cycles (k + 1) s = cycle_dispatch (VR4300_RST s0).
Proof.
  intros Hstall Hk Hreset s0.
  assert (Hrun : vr4300_cycles k s = Some s0).
  { destruct k as [|k]; [lia|]. apply stall_run; lia. }
  split; [exact Hrun|]. split; [reflexivity|].
  rewrite cycles_add, Hrun. cbn [mbind option_bind vr4300_cycles].
  rewrite cycle_behind_stall
    by (unfold s0;
        cbn [cycles_to_stall pipeline set_cycles_to_stall set_pipeline];
        lia).
  unfold cycle_reset. change (signals s0) with (signals s).
  destruct (Z.eqb_spec (Z.land (signals s) VR4300_SIGNAL_COLDRESET) 0);
    [contradiction|].
  cbn [negb]. destruct (cycle_dispatch (VR4300_RST s0)); reflexivity.
Qed.

(** *** Register 0 over a run *)

(** X7. Register 0 stays at zero over any number of cycles, provided the
    opcode handlers and the fault helpers keep it at zero. *)
Theorem cycles_keep_R0 (n : nat) (s s' : vr4300) :
  env_preserves_R0 ->
  R0_zero s -> vr4300_cycles n s = Some s' -> R0_zero s'.
Proof.
  intros HR0. revert s. induction n as [|n IH]; intros s Hs.
  - intros [= <-]. exact Hs.
  - cbn [vr4300_cycles].
    destruct (vr4300_cycle s) as [s1|] eqn:Hcycle;
      cbn [mbind option_bind]; [|discriminate].
    apply IH. eapply cycle_keeps_R0; eassumption.
Qed.

(** *** The load fix-up, bit by bit *)

Lemma sign_extend_cases (k x : Z) :
  0 < k ->
  sign_extend k x
  = if Z.testbit x (k - 1) then x mod 2 ^ k - 2 ^ k else x mod 2 ^ k.
Proof.
  intros Hk. unfold sign_extend.
  assert (Hpow : 2 ^ k = 2 * 2 ^ (k - 1)).
  { rewrite <- Z.pow_succ_r by lia. f_equal. lia. }
  assert (Hpos : 0 < 2 ^ (k - 1)) by (apply Z.pow_pos_nonneg; lia).
  pose proof (Z.mod_pos_bound x (2 ^ k) ltac:(lia)) as Hy.
  assert (Hbit : Z.testbit x (k - 1) = (2 ^ (k - 1) <=? x mod 2 ^ k)).
  { rewrite <- (Z.mod_pow2_bits_low x k (k - 1)) by lia.
    rewrite Z.testbit_eqb by lia.
    destruct (Z.leb_spec (2 ^ (k - 1)) (x mod 2 ^ k)) as [Hge|Hlt].
    - replace (x mod 2 ^ k / 2 ^ (k - 1)) with 1; [reflexivity|].
      apply Z.div_unique_pos with (r := x mod 2 ^ k - 2 ^ (k - 1)); lia.
    - rewrite Z.div_small by lia. reflexivity. }
  rewrite Hbit.
  destruct (Z.leb_spec (2 ^ (k - 1)) (x mod 2 ^ k)) as [Hge|Hlt].
  - replace ((x + 2 ^ (k - 1)) mod 2 ^ k)
      with (x mod 2 ^ k - 2 ^ (k - 1)); [lia|].
    rewrite <- (Zplus_mod_idemp_l x).
    apply Z.mod_unique_pos with (q := 1); lia.
  - rewrite <- (Zplus_mod_idemp_l x).
    rewrite (Z.mod_small (x mod 2 ^ k + 2 ^ (k - 1))) by lia. lia.
Qed.

(** Bit [i] of a sign extension from [k] bits is bit [i] of the value below
    [k] and the sign bit from there on. *)
Lemma sign_extend_testbit (k x i : Z) :
  0 < k -> 0 <= i ->
  Z.testbit (sign_extend k x) i = Z.testbit x (Z.min i (k - 1)).
Proof.
  intros Hk Hi. rewrite sign_extend_cases by exact Hk.
  pose proof (Z.mod_pos_bound x (2 ^ k) ltac:(lia)) as Hy.
  destruct (Z.ltb_spec i k) as [Hlow|Hhigh].
  - rewrite Z.min_l by lia.
    rewrite <- (Z.mod_pow2_bits_low x k i) by lia.
    destruct (Z.testbit x (k - 1)); [|reflexivity].
    rewrite <- (Z.mod_pow2_bits_low (x mod 2 ^ k - 2 ^ k) k i) by lia.
    f_equal. replace (x mod 2 ^ k - 2 ^ k) with (x mod 2 ^ k + (-1) * 2 ^ k)
      by lia.
    rewrite Z.mod_add by lia. rewrite Z.mod_mod by lia. reflexivity.
  - rewrite Z.min_r by lia.
    destruct (Z.testbit x (k - 1)).
    + apply Z.bits_above_log2_neg; [lia|].
      destruct (Z.eq_dec (x mod 2 ^ k) (2 ^ k - 1)) as [Heq|Hne].
      * replace (Z.pred (- (x mod 2 ^ k - 2 ^ k))) with 0 by lia.
        cbn [Z.log2]. lia.
      * pose proof (Z.pow_le_mono_r 2 k i ltac:(lia) Hhigh) as Hmono.
        apply Z.log2_lt_pow2; lia.
    + apply Z.mod_pow2_bits_high. lia.
Qed.

Lemma signed_wrap_testbit (w x i : Z) :
  0 < w -> 0 <= i < w ->
  Z.testbit ((x + 2 ^ (w - 1)) mod 2 ^ w - 2 ^ (w - 1)) i = Z.testbit x i.
Proof.
  intros Hw Hi.
  rewrite <- (Z.mod_pow2_bits_low _ w i) by lia.
  rewrite <- (Z.mod_pow2_bits_low x w i) by lia.
  f_equal. rewrite Zminus_mod_idemp_l. f_equal. lia.
Qed.

Lemma to_s64_testbit (x i : Z) :
  0 <= i < 64 -> Z.testbit (to_s64 x) i = Z.testbit x i.
Proof. intros Hi. apply (signed_wrap_testbit 64); lia. Qed.

Lemma to_s32_testbit (x i : Z) :
  0 <= i < 32 -> Z.testbit (to_s32 x) i = Z.testbit x i.
Proof. intros Hi. apply (signed_wrap_testbit 32); lia. Qed.

Lemma fixdc_result_testbit (size word result i : Z) :
  1 <= size <= 4 -> 0 <= i < 64 ->
  Z.testbit (fixdc_result size word result) i
  = if i <? size * 8 then Z.testbit word i
    else Z.testbit result i && Z.testbit word (size * 8 - 1).
Proof.
  intros Hsize Hi. rewrite fixdc_result_extend by lia.
  unfold wrap64, clear_low_bits, zero_extend, wrap32.
  rewrite Z.testbit_mod_pow2 by lia.
  rewrite Z.lor_spec, Z.land_spec, Z.ldiff_spec.
  rewrite sign_extend_testbit by lia.
  rewrite Z.testbit_ones_nonneg by lia.
  rewrite !Z.testbit_mod_pow2 by lia.
  rewrite to_s64_testbit by lia.
  rewrite to_s32_testbit by lia.
  destruct (Z.ltb_spec i 64) as [_|?]; [|lia].
  destruct (Z.ltb_spec i (size * 8)) as [Hlow|Hhigh].
  - rewrite Z.min_l by lia.
    destruct (Z.ltb_spec i 32) as [_|?]; [|lia].
    destruct (Z.testbit word i), (Z.testbit result i); reflexivity.
  - rewrite Z.min_r by lia.
    destruct (Z.testbit word (size * 8 - 1)), (Z.testbit result i),
      (i <? 32), (Z.testbit word i); reflexivity.
Qed.

(** X8. For a load of 1 to 4 bytes the fix-up value is assembled bit by
    bit: below [size * 8] it has the bits of the word read, from there up
    to bit 63 it has the bit of [exdc_latch.result] masked by the top bit of
    the loaded field (bit [size * 8 - 1] of the word), and it has no bit
    from 64 on. *)
Theorem fixdc_result_bits (size word result i : Z) :
  1 <= size <= 4 -> 0 <= i ->
  Z.testbit (fixdc_result size word result) i
  = if i <? size * 8 then Z.testbit word i
    else (i <? 64) && Z.testbit result i && Z.testbit word (size * 8 - 1).
Proof.
  intros Hsize Hi. destruct (Z.ltb_spec i 64) as [Hlow|Hhigh].
  - rewrite fixdc_result_testbit by lia. reflexivity.
  - destruct (Z.ltb_spec i (size * 8)) as [?|_]; [lia|].
    unfold fixdc_result, wrap64.
    apply Z.mod_pow2_bits_high. lia.
Qed.

(** X9. The handler chooses the extension through [exdc_latch.result]: with
    a result of 0 the fix-up value is the zero extension of the low
    [size * 8] bits of the word (sizes 1 to 7), with an all-ones result it
    is their sign extension to 64 bits (sizes 1 to 4). *)
Theorem fixdc_extension_modes (size word : Z) :
  (1 <= size <= 7 ->
   fixdc_result size word 0 = zero_extend (size * 8) (wrap32 word))
  /\ (1 <= size <= 4 ->
      fixdc_result size word 0 = zero_extend (size * 8) word
      /\ fixdc_result size word (2 ^ 64 - 1)
         = wrap64 (sign_extend (size * 8) word)).
Proof.
  assert (Hzero : 1 <= size <= 7 ->
            fixdc_result size word 0 = zero_extend (size * 8) (wrap32 word)).
  { intros Hsize. rewrite fixdc_result_extend by exact Hsize.
    unfold clear_low_bits.
    change (to_s64 0) with 0. rewrite Z.ldiff_0_l, Z.land_0_r, Z.lor_0_l.
    unfold wrap64, zero_extend.
    pose proof (Z.mod_pos_bound (wrap32 word) (2 ^ (size * 8)) ltac:(lia)).
    assert (2 ^ (size * 8) <= 2 ^ 64) by (apply Z.pow_le_mono_r; lia).
    apply Z.mod_small. lia. }
  split; [exact Hzero|]. intros Hsize. split.
  - rewrite Hzero by lia. unfold zero_extend, wrap32.
    apply Z.mod_mod_divide.
    exists (2 ^ (32 - size * 8)).
    rewrite <- Z.pow_add_r by lia. f_equal. lia.
  - apply Z.bits_inj'. intros i Hi.
    destruct (Z.ltb_spec i 64) as [Hlow|Hhigh].
    + rewrite fixdc_result_testbit by lia.
      unfold wrap64. rewrite Z.testbit_mod_pow2 by lia.
      rewrite sign_extend_testbit by lia.
      destruct (Z.ltb_spec i 64) as [_|?]; [|lia]. cbn [andb].
      change (2 ^ 64 - 1) with (Z.ones 64).
      rewrite Z.testbit_ones_nonneg by lia.
      destruct (Z.ltb_spec i 64) as [_|?]; [|lia]. cbn [andb].
      destruct (Z.ltb_spec i (size * 8)).
      * rewrite Z.min_l by lia. reflexivity.
      * rewrite Z.min_r by lia. reflexivity.
    + unfold wrap64 at 1. unfold fixdc_result, wrap64.
      rewrite !Z.mod_pow2_bits_high by lia. reflexivity.
Qed.

(** *** The DC stage when it continues *)

Lemma dc_stage_cases (s : vr4300) :
  vr4300_dc_stage s
  = match req_type (exdc_request (exdc_latch (pipeline s))) with
    | VR4300_BUS_REQUEST_NONE => (dc_latched s, false)
    | VR4300_BUS_REQUEST_READ =>
        match dc_resolved s with
        | None => (VR4300_DADE (dc_latched s), true)
        | Some seg => (VR4300_DCB (dc_rebased (dc_latched s) seg), true)
        end
    | VR4300_BUS_REQUEST_WRITE =>
        match dc_resolved s with
        | None => (VR4300_DADE (dc_latched s), true)
        | Some seg =>
            let request := exdc_request (exdc_latch (pipeline s)) in
            (set_bus (dc_rebased (dc_latched s) seg)
               ({| bw_address := wrap64 (req_address request - seg_offset seg);
                   bw_word := req_word request;
                   bw_dqm := req_dqm request |} :: bus s), false)
        end
    end.
Proof.
  unfold vr4300_dc_stage, dc_resolved, outside_segment, cp0_status.
  change (exdc_latch (pipeline (set_dcwb_latch s _)))
    with (exdc_latch (pipeline s)).
  change (regs (set_dcwb_latch s _)) with (regs s).
  cbn [req_type request_with_address].
  destruct (req_type (exdc_request (exdc_latch (pipeline s))));
    destruct (decide _) as [Hreq|Hreq]; try congruence; try reflexivity;
    try (exfalso; apply Hreq; discriminate);
    (destruct (wrap64 _ >? _); [destruct (get_segment _ _)|]);
    try reflexivity;
    destruct (decide _); try congruence; reflexivity.
Qed.

(** X10. The DC stage continues exactly when there is no request, or the
    request is a write whose address resolves to a segment.  Without a
    request it only fills the DC/WB latch.  For a write it issues one call
    of [bus_write_word], with the request address lowered by the offset of
    the resolved segment (as a 64-bit unsigned number) and the word and
    mask of the request, and leaves the registers alone. *)
Theorem dc_stage_continue (s : vr4300) :
  let request := exdc_request (exdc_latch (pipeline s)) in
  ((vr4300_dc_stage s).2 = false <->
   req_type request = VR4300_BUS_REQUEST_NONE
   \/ (req_type request = VR4300_BUS_REQUEST_WRITE
       /\ is_Some (dc_resolved s)))
  /\ (req_type request = VR4300_BUS_REQUEST_NONE ->
      (vr4300_dc_stage s).1 = dc_latched s
      /\ bus (vr4300_dc_stage s).1 = bus s)
  /\ (forall seg,
        req_type request = VR4300_BUS_REQUEST_WRITE ->
        dc_resolved s = Some seg ->
        bus (vr4300_dc_stage s).1
        = {| bw_address := wrap64 (req_address request - seg_offset seg);
             bw_word := req_word request;
             bw_dqm := req_dqm request |} :: bus s
        /\ regs (vr4300_dc_stage s).1 = regs s
        /\ pipeline (vr4300_dc_stage s).1
           = pipeline (dc_rebased (dc_latched s) seg)).
Proof.
  intros request. subst request. rewrite dc_stage_cases.
  destruct (req_type _); destruct (dc_resolved s) as [seg|];
    cbn [fst snd]; (split; [split|split]);
    try solve [ intros; discriminate
              | intros; reflexivity
              | intros _; auto
              | intros _; right; split; [reflexivity | eauto]
              | intros [?|[? ?]]; discriminate
              | intros [?|[_ [? ?]]]; discriminate
              | intros; split; reflexivity
              | intros seg' _ [= <-]; repeat split ].
Qed.

(** *** Bus writes *)

Section Bus.

Hypothesis Hbus : env_preserves_bus.

Lemma dc_stage_bus (s : vr4300) :
  at_most_one_write (bus s) (vr4300_dc_stage s).1.
Proof.
  destruct Hbus as (_ & _ & HDADE & _ & _ & HDCB & _).
  rewrite dc_stage_cases.
  destruct (req_type _); [| destruct (dc_resolved s) ..]; cbn [fst];
    first [ left; rewrite ?HDADE, ?HDCB; reflexivity
          | right; eexists; reflexivity ].
Qed.

Lemma stage_body_keeps_bus (st : stage_id) (s : vr4300) :
  st ≠ DC -> bus (stage_body st s).1 = bus s.
Proof.
  destruct Hbus as (Hfun & HIADE & _ & HUNC & HLDI & _).
  intros Hst. destruct st; cbn [stage_body]; [|contradiction|..].
  - unfold vr4300_wb_stage. destruct (decide _); reflexivity.
  - unfold vr4300_ex_stage. destruct (_ || _); cbn [fst].
    + rewrite HLDI. reflexivity.
    + unfold ex_issue.
      destruct (ex_forward _ _ _ _ _) as [[r rs_reg] rt_reg].
      cbn [fst]. rewrite Hfun. reflexivity.
  - unfold vr4300_rf_stage. destruct (negb _); cbn [fst];
      rewrite ?HUNC; reflexivity.
  - rewrite ic_stage_cases. destruct (ic_miss s); cbn [fst];
      rewrite ?HIADE; reflexivity.
Qed.

Lemma replay_step_keeps_bus (st : stage_id) (s : vr4300) :
  st ≠ DC -> bus (replay_step st s).1 = bus s.
Proof.
  intros Hst. unfold replay_step. destruct (decide _).
  - apply stage_body_keeps_bus, Hst.
  - destruct st; reflexivity.
Qed.

Lemma replay_step_dc_bus (s : vr4300) :
  at_most_one_write (bus s) (replay_step DC s).1.
Proof.
  unfold replay_step. destruct (decide _).
  - apply dc_stage_bus.
  - left. reflexivity.
Qed.

Lemma run_without_dc_keeps_bus (f : stage_id -> vr4300 -> stage_result)
    (l : list stage_id) (s : vr4300) :
  (forall st s, st ≠ DC -> bus (f st s).1 = bus s) ->
  DC ∉ l ->
  bus (run_stages (f <$> l) s).1 = bus s.
Proof.
  intros Hf Hl.
  apply (run_stages_keeps (fun s' => bus s' = bus s)); [|reflexivity].
  apply Forall_fmap, Forall_forall. intros st Hst. unfold compose.
  intros s' <-. apply Hf. intros ->. contradiction.
Qed.

Lemma run_from_dc_bus (f : stage_id -> vr4300 -> stage_result)
    (l : list stage_id) (s : vr4300) :
  (forall st s, st ≠ DC -> bus (f st s).1 = bus s) ->
  (forall s, at_most_one_write (bus s) (f DC s).1) ->
  DC ∉ l ->
  at_most_one_write (bus s) (run_stages (f <$> DC :: l) s).1.
Proof.
  intros Hf Hdc Hl. cbn [fmap list_fmap run_stages].
  pose proof (Hdc s) as Hs.
  destruct (f DC s) as [s1 [|]]; cbn [fst snd] in *; [exact Hs|].
  unfold at_most_one_write.
  rewrite (run_without_dc_keeps_bus f l s1 Hf Hl). exact Hs.
Qed.

Lemma run_from_wb_bus (f : stage_id -> vr4300 -> stage_result)
    (l : list stage_id) (s : vr4300) :
  (forall st s, st ≠ DC -> bus (f st s).1 = bus s) ->
  (forall s, at_most_one_write (bus s) (f DC s).1) ->
  DC ∉ l ->
  at_most_one_write (bus s) (run_stages (f <$> WB :: DC :: l) s).1.
Proof.
  intros Hf Hdc Hl.
  change (f <$> WB :: DC :: l) with (f WB :: (f <$> DC :: l)).
  cbn [run_stages].
  pose proof (Hf WB s ltac:(discriminate)) as Hwb.
  destruct (f WB s) as [s1 [|]]; cbn [fst snd] in *.
  - left. exact Hwb.
  - rewrite <- Hwb. apply run_from_dc_bus; assumption.
Qed.

Lemma completed_bus (r : stage_result) : bus (completed r) = bus r.1.
Proof. unfold completed. destruct r as [s [|]]; reflexivity. Qed.

Lemma no_dc_behind :
  (DC ∉ [EX; RF; IC]) /\ (DC ∉ [RF; IC]) /\ (DC ∉ [IC]).
Proof.
  repeat split; intros Hin;
    repeat (apply elem_of_cons in Hin as [Hin|Hin]; [discriminate|]);
    apply elem_of_nil in Hin; exact Hin.
Qed.

Lemma cycle_bus (s s' : vr4300) :
  vr4300_cycle s = Some s' -> at_most_one_write (bus s) s'.
Proof.
  destruct no_dc_behind as (Hex & Hrf & Hic).
  unfold vr4300_cycle. destruct (_ >? _).
  { intros [= <-]. left. reflexivity. }
  assert (Hreset : bus (cycle_reset s) = bus s).
  { destruct Hbus as (_ & _ & _ & _ & _ & _ & HRST).
    unfold cycle_reset. destruct (negb _); [apply HRST | reflexivity]. }
  rewrite <- Hreset. generalize (cycle_reset s). clear s Hreset. intros s.
  destruct (_ || _).
  - unfold pipeline_function_lut.
    destruct (skip_stages (pipeline s)) as [|[|[|[|[|[|k]]]]]];
      cbn [lookup list_lookup mbind option_bind]; [..|discriminate];
      intros [= <-].
    + rewrite slow_wb_run.
      replace (bus s) with (bus (exception_history_tick s))
        by (unfold exception_history_tick; destruct (_ >? _); reflexivity).
      apply run_from_wb_bus;
        auto using replay_step_keeps_bus, replay_step_dc_bus.
    + rewrite slow_dc_run. unfold at_most_one_write. rewrite completed_bus.
      apply run_from_dc_bus;
        auto using replay_step_keeps_bus, replay_step_dc_bus.
    + rewrite slow_ex_run. left. rewrite completed_bus.
      apply run_without_dc_keeps_bus; auto using replay_step_keeps_bus.
    + rewrite slow_rf_run. left. rewrite completed_bus.
      apply run_without_dc_keeps_bus; auto using replay_step_keeps_bus.
    + rewrite slow_ic_run. left. rewrite completed_bus.
      apply run_without_dc_keeps_bus; auto using replay_step_keeps_bus.
    + rewrite slow_ex_fixdc_run. left. rewrite completed_bus.
      rewrite run_without_dc_keeps_bus; auto using replay_step_keeps_bus.
  - intros [= <-]. rewrite fast_path_run.
    apply run_from_wb_bus; auto using stage_body_keeps_bus, dc_stage_bus.
Qed.

End Bus.

(** X11. A cycle issues at most one bus write, provided the opcode handlers
    and the fault helpers issue none: the writes on the bus after the cycle
    are those before it, or those with one more in front.  The replay
    variants that start behind the DC stage issue none. *)
Theorem one_bus_write_per_cycle :
  env_preserves_bus ->
  (forall s s',
     vr4300_cycle s = Some s' ->
     bus s' = bus s \/ exists w, bus s' = w :: bus s)
  /\ (forall s,
        bus (vr4300_cycle_slow_ex s) = bus s
        /\ bus (vr4300_cycle_slow_ex_fixdc s) = bus s
        /\ bus (vr4300_cycle_slow_rf s) = bus s
        /\ bus (vr4300_cycle_slow_ic s) = bus s).
Proof.
  intros Hbus. split.
  - intros s s'. apply (cycle_bus Hbus).
  - destruct no_dc_behind as (Hex & Hrf & Hic). intros s.
    rewrite slow_ex_run, slow_ex_fixdc_run, slow_rf_run, slow_ic_run.
    rewrite !completed_bus.
    rewrite !(run_without_dc_keeps_bus replay_step)
      by auto using replay_step_keeps_bus.
    repeat split.
Qed.

(** *** The squash of a delay slot in the IC stage *)

(** X12. The IC stage applies [iw_mask] to the instruction word of the
    RF/EX latch once: whichever way it exits, the word is masked, the opcode
    is the decoding of the masked word and the mask is all ones again.  A
    zero mask therefore turns the latched word into 0 for exactly one
    decode, and with the mask at all ones a 32-bit word is decoded as it
    is. *)
Theorem ic_stage_applies_mask_once (s : vr4300) :
  let rfex := rfex_latch (pipeline s) in
  let masked := Z.land (rfex_iw rfex) (rfex_iw_mask rfex) in
  (exists s0,
     ((vr4300_ic_stage s).1 = s0 \/ (vr4300_ic_stage s).1 = VR4300_IADE s0)
     /\ rfex_latch (pipeline s0)
        = {| rfex_common := rfex_common rfex;
             rfex_opcode := vr4300_decode_instruction masked;
             rfex_iw := masked;
             rfex_iw_mask := 0xFFFFFFFF |})
  /\ (rfex_iw_mask rfex = 0 -> masked = 0)
  /\ (rfex_iw_mask rfex = 0xFFFFFFFF -> 0 <= rfex_iw rfex < 2 ^ 32 ->
      masked = rfex_iw rfex)
  /\ (0 <= rfex_iw_mask rfex < 2 ^ 32 -> 0 <= masked < 2 ^ 32).
Proof.
  intros rfex masked. split; [|split; [|split]].
  - rewrite ic_stage_cases. destruct (ic_miss s); cbn [fst].
    + exists (ic_decode s). split; [right|]; reflexivity.
    + eexists. split; [left; reflexivity|]. reflexivity.
  - intros Hmask. subst masked. rewrite Hmask. apply Z.land_0_r.
  - intros Hmask Hiw. subst masked. rewrite Hmask.
    change 0xFFFFFFFF with (Z.ones 32).
    rewrite Z.land_ones by lia. apply Z.mod_small, Hiw.
  - intros Hmask. subst masked.
    replace (Z.land (rfex_iw rfex) (rfex_iw_mask rfex))
      with (Z.land (rfex_iw rfex) (rfex_iw_mask rfex) mod 2 ^ 32);
      [apply Z.mod_pos_bound; lia|].
    apply Z.bits_inj'. intros i Hi.
    rewrite Z.testbit_mod_pow2, Z.land_spec by lia.
    destruct (Z.ltb_spec i 32) as [Hlow|Hhigh]; [reflexivity|].
    rewrite <- (Z.mod_small (rfex_iw_mask rfex) (2 ^ 32)) by exact Hmask.
    rewrite Z.mod_pow2_bits_high by lia.
    rewrite andb_false_r. reflexivity.
Qed.

(** *** From a replay back to the fast path *)

Lemma cycle_fast_path (s : vr4300) :
  cycles_to_stall (pipeline s) = 0 ->
  Z.land (signals s) VR4300_SIGNAL_COLDRESET = 0 ->
  fault_present (pipeline s) = false ->
  skip_stages (pipeline s) = 0%nat ->
  vr4300_cycle s
  = Some (run_stages (stage_body <$> [WB; DC; EX; RF; IC]) s).1.
Proof.
  intros Hstall Hreset Hfault Hskip.
  unfold vr4300_cycle, cycle_reset.
  rewrite Hstall. change (0 >? 0) with false. cbv iota.
  rewrite Hreset. change (negb (0 =? 0)) with false. cbv iota.
  rewrite Hfault, Hskip. cbn [orb negb Nat.eqb].
  f_equal. apply fast_path_run.
Qed.

Lemma cycle_replay (s : vr4300) (k : nat) :
  cycles_to_stall (pipeline s) = 0 ->
  Z.land (signals s) VR4300_SIGNAL_COLDRESET = 0 ->
  skip_stages (pipeline s) = k ->
  (1 <= k <= 5)%nat ->
  vr4300_cycle s
  = Some (completed
            (run_stages (replay_step <$> replay_stages k)
               (if decide (k = 5%nat) then fixdc s else s))).
Proof.
  intros Hstall Hreset Hskip Hk.
  unfold vr4300_cycle, cycle_reset.
  rewrite Hstall. change (0 >? 0) with false. cbv iota.
  rewrite Hreset. change (negb (0 =? 0)) with false. cbv iota.
  rewrite Hskip. unfold pipeline_function_lut.
  destruct k as [|[|[|[|[|[|k]]]]]]; try lia;
    rewrite orb_true_r; cbn [lookup list_lookup mbind option_bind];
    f_equal; cbn [replay_stages];
    (destruct (decide _) as [Hfive|Hfive]; [try discriminate Hfive|
                                             try contradiction]).
  - apply slow_dc_run.
  - apply slow_ex_run.
  - apply slow_rf_run.
  - apply slow_ic_run.
  - apply slow_ex_fixdc_run.
Qed.

Lemma run_stages_continue_keeps (P : vr4300 -> Prop)
    (l : list (vr4300 -> stage_result)) (s : vr4300) :
  Forall (fun f => forall s, (f s).2 = false -> P s -> P (f s).1) l ->
  (run_stages l s).2 = false ->
  P s -> P (run_stages l s).1.
Proof.
  intros Hl. revert s. induction Hl as [|f l Hf _ IH]; intros s.
  - intros _ Hs. exact Hs.
  - cbn [run_stages]. specialize (Hf s).
    destruct (f s) as [s1 [|]]; cbn [fst snd] in *; [discriminate|].
    intros Hrun Hs. apply IH; auto.
Qed.

Lemma stage_continue_keeps_control (st : stage_id) (s : vr4300) :
  handlers_preserve_control ->
  (stage_body st s).2 = false ->
  control (stage_body st s).1 = control s.
Proof.
  intros Hfun. destruct st; cbn [stage_body].
  - intros _. unfold vr4300_wb_stage. destruct (decide _); reflexivity.
  - rewrite dc_stage_cases.
    destruct (req_type _); [| destruct (dc_resolved s) ..]; cbn [fst snd];
      first [discriminate | reflexivity].
  - unfold vr4300_ex_stage. destruct (_ || _); cbn [fst snd];
      [discriminate|].
    intros _. unfold ex_issue.
    destruct (ex_forward _ _ _ _ _) as [[r rs_reg] rt_reg].
    cbn [fst]. rewrite Hfun. reflexivity.
  - unfold vr4300_rf_stage. destruct (negb _); cbn [fst snd];
      first [discriminate | reflexivity].
  - rewrite ic_stage_cases. destruct (ic_miss s); cbn [fst snd];
      first [discriminate | reflexivity].
Qed.

Lemma replay_continue_keeps_control (l : list stage_id) (s : vr4300) :
  handlers_preserve_control ->
  (run_stages (replay_step <$> l) s).2 = false ->
  control (run_stages (replay_step <$> l) s).1 = control s.
Proof.
  intros Hfun Hrun.
  apply (run_stages_continue_keeps (fun s' => control s' = control s));
    [|exact Hrun|reflexivity].
  apply Forall_fmap, Forall_forall. intros st _. unfold compose.
  intros s' Hcont <-. revert Hcont. unfold replay_step.
  destruct (decide _).
  - apply stage_continue_keeps_control, Hfun.
  - intros _. destruct st; reflexivity.
Qed.

(** X13. A replay that runs to its end hands over to the fast path.  A
    cycle entered with [skip_stages] from 1 to 5 runs the slots of that
    entry point.  Provided the opcode handlers leave the control state
    alone, when no slot aborts [skip_stages] is 0 afterwards,
    [fault_present] and [exception_history] are as before, and with
    [fault_present] clear the next cycle is the fast path. *)
Theorem replay_hands_over_to_fast_path (s : vr4300) (k : nat) :
  handlers_preserve_control ->
  cycles_to_stall (pipeline s) = 0 ->
  Z.land (signals s) VR4300_SIGNAL_COLDRESET = 0 ->
  skip_stages (pipeline s) = k ->
  (1 <= k <= 5)%nat ->
  let r := run_stages (replay_step <$> replay_stages k)
             (if decide (k = 5%nat) then fixdc s else s) in
  vr4300_cycle s = Some (completed r)
  /\ (r.2 = true -> completed r = r.1)
  /\ (r.2 = false ->
      skip_stages (pipeline (completed r)) = 0%nat
      /\ fault_present (pipeline (completed r)) = fault_present (pipeline s)
      /\ exception_history (pipeline (completed r))
         = exception_history (pipeline s)
      /\ (fault_present (pipeline s) = false ->
          vr4300_cycle (completed r)
          = Some (run_stages (stage_body <$> [WB; DC; EX; RF; IC])
                    (completed r)).1)).
Proof.
  intros Hfun Hstall Hreset Hskip Hk r.
  split; [apply cycle_replay; assumption|].
  split; [intros Habort; unfold completed; rewrite Habort; reflexivity|].
  intros Hcont.
  assert (Hr : control r.1 = control s).
  { subst r. rewrite (replay_continue_keeps_control _ _ Hfun Hcont).
    destruct (decide _); reflexivity. }
  injection Hr as Hh' Hstall' Hskip' Hfault' Hsig'.
  unfold completed. rewrite Hcont.
  cbn [skip_stages fault_present exception_history pipeline
       set_skip_stages set_pipeline].
  repeat split; try assumption.
  intros Hfault. apply cycle_fast_path;
    cbn [skip_stages fault_present cycles_to_stall pipeline signals
         set_skip_stages set_pipeline]; congruence.
Qed.

(** *** The way back to the fast path *)

Lemma fast_continue_keeps_control (s : vr4300) :
  handlers_preserve_control ->
  (run_stages (stage_body <$> [WB; DC; EX; RF; IC]) s).2 = false ->
  control (run_stages (stage_body <$> [WB; DC; EX; RF; IC]) s).1 = control s.
Proof.
  intros Hfun Hrun.
  apply (run_stages_continue_keeps (fun s' => control s' = control s));
    [|exact Hrun|reflexivity].
  apply Forall_fmap, Forall_forall. intros st _. unfold compose.
  intros s' Hcont <-. apply stage_continue_keeps_control; assumption.
Qed.

(** The run of a cycle in slow mode that enters at the WB stage. *)
Lemma cycle_run_slow_wb (s : vr4300) :
  Z.land (signals s) VR4300_SIGNAL_COLDRESET = 0 ->
  fault_present (pipeline s) = true ->
  skip_stages (pipeline s) = 0%nat ->
  cycle_run s
  = run_stages (replay_step <$> [WB; DC; EX; RF; IC])
      (exception_history_tick s).
Proof.
  intros Hreset Hfault Hskip. unfold cycle_run, cycle_reset.
  rewrite Hreset. change (negb (0 =? 0)) with false. cbv iota zeta.
  rewrite Hfault, Hskip. reflexivity.
Qed.

(** The run of a cycle on the fast path. *)
Lemma cycle_run_fast (s : vr4300) :
  Z.land (signals s) VR4300_SIGNAL_COLDRESET = 0 ->
  fault_present (pipeline s) = false ->
  skip_stages (pipeline s) = 0%nat ->
  cycle_run s = run_stages (stage_body <$> [WB; DC; EX; RF; IC]) s.
Proof.
  intros Hreset Hfault Hskip. unfold cycle_run, cycle_reset.
  rewrite Hreset. change (negb (0 =? 0)) with false. cbv iota zeta.
  rewrite Hfault, Hskip. reflexivity.
Qed.

(** [cycle_run] is the run of the cycle: a cycle that does not stall ends
    in the state of its run, with [skip_stages] reset when the replay from
    an entry point other than the first ran through. *)
Lemma cycle_of_run (s : vr4300) :
  cycles_to_stall (pipeline s) <= 0 ->
  (skip_stages (pipeline (cycle_reset s)) < 6)%nat ->
  vr4300_cycle s
  = Some (if Nat.eqb (skip_stages (pipeline (cycle_reset s))) 0
          then (cycle_run s).1 else completed (cycle_run s)).
Proof.
  intros Hstall. rewrite (cycle_behind_stall s Hstall).
  unfold cycle_dispatch, cycle_run. cbv zeta.
  generalize (cycle_reset s). intros s0 Hskip.
  destruct (skip_stages (pipeline s0)) as [|[|[|[|[|[|k]]]]]]; try lia;
    cbn [negb Nat.eqb]; rewrite ?orb_true_r, ?orb_false_r;
    unfold pipeline_function_lut.
  - destruct (fault_present (pipeline s0));
      cbn [lookup list_lookup mbind option_bind replay_stages]; f_equal.
    + apply slow_wb_run.
    + apply fast_path_run.
  - cbn [lookup list_lookup mbind option_bind replay_stages]. f_equal.
    apply slow_dc_run.
  - cbn [lookup list_lookup mbind option_bind replay_stages]. f_equal.
    apply slow_ex_run.
  - cbn [lookup list_lookup mbind option_bind replay_stages]. f_equal.
    apply slow_rf_run.
  - cbn [lookup list_lookup mbind option_bind replay_stages]. f_equal.
    apply slow_ic_run.
  - cbn [lookup list_lookup mbind option_bind replay_stages]. f_equal.
    apply slow_ex_fixdc_run.
Qed.

(** A cycle of the WB replay variant in which no stage aborts. *)
Lemma slow_wb_quiet_cycle (s : vr4300) (h sig : Z) :
  handlers_preserve_control ->
  control s = (h, 0, 0%nat, true, sig) ->
  Z.land sig VR4300_SIGNAL_COLDRESET = 0 ->
  cycle_aborts s = false ->
  vr4300_cycle s = Some (vr4300_cycle_slow_wb s)
  /\ control (vr4300_cycle_slow_wb s)
     = (wrap32 (h + 1), 0, 0%nat, (if h >? 4 then false else true), sig).
Proof.
  intros Hfun Hs Hsig Hquiet.
  injection Hs as Hh Hstall Hskip Hfault Hsignals.
  rewrite <- Hsignals in Hsig.
  unfold cycle_aborts in Hquiet. rewrite Hstall in Hquiet.
  change (0 >? 0) with false in Hquiet. cbv iota in Hquiet.
  rewrite (cycle_run_slow_wb s Hsig Hfault Hskip) in Hquiet.
  split.
  - unfold vr4300_cycle, cycle_reset.
    rewrite Hstall. change (0 >? 0) with false. cbv iota.
    rewrite Hsig. change (negb (0 =? 0)) with false. cbv iota.
    rewrite Hfault, Hskip. cbn [orb]. unfold pipeline_function_lut.
    cbn [lookup list_lookup mbind option_bind]. reflexivity.
  - rewrite slow_wb_run.
    rewrite (replay_continue_keeps_control _ _ Hfun Hquiet).
    rewrite exception_history_tick_control.
    rewrite Hh, Hstall, Hskip, Hfault, Hsignals. reflexivity.
Qed.

(** A cycle of the fast path in which no stage aborts. *)
Lemma fast_quiet_cycle (s : vr4300) (h sig : Z) :
  handlers_preserve_control ->
  control s = (h, 0, 0%nat, false, sig) ->
  Z.land sig VR4300_SIGNAL_COLDRESET = 0 ->
  cycle_aborts s = false ->
  exists s',
    vr4300_cycle s = Some s' /\ control s' = (h, 0, 0%nat, false, sig).
Proof.
  intros Hfun Hs Hsig Hquiet. pose proof Hs as Hfields.
  injection Hfields as Hh Hstall Hskip Hfault Hsignals.
  rewrite <- Hsignals in Hsig.
  unfold cycle_aborts in Hquiet. rewrite Hstall in Hquiet.
  change (0 >? 0) with false in Hquiet. cbv iota in Hquiet.
  rewrite (cycle_run_fast s Hsig Hfault Hskip) in Hquiet.
  eexists. split.
  - apply cycle_fast_path; assumption.
  - rewrite (fast_continue_keeps_control _ Hfun Hquiet). exact Hs.
Qed.

Lemma quiet_cycles_step (n : nat) (s : vr4300) :
  quiet_cycles (S n) s = true ->
  cycle_aborts s = false
  /\ forall s', vr4300_cycle s = Some s' -> quiet_cycles n s' = true.
Proof.
  cbn [quiet_cycles]. destruct (cycle_aborts s); cbn [negb andb];
    [discriminate|].
  intros Hrest. split; [reflexivity|]. intros s' Hs'.
  rewrite Hs' in Hrest. exact Hrest.
Qed.

(** Cycles of the fast path in which no stage aborts leave the control
    state as it is. *)
Lemma fast_quiet_run (n : nat) (s : vr4300) (h sig : Z) :
  handlers_preserve_control ->
  control s = (h, 0, 0%nat, false, sig) ->
  Z.land sig VR4300_SIGNAL_COLDRESET = 0 ->
  quiet_cycles n s = true ->
  exists s',
    vr4300_cycles n s = Some s' /\ control s' = (h, 0, 0%nat, false, sig).
Proof.
  intros Hfun. revert s. induction n as [|n IH]; intros s Hs Hsig Hquiet.
  - exists s. split; [reflexivity | exact Hs].
  - destruct (quiet_cycles_step n s Hquiet) as [Hfirst Hrest].
    destruct (fast_quiet_cycle s h sig Hfun Hs Hsig Hfirst)
      as (s1 & Hcycle & Hs1).
    destruct (IH s1 Hs1 Hsig (Hrest s1 Hcycle)) as (s' & Hcycles & Hs').
    exists s'. split; [|exact Hs'].
    cbn [vr4300_cycles]. rewrite Hcycle. exact Hcycles.
Qed.

(** Cycles in slow mode in which no stage aborts: the counter goes up to
    6, and [fault_present] is set as long as the counter is at most 5. *)
Lemma slow_quiet_run (n : nat) (s : vr4300) (h sig : Z) :
  handlers_preserve_control ->
  control s = (h, 0, 0%nat, true, sig) ->
  Z.land sig VR4300_SIGNAL_COLDRESET = 0 ->
  0 <= h <= 5 ->
  quiet_cycles n s = true ->
  exists s',
    vr4300_cycles n s = Some s'
    /\ control s' = (Z.min (h + Z.of_nat n) 6, 0, 0%nat,
                     (h + Z.of_nat n <=? 5), sig).
Proof.
  intros Hfun. revert s h.
  induction n as [|n IH]; intros s h Hs Hsig Hh Hquiet.
  - exists s. split; [reflexivity|]. rewrite Hs.
    replace (Z.min (h + Z.of_nat 0) 6) with h by lia.
    replace (h + Z.of_nat 0 <=? 5) with true
      by (symmetry; apply Z.leb_le; lia).
    reflexivity.
  - destruct (quiet_cycles_step n s Hquiet) as [Hfirst Hrest].
    destruct (slow_wb_quiet_cycle s h sig Hfun Hs Hsig Hfirst)
      as (Hcycle & Hs1).
    specialize (Hrest _ Hcycle).
    set (s1 := vr4300_cycle_slow_wb s) in *.
    unfold wrap32 in Hs1. rewrite (Z.mod_small (h + 1)) in Hs1 by lia.
    revert Hs1. destruct (Z.gtb_spec h 4) as [Hlast|Hmore]; intros Hs1.
    + destruct (fast_quiet_run n s1 (h + 1) sig Hfun Hs1 Hsig Hrest)
        as (s' & Hcycles & Hs').
      exists s'. split.
      * cbn [vr4300_cycles]. rewrite Hcycle. exact Hcycles.
      * rewrite Hs'.
        replace (Z.min (h + Z.of_nat (S n)) 6) with (h + 1) by lia.
        replace (h + Z.of_nat (S n) <=? 5) with false
          by (symmetry; apply Z.leb_gt; lia).
        reflexivity.
    + destruct (IH s1 (h + 1) Hs1 Hsig ltac:(lia) Hrest)
        as (s' & Hcycles & Hs').
      exists s'. split.
      * cbn [vr4300_cycles]. rewrite Hcycle. exact Hcycles.
      * rewrite Hs'.
        replace (h + 1 + Z.of_nat n) with (h + Z.of_nat (S n)) by lia.
        reflexivity.
Qed.

(** C4, as the code has it.  Take opcode handlers that leave the control
    state alone, and cycles in which no stage aborts.  A cycle in slow
    mode with no stall, no cold reset pending and [skip_stages] at 0 is the
    WB replay variant: it raises [exception_history] by one, whatever the
    DC/WB latch holds, and clears [fault_present] when the counter was
    above 4 before that.  So a machine that starts such cycles with
    [exception_history] at 0 still has [fault_present] set after each of
    the first five and has it cleared by the sixth, where the counter stops
    at 6; every cycle after that is the fast path. *)
Theorem fault_recovery_exit :
  handlers_preserve_control ->
  (forall s,
     cycles_to_stall (pipeline s) = 0 ->
     skip_stages (pipeline s) = 0%nat ->
     fault_present (pipeline s) = true ->
     Z.land (signals s) VR4300_SIGNAL_COLDRESET = 0 ->
     cycle_aborts s = false ->
     vr4300_cycle s = Some (vr4300_cycle_slow_wb s)
     /\ exception_history (pipeline (vr4300_cycle_slow_wb s))
        = wrap32 (exception_history (pipeline s) + 1)
     /\ fault_present (pipeline (vr4300_cycle_slow_wb s))
        = (if exception_history (pipeline s) >? 4 then false else true)
     /\ cycles_to_stall (pipeline (vr4300_cycle_slow_wb s)) = 0
     /\ skip_stages (pipeline (vr4300_cycle_slow_wb s)) = 0%nat
     /\ signals (vr4300_cycle_slow_wb s) = signals s)
  /\ (forall s n,
        exception_history (pipeline s) = 0 ->
        cycles_to_stall (pipeline s) = 0 ->
        skip_stages (pipeline s) = 0%nat ->
        fault_present (pipeline s) = true ->
        Z.land (signals s) VR4300_SIGNAL_COLDRESET = 0 ->
        quiet_cycles n s = true ->
        exists s',
          vr4300_cycles n s = Some s'
          /\ fault_present (pipeline s') = (n <=? 5)%nat
          /\ exception_history (pipeline s') = Z.of_nat (min n 6)
          /\ ((6 <= n)%nat ->
              vr4300_cycle s'
              = Some (run_stages
                        (stage_body <$> [WB; DC; EX; RF; IC]) s').1)).
Proof.
  intros Hfun. split.
  - intros s Hstall Hskip Hfault Hsig Hquiet.
    assert (Hs : control s
                 = (exception_history (pipeline s), 0, 0%nat, true,
                    signals s))
      by (unfold control; rewrite Hstall, Hskip, Hfault; reflexivity).
    destruct (slow_wb_quiet_cycle s _ _ Hfun Hs Hsig Hquiet)
      as (Hcycle & Hs').
    split; [exact Hcycle|].
    injection Hs' as Hh' Hstall' Hskip' Hfault' Hsig'. auto 6.
  - intros s n Hh Hstall Hskip Hfault Hsig Hquiet.
    assert (Hs : control s = (0, 0, 0%nat, true, signals s))
      by (unfold control; rewrite Hh, Hstall, Hskip, Hfault; reflexivity).
    destruct (slow_quiet_run n s 0 (signals s) Hfun Hs Hsig ltac:(lia)
                Hquiet) as (s' & Hcycles & Hs').
    exists s'. split; [exact Hcycles|].
    pose proof Hs' as Hfields.
    injection Hfields as Hh' Hstall' Hskip' Hfault' Hsig'.
    split; [|split].
    + rewrite Hfault'.
      destruct (Z.leb_spec (0 + Z.of_nat n) 5);
        destruct (Nat.leb_spec n 5); first [reflexivity | lia].
    + rewrite Hh'. lia.
    + intros Hlate. apply cycle_fast_path; try assumption.
      * rewrite Hsig'. exact Hsig.
      * rewrite Hfault'. apply Z.leb_gt. lia.
Qed.

(** *** The latches over a cycle of the fast path *)

Lemma wb_stage_commons (s : vr4300) :
  commons (vr4300_wb_stage s).1 = commons s.
Proof. unfold vr4300_wb_stage. destruct (decide _); reflexivity. Qed.

Lemma dc_continue_commons (s : vr4300) :
  (vr4300_dc_stage s).2 = false ->
  commons (vr4300_dc_stage s).1
  = (exdc_common (exdc_latch (pipeline s)),
     exdc_common (exdc_latch (pipeline s)),
     rfex_common (rfex_latch (pipeline s)),
     icrf_common (icrf_latch (pipeline s))).
Proof.
  rewrite dc_stage_cases.
  destruct (req_type _); [| destruct (dc_resolved s) ..]; cbn [fst snd];
    first [discriminate | reflexivity].
Qed.

Lemma ex_continue_commons (s : vr4300) :
  handlers_keep_commons ->
  (vr4300_ex_stage s).2 = false ->
  commons (vr4300_ex_stage s).1
  = (dcwb_common (dcwb_latch (pipeline s)),
     rfex_common (rfex_latch (pipeline s)),
     rfex_common (rfex_latch (pipeline s)),
     icrf_common (icrf_latch (pipeline s))).
Proof.
  intros Hfun. unfold vr4300_ex_stage. destruct (_ || _); cbn [fst snd];
    [discriminate|].
  intros _. unfold ex_issue.
  destruct (ex_forward _ _ _ _ _) as [[r rs_reg] rt_reg].
  cbn [fst]. rewrite Hfun. reflexivity.
Qed.

Lemma rf_continue_commons (s : vr4300) :
  (vr4300_rf_stage s).2 = false ->
  commons (vr4300_rf_stage s).1
  = (dcwb_common (dcwb_latch (pipeline s)),
     exdc_common (exdc_latch (pipeline s)),
     icrf_common (icrf_latch (pipeline s)),
     icrf_common (icrf_latch (pipeline s))).
Proof.
  unfold vr4300_rf_stage. destruct (negb _); cbn [fst snd];
    first [discriminate | reflexivity].
Qed.

Lemma ic_continue_commons (s : vr4300) :
  (vr4300_ic_stage s).2 = false ->
  commons (vr4300_ic_stage s).1
  = (dcwb_common (dcwb_latch (pipeline s)),
     exdc_common (exdc_latch (pipeline s)),
     rfex_common (rfex_latch (pipeline s)),
     {| pc := icrf_pc (icrf_latch (pipeline s));
        fault := VR4300_FAULT_NONE |})
  /\ icrf_pc (icrf_latch (pipeline (vr4300_ic_stage s).1))
     = wrap64 (icrf_pc (icrf_latch (pipeline s)) + 4).
Proof.
  rewrite ic_stage_cases. destruct (ic_miss s); cbn [fst snd];
    [discriminate|].
  intros _. split; reflexivity.
Qed.

(** X3. In a cycle of the fast path in which no stage aborts, every
    instruction moves down by exactly one latch, although the five stages
    run one after the other on the same latches: provided the opcode
    handlers leave the [common] records alone, the DC/WB latch ends with
    the record the EX/DC latch had at the start of the cycle, the EX/DC
    latch with that of the RF/EX latch, and the RF/EX latch with that of
    the IC/RF latch.  The IC/RF latch ends free of fault, with the address
    just fetched, 4 below the next fetch address. *)
Theorem latches_advance_one_stage (s : vr4300) :
  handlers_keep_commons ->
  cycles_to_stall (pipeline s) = 0 ->
  Z.land (signals s) VR4300_SIGNAL_COLDRESET = 0 ->
  fault_present (pipeline s) = false ->
  skip_stages (pipeline s) = 0%nat ->
  cycle_aborts s = false ->
  exists s',
    vr4300_cycle s = Some s'
    /\ dcwb_common (dcwb_latch (pipeline s'))
       = exdc_common (exdc_latch (pipeline s))
    /\ exdc_common (exdc_latch (pipeline s'))
       = rfex_common (rfex_latch (pipeline s))
    /\ rfex_common (rfex_latch (pipeline s'))
       = icrf_common (icrf_latch (pipeline s))
    /\ fault (icrf_common (icrf_latch (pipeline s'))) = VR4300_FAULT_NONE
    /\ icrf_pc (icrf_latch (pipeline s'))
       = wrap64 (pc (icrf_common (icrf_latch (pipeline s'))) + 4).
Proof.
  intros Hfun Hstall Hreset Hfault Hskip Hquiet.
  unfold cycle_aborts in Hquiet. rewrite Hstall in Hquiet.
  change (0 >? 0) with false in Hquiet. cbv iota in Hquiet.
  rewrite (cycle_run_fast s Hreset Hfault Hskip) in Hquiet.
  eexists. split; [apply cycle_fast_path; assumption|].
  revert Hquiet. cbn [run_stages fmap list_fmap stage_body].
  pose proof (wb_stage_commons s) as Hwb.
  destruct (vr4300_wb_stage s) as [s1 [|]]; cbn [fst snd] in *;
    [discriminate|].
  pose proof (dc_continue_commons s1) as Hdc.
  destruct (vr4300_dc_stage s1) as [s2 [|]]; cbn [fst snd] in *;
    [discriminate|].
  pose proof (ex_continue_commons s2 Hfun) as Hex.
  destruct (vr4300_ex_stage s2) as [s3 [|]]; cbn [fst snd] in *;
    [discriminate|].
  pose proof (rf_continue_commons s3) as Hrf.
  destruct (vr4300_rf_stage s3) as [s4 [|]]; cbn [fst snd] in *;
    [discriminate|].
  pose proof (ic_continue_commons s4) as Hic.
  destruct (vr4300_ic_stage s4) as [s5 [|]]; cbn [fst snd] in *;
    [discriminate|].
  intros _.
  destruct (Hic eq_refl) as [Hic5 Hpc].
  specialize (Hdc eq_refl). specialize (Hex eq_refl).
  specialize (Hrf eq_refl).
  unfold commons in *.
  injection Hwb as Hwb1 Hwb2 Hwb3 Hwb4.
  injection Hdc as Hdc1 Hdc2 Hdc3 Hdc4.
  injection Hex as Hex1 Hex2 Hex3 Hex4.
  injection Hrf as Hrf1 Hrf2 Hrf3 Hrf4.
  injection Hic5 as Hic1 Hic2 Hic3 Hic4.
  split; [congruence|]. split; [congruence|]. split; [congruence|].
  rewrite Hpc, Hic4. split; reflexivity.
Qed.

(** *** Initialisation *)

(** X14. A machine whose pipeline was just initialised is in fast mode.
    Taking the enumerators of value 0 to be the two NONE values, no latch
    carries a fault, no bus request is pending, both segment references are
    the default segment, and [iw_mask] is 0, so that the first IC stage
    decodes the word 0.  With no reset pending its first cycle is the run of
    the five stages, of which WB and DC continue without a bus write. *)
Theorem pipeline_init_fast_mode (zero_fault : vr4300_fault_id)
    (zero_type : vr4300_bus_request_type) (default_segment : segment)
    (s : vr4300) :
  zero_fault = VR4300_FAULT_NONE ->
  zero_type = VR4300_BUS_REQUEST_NONE ->
  pipeline s = vr4300_pipeline_init zero_fault zero_type default_segment ->
  Z.land (signals s) VR4300_SIGNAL_COLDRESET = 0 ->
  (forall st, input_fault st s = VR4300_FAULT_NONE)
  /\ icrf_segment (icrf_latch (pipeline s)) = default_segment
  /\ exdc_segment (exdc_latch (pipeline s)) = default_segment
  /\ vr4300_cycle s
     = Some (run_stages (stage_body <$> [WB; DC; EX; RF; IC]) s).1
  /\ (run_stages (stage_body <$> [WB; DC]) s).2 = false
  /\ bus (run_stages (stage_body <$> [WB; DC]) s).1 = bus s
  /\ rfex_iw (rfex_latch (pipeline (ic_decode s))) = 0
  /\ rfex_opcode (rfex_latch (pipeline (ic_decode s)))
     = vr4300_decode_instruction 0.
Proof.
  intros -> -> Hinit Hreset.
  split; [|split; [|split; [|split; [|split; [|split]]]]].
  - intros st. unfold input_fault. rewrite Hinit. destruct st; reflexivity.
  - rewrite Hinit. reflexivity.
  - rewrite Hinit. reflexivity.
  - apply cycle_fast_path; try assumption; rewrite Hinit; reflexivity.
  - cbn [fmap list_fmap run_stages stage_body].
    destruct (wb_stage_latches s) as [-> Hpipe].
    rewrite dc_stage_cases, Hpipe, Hinit. reflexivity.
  - cbn [fmap list_fmap run_stages stage_body].
    destruct (wb_stage_latches s) as [-> Hpipe].
    rewrite dc_stage_cases, Hpipe, Hinit. cbn [fst snd].
    unfold vr4300_wb_stage. destruct (decide _); reflexivity.
  - unfold ic_decode. rewrite Hinit. split; reflexivity.
Qed.

(** *** The replay table *)

(** X15. The driver indexes its table of six replay entry points with
    [skip_stages] unchecked: a cycle is defined exactly when the machine
    stalls or, behind the reset check, [skip_stages] is below 6. *)
Theorem cycle_defined_iff (s : vr4300) :
  is_Some (vr4300_cycle s) <->
  cycles_to_stall (pipeline s) > 0
  \/ (skip_stages (pipeline (cycle_reset s)) < 6)%nat.
Proof.
  unfold vr4300_cycle.
  destruct (Z.gtb_spec (cycles_to_stall (pipeline s)) 0) as [Hstall|Hrun].
  { split; [intros _; left; lia | eauto]. }
  destruct (fault_present _ || _) eqn:Hslow.
  - destruct (pipeline_function_lut !! _) as [f|] eqn:Hlut;
      cbn [mbind option_bind].
    + split; [intros _; right | eauto].
      apply lookup_lt_Some in Hlut. exact Hlut.
    + split; [intros [? [=]]|].
      intros [?|Hskip]; [lia|].
      apply lookup_ge_None in Hlut. cbn [length pipeline_function_lut] in Hlut.
      lia.
  - split; [intros _; right | eauto].
    apply orb_false_elim in Hslow as [_ Hskip].
    apply negb_false_iff, Nat.eqb_eq in Hskip. rewrite Hskip. lia.
Qed.

(** *** An instruction without effect *)

(** X20. An instruction whose handler does nothing leaves no trace on its
    way down the pipeline.  With register 0 at zero, the execution stage
    that issues it gives back the register file and the bus as they were
    and leaves no request and destination 0 in the EX/DC latch; the DC
    stage behind it continues without a bus write, and the writeback stage
    behind that leaves the register file as it was. *)
Theorem nop_leaves_no_trace (s : vr4300) :
  (forall s' a b,
     vr4300_function_table
       (op_id (rfex_opcode (rfex_latch (pipeline s)))) s' a b = s') ->
  R0_zero s ->
  (vr4300_ex_stage s).2 = false ->
  let s1 := (vr4300_ex_stage s).1 in
  let s2 := (vr4300_dc_stage s1).1 in
  let s3 := (vr4300_wb_stage s2).1 in
  regs s1 = regs s /\ bus s1 = bus s
  /\ req_type (exdc_request (exdc_latch (pipeline s1)))
     = VR4300_BUS_REQUEST_NONE
  /\ exdc_dest (exdc_latch (pipeline s1)) = VR4300_REGISTER_R0
  /\ (vr4300_dc_stage s1).2 = false
  /\ regs s2 = regs s /\ bus s2 = bus s
  /\ regs s3 = regs s /\ bus s3 = bus s.
Proof.
  intros Hnop Hzero Hcont s1 s2 s3.
  assert (Hs1 : s1 = (ex_issue (ex_latched s)).1).
  { subst s1. revert Hcont. unfold vr4300_ex_stage. fold (ex_latched s).
    destruct (_ || _); cbn [snd]; [discriminate | reflexivity]. }
  assert (Hissue : regs s1 = regs s /\ bus s1 = bus s
            /\ req_type (exdc_request (exdc_latch (pipeline s1)))
               = VR4300_BUS_REQUEST_NONE
            /\ exdc_dest (exdc_latch (pipeline s1)) = VR4300_REGISTER_R0).
  { rewrite Hs1. unfold ex_issue.
    change (rfex_latch (pipeline (ex_latched s)))
      with (rfex_latch (pipeline s)).
    change (regs (ex_latched s)) with (regs s).
    pose proof (ex_forward_restores (regs s)
                  (dcwb_dest (dcwb_latch (pipeline (ex_latched s))))
                  (dcwb_result (dcwb_latch (pipeline (ex_latched s))))
                  (GET_RS (rfex_iw (rfex_latch (pipeline s))))
                  (GET_RT (rfex_iw (rfex_latch (pipeline s)))) Hzero)
      as Hregs.
    destruct (ex_forward _ _ _ _ _) as [[r rs_reg] rt_reg].
    cbn [fst] in *. rewrite Hnop, Hregs. repeat split. }
  destruct Hissue as (Hregs1 & Hbus1 & Htype & Hdest).
  assert (Hdc : vr4300_dc_stage s1 = (dc_latched s1, false))
    by (rewrite dc_stage_cases, Htype; reflexivity).
  assert (Hs2 : s2 = dc_latched s1) by (subst s2; rewrite Hdc; reflexivity).
  split; [exact Hregs1|]. split; [exact Hbus1|].
  split; [exact Htype|]. split; [exact Hdest|].
  split; [rewrite Hdc; reflexivity|].
  split; [rewrite Hs2; exact Hregs1|]. split; [rewrite Hs2; exact Hbus1|].
  subst s3. rewrite Hs2. unfold vr4300_wb_stage.
  destruct (decide _); cbn [fst]; [split; assumption|].
  split; [|exact Hbus1].
  cbn [regs set_regs dcwb_dest dcwb_result dcwb_latch pipeline dc_latched
       set_dcwb_latch set_pipeline].
  rewrite Hdest, Hregs1. unfold reg_write.
  rewrite list_insert_insert_eq. apply list_insert_id, Hzero.
Qed.

End MoreProperties.

(** ** Properties of the FPU comparison *)

Lemma SFcompare_antisym (x y : spec_float) :
  SFcompare y x = option_map CompOpp (SFcompare x y).
Proof.
  destruct x as [sx|sx| |sx mx ex], y as [sy|sy| |sy my ey];
    try reflexivity;
    try (destruct sx; reflexivity);
    try (destruct sy; reflexivity);
    try (destruct sx, sy; reflexivity).
  pose proof (Pos.compare_cont_antisym mx my Eq) as Hm.
  change (CompOpp Eq) with Eq in Hm.
  destruct sx, sy; cbn [SFcompare option_map]; try reflexivity;
    rewrite (Z.compare_antisym ex ey), <- Hm;
    destruct (ex ?= ey); cbn [CompOpp]; try reflexivity;
    destruct (Pos.compare_cont Eq mx my); reflexivity.
Qed.

Lemma SFcompare_refl (x : spec_float) :
  x ≠ S754_nan -> SFcompare x x = Some Eq.
Proof.
  destruct x as [s|s| |s m e]; try (destruct s; reflexivity).
  - intros H. contradiction.
  - intros _. cbn [SFcompare].
    rewrite Z.compare_refl, Pos.compare_cont_refl.
    destruct s; reflexivity.
Qed.

Lemma cmp_ole_of_compare (fs ft : Z) :
  fpu_cmp_ole_64 fs ft
  = match SFcompare (double_of_bits fs) (double_of_bits ft) with
    | Some Lt | Some Eq => 1
    | _ => 0
    end.
Proof.
  unfold fpu_cmp_ole_64, comisd.
  rewrite (SFcompare_antisym (double_of_bits fs) (double_of_bits ft)).
  destruct (SFcompare (double_of_bits fs) (double_of_bits ft)) as [[| |]|];
    reflexivity.
Qed.

Lemma double_of_bits_nan (x : Z) :
  double_of_bits x = S754_nan <-> is_nan_bits x.
Proof.
  unfold double_of_bits, is_nan_bits.
  assert (Hm : 0 <= Z.land x 0xFFFFFFFFFFFFF)
    by (apply Z.land_nonneg; right; lia).
  destruct (Z.eqb_spec (Z.land (Z.shiftr x 52) 2047) 0) as [He|He].
  - rewrite He. split; [|intros [? _]; discriminate].
    destruct (Z.land x 4503599627370495); discriminate.
  - destruct (Z.eqb_spec (Z.land (Z.shiftr x 52) 2047) 2047) as [Hi|Hi].
    + destruct (Z.eqb_spec (Z.land x 4503599627370495) 0) as [Hz|Hz].
      * split; [discriminate | intros [_ ?]; contradiction].
      * split; auto.
    + split; [|intros [? _]; contradiction].
      destruct (Z.land x 4503599627370495 + 2 ^ 52) eqn:Hsum;
        try discriminate; lia.
Qed.

(** X16. The comparison stores 1 when the double behind [fs] is ordered and
    less than or equal to the one behind [ft], and 0 otherwise: comparing in
    the swapped order for above-or-equal and masking with the parity flag
    is the ordered less-or-equal of IEEE 754. *)
Theorem fpu_cmp_ole_64_is_ordered_le (fs ft : Z) :
  fpu_cmp_ole_64 fs ft
  = if SFleb (double_of_bits fs) (double_of_bits ft) then 1 else 0.
Proof.
  rewrite cmp_ole_of_compare. unfold SFleb.
  destruct (SFcompare _ _) as [[| |]|]; reflexivity.
Qed.

(** X17. A NaN on either side makes the comparison store 0, and a value
    that is not a NaN compares less than or equal to itself. *)
Theorem fpu_cmp_ole_64_nan (fs ft : Z) :
  (is_nan_bits fs \/ is_nan_bits ft -> fpu_cmp_ole_64 fs ft = 0)
  /\ (fpu_cmp_ole_64 fs fs = 1 <-> ~ is_nan_bits fs).
Proof.
  split.
  - rewrite cmp_ole_of_compare.
    intros [Hnan|Hnan]; apply double_of_bits_nan in Hnan; rewrite Hnan.
    + reflexivity.
    + destruct (double_of_bits fs); reflexivity.
  - rewrite cmp_ole_of_compare, <- double_of_bits_nan. split.
    + intros Hone Hnan. rewrite Hnan in Hone. discriminate.
    + intros Hnum. rewrite SFcompare_refl by exact Hnum. reflexivity.
Qed.

(** X18. Two values that are not NaNs are always comparable: one of the two
    orders stores 1, and both do exactly when the values are equal (as for
    the two zeros). *)
Theorem fpu_cmp_ole_64_total (fs ft : Z) :
  ~ is_nan_bits fs -> ~ is_nan_bits ft ->
  (fpu_cmp_ole_64 fs ft = 1 \/ fpu_cmp_ole_64 ft fs = 1)
  /\ (fpu_cmp_ole_64 fs ft = 1 /\ fpu_cmp_ole_64 ft fs = 1 <->
      SFcompare (double_of_bits fs) (double_of_bits ft) = Some Eq).
Proof.
  rewrite <- !double_of_bits_nan. intros Hfs Hft.
  rewrite !cmp_ole_of_compare.
  rewrite (SFcompare_antisym (double_of_bits fs) (double_of_bits ft)).
  destruct (SFcompare (double_of_bits fs) (double_of_bits ft))
    as [[| |]|] eqn:Hcmp; cbn [option_map CompOpp].
  - split; [left; reflexivity|]. split; auto.
  - split; [left; reflexivity|]. split; [intros [_ ?]|]; discriminate.
  - split; [right; reflexivity|]. split; [intros [? _]|]; discriminate.
  - exfalso.
    destruct (double_of_bits fs) as [[|]|[|]| |[|] ? ?],
      (double_of_bits ft) as [[|]|[|]| |[|] ? ?];
      try discriminate Hcmp; contradiction.
Qed.

(** The exponent and the mantissa [double_of_bits] gives a pattern between
    +0 and +infinity. *)
Lemma double_of_bits_nonneg (x : Z) :
  0 <= x <= 0x7FF0000000000000 ->
  double_of_bits x
  = if x / 2 ^ 52 =? 0 then
      match x mod 2 ^ 52 with
      | Zpos p => S754_finite false p (-1074)
      | _ => S754_zero false
      end
    else if x / 2 ^ 52 =? 0x7FF then S754_infinity false
    else
      match x mod 2 ^ 52 + 2 ^ 52 with
      | Zpos p => S754_finite false p (x / 2 ^ 52 - 1075)
      | _ => S754_nan
      end.
Proof.
  intros Hx. unfold double_of_bits.
  assert (Hsign : Z.testbit x 63 = false).
  { rewrite Z.testbit_eqb by lia. rewrite (Z.div_small x (2 ^ 63)) by lia.
    reflexivity. }
  assert (He : Z.land (Z.shiftr x 52) 0x7FF = x / 2 ^ 52).
  { rewrite Z.shiftr_div_pow2 by lia. change 0x7FF with (Z.ones 11).
    rewrite Z.land_ones by lia. apply Z.mod_small.
    change (2 ^ 52) with 4503599627370496. change (2 ^ 11) with 2048.
    Z.div_mod_to_equations. lia. }
  assert (Hm : Z.land x 0xFFFFFFFFFFFFF = x mod 2 ^ 52).
  { change 0xFFFFFFFFFFFFF with (Z.ones 52). apply Z.land_ones. lia. }
  rewrite Hsign, He, Hm.
  destruct (x / 2 ^ 52 =? 0); [reflexivity|].
  destruct (Z.eqb_spec (x / 2 ^ 52) 2047) as [Hinf|_]; [|reflexivity].
  replace (x mod 2 ^ 52) with 0; [reflexivity|].
  revert Hinf. change (2 ^ 52) with 4503599627370496.
  Z.div_mod_to_equations. lia.
Qed.

Lemma SFcompare_nonneg_bits (x y : Z) :
  0 <= x <= 0x7FF0000000000000 ->
  0 <= y <= 0x7FF0000000000000 ->
  SFcompare (double_of_bits x) (double_of_bits y) = Some (x ?= y).
Proof.
  intros Hx Hy.
  rewrite (double_of_bits_nonneg x Hx), (double_of_bits_nonneg y Hy).
  change (2 ^ 52) with 4503599627370496.
  pose proof (Z.div_mod x 4503599627370496 ltac:(lia)) as Hxe.
  pose proof (Z.div_mod y 4503599627370496 ltac:(lia)) as Hye.
  pose proof (Z.mod_pos_bound x 4503599627370496 ltac:(lia)) as Hxm.
  pose proof (Z.mod_pos_bound y 4503599627370496 ltac:(lia)) as Hym.
  assert (0 <= x / 4503599627370496 <= 2047) as Hxq
    by (Z.div_mod_to_equations; lia).
  assert (0 <= y / 4503599627370496 <= 2047) as Hyq
    by (Z.div_mod_to_equations; lia).
  assert (x / 4503599627370496 = 2047 -> x mod 4503599627370496 = 0) as Hxi
    by lia.
  assert (y / 4503599627370496 = 2047 -> y mod 4503599627370496 = 0) as Hyi
    by lia.
  generalize dependent (x / 4503599627370496). intros ex Hxe Hxq Hxi.
  generalize dependent (x mod 4503599627370496). intros mx Hxe Hxm Hxi.
  generalize dependent (y / 4503599627370496). intros ey Hye Hyq Hyi.
  generalize dependent (y mod 4503599627370496). intros my Hye Hym Hyi.
  assert (Hcmp : forall a b c, (a ?= b) = c <-> Some c = Some (a ?= b))
    by (intros; split; congruence).
  symmetry.
  destruct (Z.eqb_spec ex 0) as [Hex0|Hex0];
    destruct (Z.eqb_spec ey 0) as [Hey0|Hey0];
    try destruct (Z.eqb_spec ex 2047) as [Hexi|Hexi];
    try destruct (Z.eqb_spec ey 2047) as [Heyi|Heyi];
    try (destruct mx as [|px|px] eqn:Hmx; [| |lia]);
    try (destruct my as [|py|py] eqn:Hmy; [| |lia]);
    try (destruct (Z.pos px + 4503599627370496) as [|qx|qx] eqn:Hqx;
         [lia| |lia]);
    try (destruct (Z.pos py + 4503599627370496) as [|qy|qy] eqn:Hqy;
         [lia| |lia]);
    try (destruct (0 + 4503599627370496) as [|q0|q0] eqn:Hq0;
         [lia| |lia]);
    cbn [SFcompare]; f_equal;
    try (apply Z.compare_eq_iff; lia);
    try (apply Z.compare_lt_iff; lia);
    try (apply Z.compare_gt_iff; lia).
  all: match goal with
       | |- (_ ?= _) = match ?A ?= ?B with _ => _ end =>
           destruct (Z.compare_spec A B);
           [ | apply Z.compare_lt_iff; lia | apply Z.compare_gt_iff; lia ]
       end.
  all: match goal with
       | |- (?a ?= ?b) = Pos.compare_cont Eq ?p ?q =>
           change ((a ?= b) = (Z.pos p ?= Z.pos q))
       | |- (?a ?= ?b) = (?p ?= ?q)%positive =>
           change ((a ?= b) = (Z.pos p ?= Z.pos q))
       end.
  all: match goal with
       | |- _ = (?p ?= ?q) =>
           destruct (Z.compare_spec p q);
           [ apply Z.compare_eq_iff | apply Z.compare_lt_iff
           | apply Z.compare_gt_iff ]; lia
       end.
Qed.

(** X19. Between +0 and +infinity the comparison orders doubles as it
    orders their bit patterns: it stores 1 exactly when the pattern of [fs]
    is at most the pattern of [ft]. *)
Theorem fpu_cmp_ole_64_nonneg_patterns (fs ft : Z) :
  0 <= fs <= 0x7FF0000000000000 ->
  0 <= ft <= 0x7FF0000000000000 ->
  fpu_cmp_ole_64 fs ft = 1 <-> fs <= ft.
Proof.
  intros Hfs Hft. rewrite cmp_ole_of_compare.
  rewrite (SFcompare_nonneg_bits fs ft Hfs Hft).
  destruct (Z.compare_spec fs ft); split; intros; try lia; try discriminate;
    reflexivity.
Qed.

(** ** The further properties on the concrete machine *)

Lemma idle_handlers_keep_fetch_fault : handlers_keep_fetch_fault.
Proof. intros id s a b. reflexivity. Qed.

Lemma idle_handlers_preserve_control : handlers_preserve_control.
Proof. intros id s a b. reflexivity. Qed.

Lemma idle_env_preserves_bus : env_preserves_bus.
Proof. repeat split; intros; intros s; reflexivity. Qed.

Lemma ex_forward_operands_witness :
  (5 < length (regs rest_state))%nat
  /\ (ex_forward (regs rest_state) 5 0xDEAD 5 0).1.2 = 0xDEAD
  /\ (ex_forward (regs rest_state) 5 0xDEAD 5 0).2 = 0.
Proof.
  split; [vm_compute; lia|].
  destruct (ex_forward_operands (regs rest_state) 5 0xDEAD 5 0)
    as [Hrs Hrt]; [vm_compute; lia | vm_compute; lia |].
  rewrite Hrs, Hrt. split; reflexivity.
Defined.

Lemma wb_stage_commit_witness :
  input_fault WB interlock_state = VR4300_FAULT_NONE
  /\ reg_read (regs (vr4300_wb_stage interlock_state).1) 5 = 0xDEAD
  /\ reg_read (regs (vr4300_wb_stage interlock_state).1) 0 = 0.
Proof.
  split; [reflexivity|].
  destruct (wb_stage_commit interlock_state) as (_ & _ & _ & _ & _ & _ & Hc).
  split; rewrite (Hc eq_refl) by (vm_compute; lia); reflexivity.
Defined.

Lemma slow_mode_is_fast_path_when_clean_witness :
  (forall st, input_fault st recovering_state = VR4300_FAULT_NONE)
  /\ vr4300_cycle_slow_wb recovering_state
     = (run_stages (stage_body <$> [WB; DC; EX; RF; IC])
          (exception_history_tick recovering_state)).1.
Proof.
  split; [intros st; destruct st; reflexivity|].
  rewrite (slow_mode_is_fast_path_when_clean recovering_state
             idle_handlers_keep_fetch_fault eq_refl eq_refl eq_refl eq_refl).
  apply fast_path_run.
Defined.

Lemma replay_variants_nest_witness :
  (replay_step DC interlock_state).2 = true
  /\ or_return (replay_step DC interlock_state) vr4300_cycle_slow_ic
     = (replay_step DC interlock_state).1.
Proof.
  split; [reflexivity|].
  destruct (replay_variants_nest interlock_state) as (_ & _ & _ & _ & Habort).
  apply (Habort DC). reflexivity.
Defined.

Lemma stall_countdown_witness :
  cycles_to_stall (pipeline stalled_state) = 3
  /\ vr4300_cycles 3 stalled_state = Some (set_cycles_to_stall stalled_state 0).
Proof.
  split; [reflexivity|].
  apply (stall_countdown 3 stalled_state); vm_compute; [discriminate | lia].
Defined.

Lemma cycles_keep_R0_witness :
  R0_zero rest_state
  /\ exists s', vr4300_cycles 3 rest_state = Some s' /\ R0_zero s'.
Proof.
  split; [reflexivity|].
  eexists. split; [vm_compute; reflexivity|].
  apply (cycles_keep_R0 3 rest_state _ idle_env_preserves_R0 eq_refl).
  vm_compute. reflexivity.
Defined.

Lemma fixdc_result_bits_witness :
  Z.testbit (fixdc_result 1 0x80 0xFFFFFFFFFFFFFFFF) 63 = true
  /\ Z.testbit (fixdc_result 1 0x7F 0xFFFFFFFFFFFFFFFF) 63 = false.
Proof.
  split.
  - rewrite (fixdc_result_bits 1 0x80 0xFFFFFFFFFFFFFFFF 63) by lia.
    reflexivity.
  - rewrite (fixdc_result_bits 1 0x7F 0xFFFFFFFFFFFFFFFF 63) by lia.
    reflexivity.
Defined.

Lemma fixdc_extension_modes_witness :
  fixdc_result 2 0x12348000 0 = 0x8000
  /\ fixdc_result 2 0x12348000 (2 ^ 64 - 1) = 0xFFFFFFFFFFFF8000.
Proof.
  destruct (fixdc_extension_modes 2 0x12348000) as [_ Hmodes].
  destruct (Hmodes ltac:(lia)) as [Hzero Hsign].
  split; [rewrite Hzero | rewrite Hsign]; reflexivity.
Defined.

Lemma dc_stage_continue_witness :
  (vr4300_dc_stage write_state).2 = false
  /\ bus (vr4300_dc_stage write_state).1
     = [{| bw_address := 0x1000; bw_word := 0xCAFE; bw_dqm := 0xFFFFFFFF |}].
Proof.
  destruct (dc_stage_continue write_state) as (Hiff & _ & Hwrite).
  split.
  - apply Hiff. right. split; [reflexivity | exists kseg0; reflexivity].
  - destruct (Hwrite kseg0 eq_refl eq_refl) as (Hbus & _).
    rewrite Hbus. reflexivity.
Defined.

Lemma one_bus_write_per_cycle_witness :
  exists s',
    vr4300_cycle write_state = Some s'
    /\ (bus s' = bus write_state \/ exists w, bus s' = w :: bus write_state).
Proof.
  destruct (one_bus_write_per_cycle idle_env_preserves_bus) as [Hcycle _].
  eexists. split; [vm_compute; reflexivity|].
  apply Hcycle. vm_compute. reflexivity.
Defined.

Lemma ic_stage_applies_mask_once_witness :
  rfex_iw_mask (rfex_latch (pipeline delay_slot_state)) = 0
  /\ Z.land (rfex_iw (rfex_latch (pipeline delay_slot_state)))
       (rfex_iw_mask (rfex_latch (pipeline delay_slot_state))) = 0
  /\ rfex_iw (rfex_latch (pipeline (vr4300_ic_stage delay_slot_state).1)) = 0
  /\ rfex_iw_mask (rfex_latch (pipeline (vr4300_ic_stage delay_slot_state).1))
     = 0xFFFFFFFF.
Proof.
  split; [reflexivity|].
  destruct (ic_stage_applies_mask_once delay_slot_state) as (_ & Hzero & _).
  split; [apply Hzero; reflexivity|]. split; reflexivity.
Defined.

Lemma replay_hands_over_to_fast_path_witness :
  skip_stages (pipeline rf_replay_state) = 3%nat
  /\ exists s',
       vr4300_cycle rf_replay_state = Some s'
       /\ skip_stages (pipeline s') = 0%nat
       /\ vr4300_cycle s'
          = Some (run_stages (stage_body <$> [WB; DC; EX; RF; IC]) s').1.
Proof.
  split; [reflexivity|].
  destruct (replay_hands_over_to_fast_path rf_replay_state 3
              idle_handlers_preserve_control eq_refl eq_refl eq_refl
              ltac:(lia))
    as (Hcycle & _ & Hdone).
  destruct (Hdone eq_refl) as (Hskip & _ & _ & Hfast).
  eexists. split; [exact Hcycle|]. split; [exact Hskip|].
  apply Hfast. reflexivity.
Defined.

Lemma pipeline_init_fast_mode_witness :
  pipeline fresh_state
  = vr4300_pipeline_init VR4300_FAULT_NONE VR4300_BUS_REQUEST_NONE kseg0
  /\ vr4300_cycle fresh_state
     = Some (run_stages (stage_body <$> [WB; DC; EX; RF; IC]) fresh_state).1.
Proof.
  split; [reflexivity|].
  apply (pipeline_init_fast_mode VR4300_FAULT_NONE VR4300_BUS_REQUEST_NONE
           kseg0 fresh_state eq_refl eq_refl eq_refl eq_refl).
Defined.

Lemma cycle_defined_iff_witness :
  is_Some (vr4300_cycle rest_state)
  /\ vr4300_cycle (set_skip_stages rest_state 6) = None.
Proof.
  split.
  - apply (cycle_defined_iff rest_state). right. vm_compute. lia.
  - destruct (vr4300_cycle (set_skip_stages rest_state 6)) as [s'|] eqn:Hc;
      [|reflexivity].
    destruct (proj1 (cycle_defined_iff (set_skip_stages rest_state 6)))
      as [Hstall|Hskip]; [rewrite Hc; eauto | discriminate Hstall |].
    vm_compute in Hskip. lia.
Defined.

Lemma fpu_cmp_ole_64_nan_witness :
  is_nan_bits 0x7FF8000000000000
  /\ fpu_cmp_ole_64 0x7FF8000000000000 0x3FF0000000000000 = 0
  /\ fpu_cmp_ole_64 0x3FF0000000000000 0x7FF8000000000000 = 0
  /\ fpu_cmp_ole_64 0x3FF0000000000000 0x3FF0000000000000 = 1.
Proof.
  assert (Hnan : is_nan_bits 0x7FF8000000000000)
    by (split; [reflexivity | discriminate]).
  split; [exact Hnan|].
  split; [apply (fpu_cmp_ole_64_nan _ _); left; exact Hnan|].
  split; [apply (fpu_cmp_ole_64_nan _ _); right; exact Hnan|].
  apply (fpu_cmp_ole_64_nan 0x3FF0000000000000 0).
  intros [_ Hfrac]. apply Hfrac. reflexivity.
Defined.

Lemma fpu_cmp_ole_64_total_witness :
  ~ is_nan_bits 0 /\ ~ is_nan_bits 0x8000000000000000
  /\ fpu_cmp_ole_64 0 0x8000000000000000 = 1
  /\ fpu_cmp_ole_64 0x8000000000000000 0 = 1.
Proof.
  assert (H0 : ~ is_nan_bits 0) by (intros [He _]; discriminate He).
  assert (H1 : ~ is_nan_bits 0x8000000000000000)
    by (intros [He _]; discriminate He).
  split; [exact H0|]. split; [exact H1|].
  destruct (fpu_cmp_ole_64_total 0 0x8000000000000000 H0 H1) as [_ Heq].
  apply Heq. reflexivity.
Defined.

Lemma fpu_cmp_ole_64_nonneg_patterns_witness :
  fpu_cmp_ole_64 0x3FF0000000000000 0x4000000000000000 = 1
  /\ fpu_cmp_ole_64 0x0000000000000001 0x0010000000000000 = 1.
Proof.
  split; apply fpu_cmp_ole_64_nonneg_patterns; lia.
Defined.

Lemma reset_waits_for_stall_witness :
  cycles_to_stall (pipeline stalled_state) = 3
  /\ Z.land (signals stalled_state)
       (VR4300_SIGNAL_COLDRESET (vr4300_env := raising_env)) = 1
  /\ fault_present (pipeline stalled_state) = false
  /\ vr4300_cycles (env := raising_env) 3 stalled_state
     = Some (set_cycles_to_stall stalled_state 0)
  /\ vr4300_cycles (env := raising_env) 4 stalled_state
     = cycle_dispatch (env := raising_env)
         (raise_fault (set_cycles_to_stall stalled_state 0))
  /\ exists s',
       vr4300_cycles (env := raising_env) 4 stalled_state = Some s'
       /\ fault_present (pipeline s') = true.
Proof.
  split; [reflexivity|]. split; [reflexivity|]. split; [reflexivity|].
  destruct (reset_waits_for_stall (env := raising_env) 3 stalled_state
              eq_refl ltac:(lia))
    as (Hrun & _ & Hnext); [discriminate|].
  change (3 + 1)%nat with 4%nat in Hnext.
  split; [exact Hrun|]. split; [exact Hnext|].
  rewrite Hnext. eexists. split; [vm_compute; reflexivity | reflexivity].
Defined.

Lemma raising_handlers_preserve_control :
  handlers_preserve_control (env := raising_env).
Proof. intros id s a b. reflexivity. Qed.

Lemma fault_recovery_exit_witness :
  fault_present (pipeline recovering_state) = true
  /\ exception_history (pipeline recovering_state) = 0
  /\ quiet_cycles (env := raising_env) 7 recovering_state = true
  /\ (exists s5,
        vr4300_cycles (env := raising_env) 5 recovering_state = Some s5
        /\ fault_present (pipeline s5) = true
        /\ exception_history (pipeline s5) = 5)
  /\ (exists s6,
        vr4300_cycles (env := raising_env) 6 recovering_state = Some s6
        /\ fault_present (pipeline s6) = false
        /\ exception_history (pipeline s6) = 6)
  /\ (exists s7,
        vr4300_cycles (env := raising_env) 7 recovering_state = Some s7
        /\ fault_present (pipeline s7) = false
        /\ exception_history (pipeline s7) = 6).
Proof.
  split; [reflexivity|]. split; [reflexivity|].
  split; [vm_compute; reflexivity|].
  destruct (fault_recovery_exit (env := raising_env)
              raising_handlers_preserve_control) as (_ & Hrun).
  split; [|split].
  - destruct (Hrun recovering_state 5%nat
                eq_refl eq_refl eq_refl eq_refl eq_refl)
      as (s' & Hcycles & Hfault & Hhistory & _);
      [vm_compute; reflexivity|].
    exists s'. split; [exact Hcycles|].
    split; [exact Hfault | exact Hhistory].
  - destruct (Hrun recovering_state 6%nat
                eq_refl eq_refl eq_refl eq_refl eq_refl)
      as (s' & Hcycles & Hfault & Hhistory & _);
      [vm_compute; reflexivity|].
    exists s'. split; [exact Hcycles|].
    split; [exact Hfault | exact Hhistory].
  - destruct (Hrun recovering_state 7%nat
                eq_refl eq_refl eq_refl eq_refl eq_refl)
      as (s' & Hcycles & Hfault & Hhistory & _);
      [vm_compute; reflexivity|].
    exists s'. split; [exact Hcycles|].
    split; [exact Hfault | exact Hhistory].
Defined.

Lemma idle_handlers_keep_commons : handlers_keep_commons.
Proof. intros id s a b. reflexivity. Qed.

Lemma latches_advance_one_stage_witness :
  commons rest_state
  = (no_fault 0xFFFFFFFF80000000, no_fault 0xFFFFFFFF80000004,
     no_fault 0xFFFFFFFF80000008, no_fault 0xFFFFFFFF8000000C)
  /\ cycle_aborts rest_state = false
  /\ exists s',
       vr4300_cycle rest_state = Some s'
       /\ dcwb_common (dcwb_latch (pipeline s'))
          = no_fault 0xFFFFFFFF80000004
       /\ exdc_common (exdc_latch (pipeline s'))
          = no_fault 0xFFFFFFFF80000008
       /\ rfex_common (rfex_latch (pipeline s'))
          = no_fault 0xFFFFFFFF8000000C
       /\ fault (icrf_common (icrf_latch (pipeline s'))) = VR4300_FAULT_NONE.
Proof.
  split; [reflexivity|]. split; [reflexivity|].
  destruct (latches_advance_one_stage rest_state idle_handlers_keep_commons
              eq_refl eq_refl eq_refl eq_refl eq_refl)
    as (s' & Hcycle & Hdcwb & Hexdc & Hrfex & Hicrf & _).
  exists s'. repeat split; assumption.
Defined.

Lemma idle_handlers_do_nothing (id : nat) (s : vr4300) (a b : Z) :
  vr4300_function_table id s a b = s.
Proof. reflexivity. Qed.

Lemma nop_leaves_no_trace_witness :
  R0_zero rest_state
  /\ (vr4300_ex_stage rest_state).2 = false
  /\ regs (vr4300_wb_stage
             (vr4300_dc_stage (vr4300_ex_stage rest_state).1).1).1
     = regs rest_state.
Proof.
  split; [reflexivity|]. split; [reflexivity|].
  destruct (nop_leaves_no_trace rest_state
              (idle_handlers_do_nothing _) eq_refl eq_refl)
    as (_ & _ & _ & _ & _ & _ & _ & Hregs & _).
  exact Hregs.
Defined.
